(** * World of Districts: session core, interaction arbiter and movement resolver

    A shallow embedding of the two server programs of the repository (the
    file-backed server and the MongoDB server, both in [src/unnamed/part_002])
    and of the movement code of the browser client
    ([src/client/src/main.js]), with the properties of the specification
    stated and settled over them.

    Conventions of the embedding.
    - The handlers of the file-backed server are synchronous: each is one
      step on the server state ([FileServer]).  Those of the MongoDB
      server are [async]: [MongoTask] cuts each of them at its [await]s
      and [MongoLoop] lets other events and other continuations run at
      every cut.  [MongoServer] has the same handlers run from their event
      to their end with nothing in between, which is what [MongoTask]
      gives when no other handler runs meanwhile ([handle_uninterrupted]).
    - JavaScript numbers are the integers ([Z]) and [NaN].  This is exact
      for integer-valued doubles of magnitude below 2^53, printed in
      decimal below 10^21: the range of the game's coordinates, prices
      and balances.  Fractions and larger magnitudes are not covered.
      Strings are ASCII.
    - An event carries the payload its handler takes apart, with a string
      where the client sends a string ([Req.t]); an event without its
      payload, or with an array or an object in the place of a string, is
      not covered.
    - A JavaScript object used as a dictionary is an insertion-ordered
      association list ([Obj.t]); only own properties are modelled: a key
      that reaches [Object.prototype] reads as absent.
    - An uncaught [TypeError] ends the handler with [None]. *)

From Stdlib Require Import ZArith List String Ascii Bool Lia.
From Stdlib Require Import DecimalString DecimalPos DecimalZ.
From Stdlib Require Hexadecimal.
Import ListNotations.
Open Scope string_scope.
Open Scope list_scope.
Open Scope Z_scope.

(* ------------------------------------------------------------------ *)
(** * JavaScript primitive values *)

Module JS.

(** A number: an integer-valued double of magnitude below 2^53, or
    [NaN]. *)
Inductive number : Type :=
| NaN
| Num (z : Z).

Inductive value : Type :=
| Undefined
| Null
| Boolean (b : bool)
| Number (n : number)
| Str (s : string).

(** [if (v)] *)
Definition truthy (v : value) : bool :=
  match v with
  | Undefined | Null => false
  | Boolean b => b
  | Number NaN => false
  | Number (Num z) => negb (z =? 0)
  | Str s => negb (s =? "")%string
  end.

(** [String(v)]; a number prints in decimal. *)
Definition ToString (v : value) : string :=
  match v with
  | Undefined => "undefined"
  | Null => "null"
  | Boolean true => "true"
  | Boolean false => "false"
  | Number NaN => "NaN"
  | Number (Num z) => NilZero.string_of_int (Z.to_int z)
  | Str s => s
  end.

Definition num_add (a b : number) : number :=
  match a, b with
  | Num x, Num y => Num (x + y)
  | _, _ => NaN
  end.

(** [Number(v)] for the primitives that are not strings. *)
Definition ToNumber_nonstring (v : value) : number :=
  match v with
  | Undefined => NaN
  | Null => Num 0
  | Boolean b => Num (if b then 1 else 0)
  | Number n => n
  | Str _ => NaN
  end.

(** [a + b]: concatenation as soon as one operand is a string, numeric
    addition otherwise. *)
Definition add (a b : value) : value :=
  match a, b with
  | Str _, _ | _, Str _ => Str (String.append (ToString a) (ToString b))
  | _, _ => Number (num_add (ToNumber_nonstring a) (ToNumber_nonstring b))
  end.

(** [a === b] *)
Definition strict_eq (a b : value) : bool :=
  match a, b with
  | Undefined, Undefined => true
  | Null, Null => true
  | Boolean x, Boolean y => Bool.eqb x y
  | Number (Num x), Number (Num y) => x =? y
  | Str x, Str y => (x =? y)%string
  | _, _ => false
  end.

(** ** [parseInt(v)] with no radix argument *)

Definition is_white (c : ascii) : bool :=
  match c with
  | "009"%char | "010"%char | "011"%char | "012"%char | "013"%char
  | " "%char => true
  | _ => false
  end.

Fixpoint trim_start (s : string) : string :=
  match s with
  | String c s' => if is_white c then trim_start s' else s
  | EmptyString => EmptyString
  end.

Definition dec_digit (c : ascii) : option (Decimal.uint -> Decimal.uint) :=
  match c with
  | "0"%char => Some Decimal.D0 | "1"%char => Some Decimal.D1
  | "2"%char => Some Decimal.D2 | "3"%char => Some Decimal.D3
  | "4"%char => Some Decimal.D4 | "5"%char => Some Decimal.D5
  | "6"%char => Some Decimal.D6 | "7"%char => Some Decimal.D7
  | "8"%char => Some Decimal.D8 | "9"%char => Some Decimal.D9
  | _ => None
  end.

(** The longest prefix of decimal digits. *)
Fixpoint dec_prefix (s : string) : Decimal.uint :=
  match s with
  | String c s' =>
      match dec_digit c with
      | Some d => d (dec_prefix s')
      | None => Decimal.Nil
      end
  | EmptyString => Decimal.Nil
  end.

Definition hex_digit (c : ascii)
  : option (Hexadecimal.uint -> Hexadecimal.uint) :=
  match c with
  | "0"%char => Some Hexadecimal.D0 | "1"%char => Some Hexadecimal.D1
  | "2"%char => Some Hexadecimal.D2 | "3"%char => Some Hexadecimal.D3
  | "4"%char => Some Hexadecimal.D4 | "5"%char => Some Hexadecimal.D5
  | "6"%char => Some Hexadecimal.D6 | "7"%char => Some Hexadecimal.D7
  | "8"%char => Some Hexadecimal.D8 | "9"%char => Some Hexadecimal.D9
  | "a"%char | "A"%char => Some Hexadecimal.Da
  | "b"%char | "B"%char => Some Hexadecimal.Db
  | "c"%char | "C"%char => Some Hexadecimal.Dc
  | "d"%char | "D"%char => Some Hexadecimal.Dd
  | "e"%char | "E"%char => Some Hexadecimal.De
  | "f"%char | "F"%char => Some Hexadecimal.Df
  | _ => None
  end.

Fixpoint hex_prefix (s : string) : Hexadecimal.uint :=
  match s with
  | String c s' =>
      match hex_digit c with
      | Some d => d (hex_prefix s')
      | None => Hexadecimal.Nil
      end
  | EmptyString => Hexadecimal.Nil
  end.

Definition dec_magnitude (s : string) : option Z :=
  match dec_prefix s with
  | Decimal.Nil => None
  | u => Some (Z.of_uint u)
  end.

Definition hex_magnitude (s : string) : option Z :=
  match hex_prefix s with
  | Hexadecimal.Nil => None
  | u => Some (Z.of_hex_uint u)
  end.

(** The digits after the sign: radix 16 behind a [0x] prefix, radix 10
    otherwise; [None] when no digit is found. *)
Definition magnitude (s : string) : option Z :=
  match s with
  | String "0" (String "x" rest) | String "0" (String "X" rest) =>
      hex_magnitude rest
  | _ => dec_magnitude s
  end.

Definition parseInt (v : value) : number :=
  let s := trim_start (ToString v) in
  let '(sign, digits) :=
    match s with
    | String "-" s' => (-1, s')
    | String "+" s' => (1, s')
    | _ => (1, s)
    end in
  match magnitude digits with
  | Some m => Num (sign * m)
  | None => NaN
  end.

End JS.

(* ------------------------------------------------------------------ *)
(** * Objects used as dictionaries *)

Module Obj.

Definition t (V : Type) : Type := list (string * V).

(** [o[k]] *)
Fixpoint get {V} (o : t V) (k : string) : option V :=
  match o with
  | [] => None
  | (k', v) :: o' => if (k' =? k)%string then Some v else get o' k
  end.

(** [o[k] = v]: an existing key keeps its place, a new key goes last. *)
Fixpoint set {V} (o : t V) (k : string) (v : V) : t V :=
  match o with
  | [] => [(k, v)]
  | (k', v') :: o' =>
      if (k' =? k)%string then (k, v) :: o' else (k', v') :: set o' k v
  end.

(** [delete o[k]] *)
Definition delete {V} (o : t V) (k : string) : t V :=
  filter (fun kv => negb (fst kv =? k)%string) o.

(** [Object.values(o)] *)
Definition values {V} (o : t V) : list V := map snd o.

(** [Object.keys(o)] *)
Definition keys {V} (o : t V) : list string := map fst o.

End Obj.

(** [list.includes(s)] on strings *)
Definition includes (l : list string) (s : string) : bool :=
  existsb (fun s' => (s' =? s)%string) l.


(* ------------------------------------------------------------------ *)
(** * Records of the data model *)

(** An account as stored in [persistentUsers] / [usersCol]. *)
Module User.
Record t : Type := mk {
  password : string;
  username : string;
  x : JS.value;
  y : JS.value;
  district : string;
  color : string;
  money : Z;
  equipment : option string   (* [None]: null or absent *)
}.
End User.

(** A furniture placement, as the client sends it. *)
Module Furniture.
Record t : Type := mk {
  type : string;
  color : string;
  x : JS.value;
  y : JS.value
}.
End Furniture.

(** A plot of [persistentHouses] / [housesCol]. *)
Module House.
Record t : Type := mk {
  id : string;
  x : Z;
  y : Z;
  price : Z;
  owner : option string;   (* [None]: null *)
  furniture : list Furniture.t
}.

Definition set_owner (h : t) (o : option string) : t :=
  mk (id h) (x h) (y h) (price h) o (furniture h).

Definition push_furniture (h : t) (f : Furniture.t) : t :=
  mk (id h) (x h) (y h) (price h) (owner h) (furniture h ++ [f]).

(** [!house.owner]: null and the empty string are both falsy. *)
Definition unowned (h : t) : bool :=
  match owner h with
  | None => true
  | Some o => (o =? "")%string
  end.
End House.

(** A catalog item of [items.json] / [itemsCol]. *)
Module Item.
Record t : Type := mk {
  id : string;
  name : string;
  price : Z;
  description : string;
  damage : Z;
  range : Z
}.
End Item.

(** A live session: [players[socket.id]], the account snapshot spread into
    it together with the live-only fields. *)
Module Player.
Record t : Type := mk {
  password : string;
  username : string;
  x : JS.value;
  y : JS.value;
  district : string;
  color : string;
  money : Z;
  equipment : option string;
  playerId : string;
  hp : Z;
  maxHp : Z;
  mode : JS.value;    (* [Undefined] until joinBattle *)
  team : JS.value
}.

(** [{ ...userData, playerId: socket.id, hp: 100, maxHp: 100 }] *)
Definition of_user (u : User.t) (sid : string) : t :=
  mk (User.password u) (User.username u) (User.x u) (User.y u)
     (User.district u) (User.color u) (User.money u) (User.equipment u)
     sid 100 100 JS.Undefined JS.Undefined.

Definition set_pos (p : t) (nx ny : JS.value) : t :=
  mk (password p) (username p) nx ny (district p) (color p) (money p)
     (equipment p) (playerId p) (hp p) (maxHp p) (mode p) (team p).

Definition set_district (p : t) (d : string) : t :=
  mk (password p) (username p) (x p) (y p) d (color p) (money p)
     (equipment p) (playerId p) (hp p) (maxHp p) (mode p) (team p).

Definition set_money (p : t) (m : Z) : t :=
  mk (password p) (username p) (x p) (y p) (district p) (color p) m
     (equipment p) (playerId p) (hp p) (maxHp p) (mode p) (team p).

Definition set_equipment (p : t) (e : option string) : t :=
  mk (password p) (username p) (x p) (y p) (district p) (color p) (money p)
     e (playerId p) (hp p) (maxHp p) (mode p) (team p).

Definition set_hp (p : t) (h : Z) : t :=
  mk (password p) (username p) (x p) (y p) (district p) (color p) (money p)
     (equipment p) (playerId p) h (maxHp p) (mode p) (team p).

(** [player.hp = 100; player.maxHp = 100; player.mode = mode;
    player.team = team] *)
Definition set_battle (p : t) (m tm : JS.value) : t :=
  mk (password p) (username p) (x p) (y p) (district p) (color p) (money p)
     (equipment p) (playerId p) 100 100 m tm.
End Player.

(** Outbound socket.io events. *)
Module Ev.
Inductive t : Type :=
| authError (msg : string)
| loginSuccess (p : Player.t) (items : list Item.t)
| loginSuccess_no_session (playerId : string) (items : list Item.t)
    (* [{ ...undefined, playerId, items }] *)
| houseData (houses : Obj.t House.t)
| currentPlayers (l : list Player.t)
| newPlayer (p : Player.t)
| newPlayer_undefined
| playerDisconnected (id : string)
| playerMoved (p : Player.t)
| houseUpdate (h : House.t)
| updateMoney (amount : Z)
| chatMessage (id text color : string)
| quizResult (success : bool) (reward : option (Z * Z))  (* reward, newTotal *)
| itemBought (item : option Item.t) (success : bool) (message : option string)
| playerUpdate (p : Player.t)
| battleJoined (mode team : JS.value)
| playerHit (targetId : string) (hp : Z) (attackerId : string)
| playerChangedDistrict (l : list Player.t)
| setDistrict (name : string)
| playerRespawned.
End Ev.

(** The optional [spawnPos] argument of a district change: absent, or an
    object with [x] and [y]. *)
Definition spawn : Type := option (JS.value * JS.value).

Definition DISTRICTS : list string :=
  ["plaza"; "housing"; "arena"; "school"; "arena_battle"].

(* ------------------------------------------------------------------ *)
(** * Server state and the socket.io primitives

    Shared by the two servers; [Store] is the persistence backend. *)

Section Server.

Context {Store : Type}.

Record state : Type := mkState {
  db : Store;
  players : Obj.t Player.t;        (* socket id -> session *)
  socketUserMap : Obj.t string;    (* socket id -> username *)
  sockets : list string;           (* connected socket ids *)
  rooms : list (string * string);  (* (socket id, room) memberships *)
  outbox : list (string * Ev.t)    (* deliveries (recipient, event), oldest first *)
}.

Definition set_db (s : state) (st : Store) : state :=
  mkState st (players s) (socketUserMap s) (sockets s) (rooms s) (outbox s).
Definition set_players (s : state) (ps : Obj.t Player.t) : state :=
  mkState (db s) ps (socketUserMap s) (sockets s) (rooms s) (outbox s).
Definition set_socketUserMap (s : state) (m : Obj.t string) : state :=
  mkState (db s) (players s) m (sockets s) (rooms s) (outbox s).
Definition set_sockets (s : state) (l : list string) : state :=
  mkState (db s) (players s) (socketUserMap s) l (rooms s) (outbox s).
Definition set_rooms (s : state) (r : list (string * string)) : state :=
  mkState (db s) (players s) (socketUserMap s) (sockets s) r (outbox s).
Definition set_outbox (s : state) (o : list (string * Ev.t)) : state :=
  mkState (db s) (players s) (socketUserMap s) (sockets s) (rooms s) o.

(** ** The handler monad: state, and [None] for an uncaught exception *)

Definition M (A : Type) : Type := state -> option (A * state).

Definition ret {A} (a : A) : M A := fun s => Some (a, s).
Definition bind {A B} (m : M A) (k : A -> M B) : M B :=
  fun s => match m s with
           | Some (a, s') => k a s'
           | None => None
           end.
Definition gets {A} (f : state -> A) : M A := fun s => Some (f s, s).
Definition modify (f : state -> state) : M unit := fun s => Some (tt, f s).
Definition throw {A} : M A := fun _ => None.

(** The state a handler leaves behind. *)
Definition exec (m : M unit) (s : state) : option state :=
  match m s with
  | Some (_, s') => Some s'
  | None => None
  end.

(** ** Rooms and emission *)

(** The membership pairs [rs] put socket [sid] in [room]. *)
Definition joined (rs : list (string * string)) (sid room : string) : bool :=
  existsb (fun sr => (fst sr =? sid)%string && (snd sr =? room)%string) rs.

Definition join_room (rs : list (string * string)) (sid room : string)
  : list (string * string) :=
  if joined rs sid room then rs else rs ++ [(sid, room)].

Definition leave_room (rs : list (string * string)) (sid room : string)
  : list (string * string) :=
  filter (fun sr => negb ((fst sr =? sid)%string && (snd sr =? room)%string))
         rs.

(** The connected sockets [all] that are in [room]. *)
Definition members_of (all : list string) (rs : list (string * string))
    (room : string) : list string :=
  filter (fun sid => joined rs sid room) all.

Definition in_room (s : state) (sid room : string) : bool :=
  joined (rooms s) sid room.

Definition members (s : state) (room : string) : list string :=
  members_of (sockets s) (rooms s) room.

Definition deliver (to : list string) (e : Ev.t) : M unit :=
  modify (fun s => set_outbox s (outbox s ++ map (fun r => (r, e)) to)).

(** [socket.emit(e)] *)
Definition socket_emit (sid : string) (e : Ev.t) : M unit :=
  deliver [sid] e.

(** [io.emit(e)]: every connected socket *)
Definition io_emit (e : Ev.t) : M unit :=
  bind (gets sockets) (fun all => deliver all e).

(** [io.to(room).emit(e)] *)
Definition io_to (room : string) (e : Ev.t) : M unit :=
  bind (gets (fun s => members s room)) (fun to => deliver to e).

(** [socket.to(room).emit(e)]: the room without the sender *)
Definition socket_to (sid room : string) (e : Ev.t) : M unit :=
  bind (gets (fun s => members s room))
       (fun to => deliver (filter (fun r => negb (r =? sid)%string) to) e).

(** [socket.join(room)] *)
Definition socket_join (sid room : string) : M unit :=
  modify (fun s => set_rooms s (join_room (rooms s) sid room)).

(** [socket.leave(room)] *)
Definition socket_leave (sid room : string) : M unit :=
  modify (fun s => set_rooms s (leave_room (rooms s) sid room)).

(** ** Access to [players] *)

(** [players[sid]] *)
Definition player_of (sid : string) : M (option Player.t) :=
  gets (fun s => Obj.get (players s) sid).

(** A field update through a reference to the object [players[sid]]. *)
Definition update_player (sid : string) (f : Player.t -> Player.t) : M unit :=
  modify (fun s =>
    match Obj.get (players s) sid with
    | Some p => set_players s (Obj.set (players s) sid (f p))
    | None => s
    end).

(** [Object.values(players).filter(p => p.district === room)] *)
Definition players_in (s : state) (room : string) : list Player.t :=
  filter (fun p => (Player.district p =? room)%string)
         (Obj.values (players s)).

(** A new connection: socket.io registers the socket. *)
Definition connection (sid : string) : M unit :=
  modify (fun s => set_sockets s (sockets s ++ [sid])).

(** What socket.io does to a closing socket before the [disconnect]
    handler runs: it leaves every room and is no longer connected. *)
Definition socket_closed (sid : string) : M unit :=
  modify (fun s =>
    set_rooms
      (set_sockets s (filter (fun r => negb (r =? sid)%string) (sockets s)))
      (filter (fun sr => negb (fst sr =? sid)%string) (rooms s))).

End Server.

Arguments state : clear implicits.
Arguments M : clear implicits.

Declare Scope handler_scope.
Delimit Scope handler_scope with handler.
Notation "x <- m ;; k" := (bind m (fun x => k))
  (at level 61, m at next level, right associativity) : handler_scope.
Notation "m ;; k" := (bind m (fun _ => k))
  (at level 61, right associativity) : handler_scope.
Open Scope handler_scope.

(** Inbound events of a connected socket. *)
Module Req.
Inductive t : Type :=
| register (username password : string) (color : string)
    (* [color]: the value drawn from [Math.random()] *)
| login (username password : string)
| disconnect
| playerMovement (x y : JS.value)
| joinDistrict (newDistrict : string) (spawnPos : spawn)
| buyHouse (plotId : string)
| enterHouse (plotId : string)
| leaveHouse
| placeFurniture (houseId : string) (item : Furniture.t)
| submitQuizAnswer (questionId : JS.value) (num1 num2 answer : JS.value)
    (extra : list (string * JS.value))
    (* [extra]: any further properties the client put in the payload *)
| buyItem (itemId : string)
| joinBattle (mode team : JS.value)
| playerAttack (targetId : string)
| chatMessage (msg : string).
End Req.

(** [items.find(i => i.id === equipment)] *)
Definition find_weapon (items : list Item.t) (equipment : option string)
  : option Item.t :=
  match equipment with
  | Some e => find (fun i => (Item.id i =? e)%string) items
  | None => None
  end.

(** [p.equipment || null] *)
Definition equipment_or_null (e : option string) : option string :=
  match e with
  | Some s => if (s =? "")%string then None else Some s
  | None => None
  end.

(* ------------------------------------------------------------------ *)
(** * The file-backed server (second program of [part_002]) *)

Module FileServer.

Record store : Type := mkStore {
  persistentUsers : Obj.t User.t;
  persistentHouses : Obj.t House.t;
  items : list Item.t;
  DATA_FILE : Obj.t User.t;      (* content of data/users.json *)
  HOUSES_FILE : Obj.t House.t    (* content of data/houses.json *)
}.

Definition H := M store.

Definition set_users (f : Obj.t User.t -> Obj.t User.t) : H unit :=
  modify (fun s =>
    let d := db s in
    set_db s (mkStore (f (persistentUsers d)) (persistentHouses d)
                         (items d) (DATA_FILE d) (HOUSES_FILE d))).

Definition set_houses (f : Obj.t House.t -> Obj.t House.t) : H unit :=
  modify (fun s =>
    let d := db s in
    set_db s (mkStore (persistentUsers d) (f (persistentHouses d))
                         (items d) (DATA_FILE d) (HOUSES_FILE d))).

(** [saveData(DATA_FILE, persistentUsers)] *)
Definition saveData_users : H unit :=
  modify (fun s =>
    let d := db s in
    set_db s (mkStore (persistentUsers d) (persistentHouses d)
                         (items d) (persistentUsers d) (HOUSES_FILE d))).

(** [saveData(HOUSES_FILE, persistentHouses)] *)
Definition saveData_houses : H unit :=
  modify (fun s =>
    let d := db s in
    set_db s (mkStore (persistentUsers d) (persistentHouses d)
                         (items d) (DATA_FILE d) (persistentHouses d))).

(** [persistentUsers[username].f = ...]: a [TypeError] when the account
    is missing. *)
Definition assign_user (username : string) (f : User.t -> User.t) : H unit :=
  users <- gets (fun s => persistentUsers (db s)) ;;
  match Obj.get users username with
  | Some u => set_users (fun us => Obj.set us username (f u))
  | None => throw
  end.

Definition user_set_money (m : Z) (u : User.t) : User.t :=
  User.mk (User.password u) (User.username u) (User.x u) (User.y u)
          (User.district u) (User.color u) m (User.equipment u).

Definition user_set_district (d : string) (u : User.t) : User.t :=
  User.mk (User.password u) (User.username u) (User.x u) (User.y u)
          d (User.color u) (User.money u) (User.equipment u).

Definition loginUser (sid username : string) : H unit :=
  users <- gets (fun s => persistentUsers (db s)) ;;
  match Obj.get users username with
  | None => throw   (* not reached: both callers have just seen the account *)
  | Some userData =>
      modify (fun s => set_socketUserMap s
                         (Obj.set (socketUserMap s) sid username)) ;;
      modify (fun s => set_players s
                         (Obj.set (players s) sid
                                  (Player.of_user userData sid))) ;;
      let player := Player.of_user userData sid in
      let district := Player.district player in
      socket_join sid district ;;
      its <- gets (fun s => items (db s)) ;;
      socket_emit sid (Ev.loginSuccess player its) ;;
      houses <- gets (fun s => persistentHouses (db s)) ;;
      socket_emit sid (Ev.houseData houses) ;;
      playersInDistrict <- gets (fun s => players_in s district) ;;
      socket_emit sid (Ev.currentPlayers playersInDistrict) ;;
      socket_to sid district (Ev.newPlayer player)
  end.

Definition register (sid username password color : string) : H unit :=
  users <- gets (fun s => persistentUsers (db s)) ;;
  match Obj.get users username with
  | Some _ => socket_emit sid (Ev.authError "Username already taken")
  | None =>
      set_users (fun us =>
        Obj.set us username
          (User.mk password username (JS.Number (JS.Num 400))
                   (JS.Number (JS.Num 300)) "plaza" color 1000 None)) ;;
      saveData_users ;;
      loginUser sid username
  end.

Definition login (sid username password : string) : H unit :=
  users <- gets (fun s => persistentUsers (db s)) ;;
  match Obj.get users username with
  | None => socket_emit sid (Ev.authError "Invalid username or password")
  | Some user =>
      if negb (User.password user =? password)%string
      then socket_emit sid (Ev.authError "Invalid username or password")
      else
        um <- gets socketUserMap ;;
        if includes (Obj.values um) username
        then socket_emit sid (Ev.authError "User already logged in")
        else loginUser sid username
  end.

Definition disconnect (sid : string) : H unit :=
  socket_closed sid ;;
  um <- gets socketUserMap ;;
  op <- player_of sid ;;
  match Obj.get um sid, op with
  | Some username, Some p =>
      if (username =? "")%string then ret tt
      else
        assign_user username (fun u =>
          User.mk (User.password u) (User.username u)
                  (Player.x p) (Player.y p) (Player.district p)
                  (User.color u) (Player.money p)
                  (equipment_or_null (Player.equipment p))) ;;
        saveData_users ;;
        let district := Player.district p in
        modify (fun s => set_players s (Obj.delete (players s) sid)) ;;
        modify (fun s => set_socketUserMap s
                           (Obj.delete (socketUserMap s) sid)) ;;
        if (district =? "")%string then ret tt
        else io_to district (Ev.playerDisconnected sid)
  | _, _ => ret tt
  end.

Definition playerMovement (sid : string) (mx my : JS.value) : H unit :=
  op <- player_of sid ;;
  match op with
  | Some _ =>
      update_player sid (fun p => Player.set_pos p mx my) ;;
      op' <- player_of sid ;;
      match op' with
      | Some p => socket_to sid (Player.district p) (Ev.playerMoved p)
      | None => ret tt
      end
  | None => ret tt
  end.

(** "Persist district change only if it's a main district" *)
Definition persist_district (sid newRoom : string) : H unit :=
  if includes DISTRICTS newRoom then
    um <- gets socketUserMap ;;
    match Obj.get um sid with
    | Some username =>
        if (username =? "")%string then ret tt
        else assign_user username (user_set_district newRoom) ;;
             saveData_users
    | None => ret tt
    end
  else ret tt.

Definition handleDistrictChange (sid newRoom : string) (spawnPos : spawn)
  : H unit :=
  op <- player_of sid ;;
  match op with
  | None => ret tt
  | Some player =>
      let oldRoom := Player.district player in
      socket_leave sid oldRoom ;;
      socket_to sid oldRoom (Ev.playerDisconnected sid) ;;
      update_player sid (fun p => Player.set_district p newRoom) ;;
      match spawnPos with
      | Some (sx, sy) => update_player sid (fun p => Player.set_pos p sx sy)
      | None =>
          if negb (oldRoom =? newRoom)%string
          then update_player sid (fun p =>
                 Player.set_pos p (JS.Number (JS.Num 400))
                                  (JS.Number (JS.Num 300)))
          else ret tt
      end ;;
      persist_district sid newRoom ;;
      socket_join sid newRoom ;;
      roomPlayers <- gets (fun s => players_in s newRoom) ;;
      socket_emit sid (Ev.playerChangedDistrict roomPlayers) ;;
      op' <- player_of sid ;;
      match op' with
      | Some p => socket_to sid newRoom (Ev.newPlayer p)
      | None => ret tt
      end ;;
      socket_emit sid (Ev.setDistrict newRoom) ;;
      if (newRoom =? "housing")%string
      then houses <- gets (fun s => persistentHouses (db s)) ;;
           socket_emit sid (Ev.houseData houses)
      else ret tt
  end.

Definition joinDistrict (sid newDistrict : string) (spawnPos : spawn)
  : H unit :=
  if negb (includes DISTRICTS newDistrict) then ret tt
  else handleDistrictChange sid newDistrict spawnPos.

Definition buyHouse (sid plotId : string) : H unit :=
  houses <- gets (fun s => persistentHouses (db s)) ;;
  op <- player_of sid ;;
  match Obj.get houses plotId, op with
  | Some dbHouse, Some player =>
      if House.unowned dbHouse && (House.price dbHouse <=? Player.money player)
      then
        let money' := Player.money player - House.price dbHouse in
        let house' := House.set_owner dbHouse (Some (Player.username player)) in
        update_player sid (fun p => Player.set_money p money') ;;
        set_houses (fun hs => Obj.set hs plotId house') ;;
        saveData_houses ;;
        assign_user (Player.username player) (user_set_money money') ;;
        saveData_users ;;
        io_emit (Ev.houseUpdate house') ;;
        socket_emit sid (Ev.updateMoney money') ;;
        io_to "housing"
          (Ev.chatMessage "SYSTEM"
             (String.append (Player.username player)
                (String.append " bought " (String.append plotId "!")))
             "#ffff00")
      else ret tt
  | _, _ => ret tt
  end.

Definition enterHouse (sid plotId : string) : H unit :=
  handleDistrictChange sid (String.append "house_" plotId) None.

Definition leaveHouse (sid : string) : H unit :=
  handleDistrictChange sid "housing" None.

Definition placeFurniture (sid houseId : string) (item : Furniture.t)
  : H unit :=
  houses <- gets (fun s => persistentHouses (db s)) ;;
  op <- player_of sid ;;
  match Obj.get houses houseId, op with
  | Some dbHouse, Some player =>
      match House.owner dbHouse with
      | Some o =>
          if (o =? Player.username player)%string then
            let house' := House.push_furniture dbHouse item in
            set_houses (fun hs => Obj.set hs houseId house') ;;
            saveData_houses ;;
            io_emit (Ev.houseUpdate house')
          else ret tt
      | None => ret tt
      end
  | _, _ => ret tt
  end.

Definition submitQuizAnswer (sid : string) (questionId : JS.value)
    (num1 num2 playerAnswer : JS.value) (extra : list (string * JS.value))
  : H unit :=
  op <- player_of sid ;;
  match op with
  | None => ret tt
  | Some player =>
      let correctAnswer := JS.add num1 num2 in
      if JS.strict_eq (JS.Number (JS.parseInt playerAnswer)) correctAnswer
      then
        let money' := Player.money player + 10 in
        update_player sid (fun p => Player.set_money p money') ;;
        users <- gets (fun s => persistentUsers (db s)) ;;
        match Obj.get users (Player.username player) with
        | Some u => set_users (fun us =>
                      Obj.set us (Player.username player)
                              (user_set_money money' u))
        | None => ret tt
        end ;;
        saveData_users ;;
        socket_emit sid (Ev.updateMoney money') ;;
        socket_emit sid (Ev.quizResult true (Some (10, money')))
      else socket_emit sid (Ev.quizResult false None)
  end.

Definition buyItem (sid itemId : string) : H unit :=
  op <- player_of sid ;;
  its <- gets (fun s => items (db s)) ;;
  match op, find (fun i => (Item.id i =? itemId)%string) its with
  | Some player, Some item =>
      if Item.price item <=? Player.money player then
        let money' := Player.money player - Item.price item in
        update_player sid (fun p =>
          Player.set_equipment (Player.set_money p money') (Some itemId)) ;;
        users <- gets (fun s => persistentUsers (db s)) ;;
        match Obj.get users (Player.username player) with
        | Some u => set_users (fun us =>
                      Obj.set us (Player.username player)
                        (User.mk (User.password u) (User.username u)
                                 (User.x u) (User.y u) (User.district u)
                                 (User.color u) money' (Some itemId)))
        | None => ret tt
        end ;;
        saveData_users ;;
        socket_emit sid (Ev.updateMoney money') ;;
        socket_emit sid (Ev.itemBought (Some item) true None) ;;
        io_to (Player.district player)
          (Ev.chatMessage "SYSTEM"
             (String.append (Player.username player)
                (String.append " bought a "
                   (String.append (Item.name item) "!")))
             "#ffff00")
      else socket_emit sid
             (Ev.itemBought None false (Some "Not enough money"))
  | _, _ => ret tt
  end.

Definition joinBattle (sid : string) (mode team : JS.value) : H unit :=
  op <- player_of sid ;;
  match op with
  | None => ret tt
  | Some _ =>
      update_player sid (fun p => Player.set_battle p mode team) ;;
      handleDistrictChange sid "arena_battle"
        (Some (JS.Number (JS.Num 400), JS.Number (JS.Num 300))) ;;
      op' <- player_of sid ;;
      match op' with
      | Some player =>
          io_emit (Ev.playerUpdate player) ;;
          socket_emit sid (Ev.battleJoined mode team) ;;
          io_to "arena_battle"
            (Ev.chatMessage "SYSTEM"
               (String.append (Player.username player) " entered the arena!")
               "#ff4444")
      | None => ret tt
      end
  end.

(** [Object.values(players).find(p => p.playerId === targetId)], with the
    key under which the object found is stored. *)
Definition find_target (ps : Obj.t Player.t) (targetId : string)
  : option (string * Player.t) :=
  find (fun kp => (Player.playerId (snd kp) =? targetId)%string) ps.

Definition playerAttack (sid targetId : string) : H unit :=
  oa <- player_of sid ;;
  ot <- gets (fun s => find_target (players s) targetId) ;;
  match oa, ot with
  | Some attacker, Some (tkey, target) =>
      if negb (Player.district attacker =? "arena_battle")%string
         || negb (Player.district target =? "arena_battle")%string
      then ret tt
      else if JS.strict_eq (Player.mode attacker) (JS.Str "team")
              && JS.strict_eq (Player.team attacker) (Player.team target)
      then ret tt
      else
        its <- gets (fun s => items (db s)) ;;
        let damage := match find_weapon its (Player.equipment attacker) with
                      | Some weapon => Item.damage weapon
                      | None => 10
                      end in
        let hp' := Z.max 0 (Player.hp target - damage) in
        update_player tkey (fun p => Player.set_hp p hp') ;;
        let target1 := Player.set_hp target hp' in
        io_emit (Ev.playerUpdate target1) ;;
        io_to "arena_battle"
          (Ev.playerHit (Player.playerId target) hp'
                        (Player.playerId attacker)) ;;
        if hp' <=? 0 then
          update_player sid (fun p => Player.set_money p (Player.money p + 50)) ;;
          oa' <- player_of sid ;;
          match oa' with
          | None => ret tt
          | Some attacker' =>
              users <- gets (fun s => persistentUsers (db s)) ;;
              match Obj.get users (Player.username attacker') with
              | Some u =>
                  set_users (fun us =>
                    Obj.set us (Player.username attacker')
                            (user_set_money (Player.money attacker') u)) ;;
                  saveData_users
              | None => ret tt
              end ;;
              update_player tkey (fun p =>
                Player.set_pos (Player.set_hp p 100)
                  (JS.Number (JS.Num 400)) (JS.Number (JS.Num 300))) ;;
              ot' <- player_of tkey ;;
              match ot' with
              | None => ret tt
              | Some target' =>
                  io_emit (Ev.playerUpdate target') ;;
                  io_to "arena_battle"
                    (Ev.chatMessage "SYSTEM"
                       (String.append (Player.username attacker')
                          (String.append " eliminated "
                             (String.append (Player.username target')
                                            "! +50 Coins")))
                       "#ffaa00") ;;
                  (* io.to(target.socketId): a player object has no
                     [socketId], the room is [undefined] and has no member *)
                  deliver [] Ev.playerRespawned ;;
                  oa'' <- player_of sid ;;
                  match oa'' with
                  | Some a => socket_emit sid (Ev.updateMoney (Player.money a))
                  | None => ret tt
                  end
              end
          end
        else ret tt
  | _, _ => ret tt
  end.

Definition chatMessage (sid msg : string) : H unit :=
  op <- player_of sid ;;
  match op with
  | Some player =>
      io_to (Player.district player)
        (Ev.chatMessage (Player.username player) msg (Player.color player))
  | None => ret tt
  end.

(** The handler registered for each inbound event. *)
Definition handle (sid : string) (r : Req.t) : H unit :=
  match r with
  | Req.register u p c => register sid u p c
  | Req.login u p => login sid u p
  | Req.disconnect => disconnect sid
  | Req.playerMovement mx my => playerMovement sid mx my
  | Req.joinDistrict d sp => joinDistrict sid d sp
  | Req.buyHouse plotId => buyHouse sid plotId
  | Req.enterHouse plotId => enterHouse sid plotId
  | Req.leaveHouse => leaveHouse sid
  | Req.placeFurniture h i => placeFurniture sid h i
  | Req.submitQuizAnswer q n1 n2 a e => submitQuizAnswer sid q n1 n2 a e
  | Req.buyItem i => buyItem sid i
  | Req.joinBattle m t => joinBattle sid m t
  | Req.playerAttack t => playerAttack sid t
  | Req.chatMessage m => chatMessage sid m
  end.

End FileServer.

(* ------------------------------------------------------------------ *)
(** * The MongoDB server (first program of [part_002])

    Each handler as it runs from its event to its end when no other
    handler runs in between: the [await]s are sequenced in program order.
    [MongoTask], further down, has the handlers cut at their [await]s. *)

(** [col.updateOne(filter, update)]: the first matching document. *)
Fixpoint updateOne {A} (matches : A -> bool) (f : A -> A) (col : list A)
  : list A :=
  match col with
  | [] => []
  | a :: col' => if matches a then f a :: col'
                 else a :: updateOne matches f col'
  end.

Module MongoServer.

Record store : Type := mkStore {
  usersCol : list User.t;
  housesCol : list House.t;
  itemsCol : list Item.t
}.

Definition H := M store.

Definition by_username (username : string) (u : User.t) : bool :=
  (User.username u =? username)%string.

Definition by_id (id : string) (h : House.t) : bool :=
  (House.id h =? id)%string.

Definition set_users (f : list User.t -> list User.t) : H unit :=
  modify (fun s =>
    let d := db s in
    set_db s (mkStore (f (usersCol d)) (housesCol d) (itemsCol d))).

Definition set_houses (f : list House.t -> list House.t) : H unit :=
  modify (fun s =>
    let d := db s in
    set_db s (mkStore (usersCol d) (f (housesCol d)) (itemsCol d))).

Definition user_set_money (m : Z) (u : User.t) : User.t :=
  User.mk (User.password u) (User.username u) (User.x u) (User.y u)
          (User.district u) (User.color u) m (User.equipment u).

(** [persistentHousesArr.forEach(h => persistentHouses[h.id] = h)] *)
Definition houses_by_id (arr : list House.t) : Obj.t House.t :=
  fold_left (fun o h => Obj.set o (House.id h) h) arr [].

Definition loginUser (sid username : string) : H unit :=
  users <- gets (fun s => usersCol (db s)) ;;
  match find (by_username username) users with
  | None => throw   (* not reached: both callers have just seen the account *)
  | Some userData =>
      modify (fun s => set_socketUserMap s
                         (Obj.set (socketUserMap s) sid username)) ;;
      modify (fun s => set_players s
                         (Obj.set (players s) sid
                                  (Player.of_user userData sid))) ;;
      let player := Player.of_user userData sid in
      let district := Player.district player in
      socket_join sid district ;;
      its <- gets (fun s => itemsCol (db s)) ;;
      persistentHousesArr <- gets (fun s => housesCol (db s)) ;;
      socket_emit sid (Ev.loginSuccess player its) ;;
      socket_emit sid (Ev.houseData (houses_by_id persistentHousesArr)) ;;
      playersInDistrict <- gets (fun s => players_in s district) ;;
      socket_emit sid (Ev.currentPlayers playersInDistrict) ;;
      socket_to sid district (Ev.newPlayer player)
  end.

Definition register (sid username password color : string) : H unit :=
  users <- gets (fun s => usersCol (db s)) ;;
  match find (by_username username) users with
  | Some _ => socket_emit sid (Ev.authError "Username already taken")
  | None =>
      set_users (fun us =>
        us ++ [User.mk password username (JS.Number (JS.Num 400))
                       (JS.Number (JS.Num 300)) "plaza" color 1000 None]) ;;
      loginUser sid username
  end.

Definition login (sid username password : string) : H unit :=
  users <- gets (fun s => usersCol (db s)) ;;
  match find (by_username username) users with
  | None => socket_emit sid (Ev.authError "Invalid username or password")
  | Some user =>
      if negb (User.password user =? password)%string
      then socket_emit sid (Ev.authError "Invalid username or password")
      else
        um <- gets socketUserMap ;;
        if includes (Obj.values um) username
        then socket_emit sid (Ev.authError "User already logged in")
        else loginUser sid username
  end.

Definition disconnect (sid : string) : H unit :=
  socket_closed sid ;;
  um <- gets socketUserMap ;;
  op <- player_of sid ;;
  match Obj.get um sid, op with
  | Some username, Some p =>
      if (username =? "")%string then ret tt
      else
        set_users (updateOne (by_username username) (fun u =>
          User.mk (User.password u) (User.username u)
                  (Player.x p) (Player.y p) (Player.district p)
                  (User.color u) (Player.money p)
                  (equipment_or_null (Player.equipment p)))) ;;
        let district := Player.district p in
        modify (fun s => set_players s (Obj.delete (players s) sid)) ;;
        modify (fun s => set_socketUserMap s
                           (Obj.delete (socketUserMap s) sid)) ;;
        if (district =? "")%string then ret tt
        else io_to district (Ev.playerDisconnected sid)
  | _, _ => ret tt
  end.

Definition playerMovement (sid : string) (mx my : JS.value) : H unit :=
  op <- player_of sid ;;
  match op with
  | Some _ =>
      update_player sid (fun p => Player.set_pos p mx my) ;;
      op' <- player_of sid ;;
      match op' with
      | Some p => socket_to sid (Player.district p) (Ev.playerMoved p)
      | None => ret tt
      end
  | None => ret tt
  end.

(** The account update of [handleDistrictChange], for a main district. *)
Definition persist_position (sid newRoom : string) : H unit :=
  if includes DISTRICTS newRoom then
    op' <- player_of sid ;;
    match op' with
    | Some p =>
        set_users (updateOne (by_username (Player.username p)) (fun u =>
          User.mk (User.password u) (User.username u)
                  (Player.x p) (Player.y p) newRoom
                  (User.color u) (User.money u) (User.equipment u)))
    | None => ret tt
    end
  else ret tt.

(** [handleDistrictChange] up to its first [await]: whether the function
    goes on ([false]: no session, it has returned). *)
Definition handleDistrictChange_begin (sid newRoom : string)
    (spawnPos : spawn) : H bool :=
  op <- player_of sid ;;
  match op with
  | None => ret false
  | Some player =>
      let oldRoom := Player.district player in
      socket_leave sid oldRoom ;;
      socket_to sid oldRoom (Ev.playerDisconnected sid) ;;
      update_player sid (fun p => Player.set_district p newRoom) ;;
      match spawnPos with
      | Some (sx, sy) => update_player sid (fun p => Player.set_pos p sx sy)
      | None =>
          if negb (oldRoom =? newRoom)%string
          then update_player sid (fun p =>
                 Player.set_pos p (JS.Number (JS.Num 400))
                                  (JS.Number (JS.Num 300)))
          else ret tt
      end ;;
      persist_position sid newRoom ;;
      ret true
  end.

(** The rest of [handleDistrictChange]. *)
Definition handleDistrictChange_resume (sid newRoom : string) : H unit :=
  socket_join sid newRoom ;;
  roomPlayers <- gets (fun s => players_in s newRoom) ;;
  socket_emit sid (Ev.playerChangedDistrict roomPlayers) ;;
  op' <- player_of sid ;;
  match op' with
  | Some p => socket_to sid newRoom (Ev.newPlayer p)
  | None => ret tt
  end ;;
  socket_emit sid (Ev.setDistrict newRoom) ;;
  if (newRoom =? "housing")%string
  then persistentHousesArr <- gets (fun s => housesCol (db s)) ;;
       socket_emit sid (Ev.houseData (houses_by_id persistentHousesArr))
  else ret tt.

Definition handleDistrictChange (sid newRoom : string) (spawnPos : spawn)
  : H unit :=
  go <- handleDistrictChange_begin sid newRoom spawnPos ;;
  if go then handleDistrictChange_resume sid newRoom else ret tt.

(** [newDistrict.startsWith('house_')] *)
Definition is_house_room (newDistrict : string) : bool :=
  String.prefix "house_" newDistrict.

Definition joinDistrict (sid newDistrict : string) (spawnPos : spawn)
  : H unit :=
  if negb (includes DISTRICTS newDistrict) && negb (is_house_room newDistrict)
  then ret tt
  else handleDistrictChange sid newDistrict spawnPos.

Definition buyHouse (sid plotId : string) : H unit :=
  op <- player_of sid ;;
  match op with
  | None => ret tt
  | Some player =>
      houses <- gets (fun s => housesCol (db s)) ;;
      match find (by_id plotId) houses with
      | Some house =>
          if House.unowned house && (House.price house <=? Player.money player)
          then
            let money' := Player.money player - House.price house in
            update_player sid (fun p => Player.set_money p money') ;;
            set_houses (updateOne (by_id plotId) (fun h =>
              House.set_owner h (Some (Player.username player)))) ;;
            set_users (updateOne (by_username (Player.username player))
                                 (user_set_money money')) ;;
            houses' <- gets (fun s => housesCol (db s)) ;;
            match find (by_id plotId) houses' with
            | Some updatedHouse => io_emit (Ev.houseUpdate updatedHouse)
            | None => ret tt
            end ;;
            socket_emit sid (Ev.updateMoney money') ;;
            io_to "housing"
              (Ev.chatMessage "SYSTEM"
                 (String.append (Player.username player)
                    (String.append " bought " (String.append plotId "!")))
                 "#ffff00")
          else ret tt
      | None => ret tt
      end
  end.

Definition enterHouse (sid plotId : string) : H unit :=
  handleDistrictChange sid (String.append "house_" plotId) None.

Definition leaveHouse (sid : string) : H unit :=
  handleDistrictChange sid "housing" None.

Definition placeFurniture (sid houseId : string) (item : Furniture.t)
  : H unit :=
  houses <- gets (fun s => housesCol (db s)) ;;
  op <- player_of sid ;;
  match find (by_id houseId) houses, op with
  | Some house, Some player =>
      match House.owner house with
      | Some o =>
          if (o =? Player.username player)%string then
            set_houses (updateOne (by_id houseId) (fun h =>
              House.push_furniture h item)) ;;
            houses' <- gets (fun s => housesCol (db s)) ;;
            match find (by_id houseId) houses' with
            | Some updatedHouse => io_emit (Ev.houseUpdate updatedHouse)
            | None => ret tt
            end
          else ret tt
      | None => ret tt
      end
  | _, _ => ret tt
  end.

Definition submitQuizAnswer (sid : string)
    (num1 num2 playerAnswer : JS.value) (extra : list (string * JS.value))
  : H unit :=
  op <- player_of sid ;;
  match op with
  | None => ret tt
  | Some player =>
      let correctAnswer := JS.add num1 num2 in
      if JS.strict_eq (JS.Number (JS.parseInt playerAnswer)) correctAnswer
      then
        let money' := Player.money player + 10 in
        update_player sid (fun p => Player.set_money p money') ;;
        set_users (updateOne (by_username (Player.username player))
                             (user_set_money money')) ;;
        socket_emit sid (Ev.updateMoney money') ;;
        socket_emit sid (Ev.quizResult true (Some (10, money')))
      else socket_emit sid (Ev.quizResult false None)
  end.

Definition buyItem (sid itemId : string) : H unit :=
  op <- player_of sid ;;
  match op with
  | None => ret tt
  | Some player =>
      its <- gets (fun s => itemsCol (db s)) ;;
      match find (fun i => (Item.id i =? itemId)%string) its with
      | Some item =>
          if Item.price item <=? Player.money player then
            let money' := Player.money player - Item.price item in
            update_player sid (fun p =>
              Player.set_equipment (Player.set_money p money')
                                   (Some itemId)) ;;
            set_users (updateOne (by_username (Player.username player))
              (fun u =>
                 User.mk (User.password u) (User.username u)
                         (User.x u) (User.y u) (User.district u)
                         (User.color u) money' (Some itemId))) ;;
            socket_emit sid (Ev.updateMoney money') ;;
            socket_emit sid (Ev.itemBought (Some item) true None) ;;
            io_to (Player.district player)
              (Ev.chatMessage "SYSTEM"
                 (String.append (Player.username player)
                    (String.append " bought a "
                       (String.append (Item.name item) "!")))
                 "#ffff00")
          else socket_emit sid
                 (Ev.itemBought None false (Some "Not enough money"))
      | None => socket_emit sid
                  (Ev.itemBought None false (Some "Not enough money"))
      end
  end.

(** [handleDistrictChange] is not awaited: the broadcast of [joinBattle]
    runs when the call reaches its first [await] (the account update, the
    arena being one of [DISTRICTS]), before the socket joins the room. *)
Definition joinBattle (sid : string) (mode team : JS.value) : H unit :=
  op <- player_of sid ;;
  match op with
  | None => ret tt
  | Some _ =>
      update_player sid (fun p => Player.set_battle p mode team) ;;
      go <- handleDistrictChange_begin sid "arena_battle"
              (Some (JS.Number (JS.Num 400), JS.Number (JS.Num 300))) ;;
      op' <- player_of sid ;;
      match op' with
      | Some player => io_to "arena_battle" (Ev.playerUpdate player)
      | None => ret tt
      end ;;
      if go then handleDistrictChange_resume sid "arena_battle" else ret tt
  end.

Definition playerAttack (sid targetId : string) : H unit :=
  oa <- player_of sid ;;
  ot <- player_of targetId ;;
  match oa, ot with
  | Some attacker, Some target =>
      if negb (Player.district attacker =? "arena_battle")%string
         || negb (Player.district target =? "arena_battle")%string
      then ret tt
      else
        its <- gets (fun s => itemsCol (db s)) ;;
        let damage := match find_weapon its (Player.equipment attacker) with
                      | Some weapon => Item.damage weapon
                      | None => 5
                      end in
        let hp' := Player.hp target - damage in
        update_player targetId (fun p => Player.set_hp p hp') ;;
        io_to "arena_battle" (Ev.playerHit targetId hp' sid) ;;
        if hp' <=? 0 then
          update_player sid (fun p => Player.set_money p (Player.money p + 50)) ;;
          oa' <- player_of sid ;;
          match oa' with
          | None => ret tt
          | Some attacker' =>
              set_users (updateOne (by_username (Player.username attacker'))
                                   (user_set_money (Player.money attacker'))) ;;
              update_player targetId (fun p =>
                Player.set_pos (Player.set_hp p 100)
                  (JS.Number (JS.Num 400)) (JS.Number (JS.Num 300))) ;;
              ot' <- player_of targetId ;;
              match ot' with
              | None => ret tt
              | Some target' =>
                  io_emit (Ev.playerUpdate target') ;;
                  io_to "arena_battle"
                    (Ev.chatMessage "SYSTEM"
                       (String.append (Player.username attacker')
                          (String.append " eliminated "
                             (String.append (Player.username target')
                                            "! +50 Coins")))
                       "#ffaa00") ;;
                  (* io.to(target.socketId): a player object has no
                     [socketId], the room is [undefined] and has no member *)
                  deliver [] Ev.playerRespawned ;;
                  oa'' <- player_of sid ;;
                  match oa'' with
                  | Some a => socket_emit sid (Ev.updateMoney (Player.money a))
                  | None => ret tt
                  end
              end
          end
        else ret tt
  | _, _ => ret tt
  end.

Definition chatMessage (sid msg : string) : H unit :=
  op <- player_of sid ;;
  match op with
  | Some player =>
      io_to (Player.district player)
        (Ev.chatMessage (Player.username player) msg (Player.color player))
  | None => ret tt
  end.

(** The handler registered for each inbound event. *)
Definition handle (sid : string) (r : Req.t) : H unit :=
  match r with
  | Req.register u p c => register sid u p c
  | Req.login u p => login sid u p
  | Req.disconnect => disconnect sid
  | Req.playerMovement mx my => playerMovement sid mx my
  | Req.joinDistrict d sp => joinDistrict sid d sp
  | Req.buyHouse plotId => buyHouse sid plotId
  | Req.enterHouse plotId => enterHouse sid plotId
  | Req.leaveHouse => leaveHouse sid
  | Req.placeFurniture h i => placeFurniture sid h i
  | Req.submitQuizAnswer _ n1 n2 a e => submitQuizAnswer sid n1 n2 a e
  | Req.buyItem i => buyItem sid i
  | Req.joinBattle m t => joinBattle sid m t
  | Req.playerAttack t => playerAttack sid t
  | Req.chatMessage m => chatMessage sid m
  end.

End MongoServer.

(* ------------------------------------------------------------------ *)
(** * The browser client: movement, collision and district boundaries
    ([src/client/src/main.js]) *)

Module Client.

Record rect : Type := mkRect {
  rx : Z;        (* [x] *)
  ry : Z;        (* [y] *)
  width : Z;
  height : Z
}.

Definition BATTLE_OBSTACLES : list rect :=
  [ mkRect 200 150 80 80;    (* Top-left *)
    mkRect 520 150 80 80;    (* Top-right *)
    mkRect 200 370 80 80;    (* Bottom-left *)
    mkRect 520 370 80 80;    (* Bottom-right *)
    mkRect 260 260 80 80;    (* Center-left *)
    mkRect 460 260 80 80 ].  (* Center-right *)

(** The body of the loop of [checkCollision] for one obstacle. *)
Definition collides_with (x y radius : Z) (obstacle : rect) : bool :=
  let closestX := Z.max (rx obstacle) (Z.min x (rx obstacle + width obstacle)) in
  let closestY := Z.max (ry obstacle) (Z.min y (ry obstacle + height obstacle)) in
  let distanceX := x - closestX in
  let distanceY := y - closestY in
  let distanceSquared := distanceX * distanceX + distanceY * distanceY in
  distanceSquared <? radius * radius.

Definition checkCollision (currentDistrict : string) (x y : Z) (radius : Z)
  : bool :=
  if (currentDistrict =? "arena_battle")%string
  then existsb (collides_with x y radius) BATTLE_OBSTACLES
  else false.

(** The default [radius = 15]. *)
Definition PLAYER_RADIUS : Z := 15.

Record keys : Type := mkKeys {
  w : bool; a : bool; s : bool; d : bool;
  ArrowUp : bool; ArrowLeft : bool; ArrowDown : bool; ArrowRight : bool
}.

(** [players[myId]]: the fields the movement code reads and writes. *)
Record player : Type := mkPlayer {
  x : Z;
  y : Z;
  state : string;
  lastMoveTime : option Z
}.

(** What the client sends. *)
Inductive emitted : Type :=
| playerMovement (x y : Z) (state : string)
| joinDistrict (target : string) (spawn : Z * Z).

Record t : Type := mk {
  me : option player;          (* [players[myId]], when both exist *)
  currentDistrict : string;
  pressed : keys;              (* [keys] *)
  isTransitioning : bool;
  lastState : string;
  quizOpen : bool;             (* [quizModal.style.display === 'flex'] *)
  sent : list emitted          (* [socket.emit], oldest first *)
}.

Definition SPEED : Z := 5.

(** "Calculate new position" *)
Definition candidate (k : keys) (p : player) : Z * Z :=
  let newX := x p in
  let newY := y p in
  let newY := if w k || ArrowUp k then newY - SPEED else newY in
  let newY := if s k || ArrowDown k then newY + SPEED else newY in
  let newX := if a k || ArrowLeft k then newX - SPEED else newX in
  let newX := if d k || ArrowRight k then newX + SPEED else newX in
  (newX, newY).

(** The collision test and the sliding of [update]: the new position and
    [moved]. *)
Definition move (currentDistrict : string) (k : keys) (p : player)
  : (Z * Z) * bool :=
  let '(newX, newY) := candidate k p in
  let wouldCollide := checkCollision currentDistrict newX newY PLAYER_RADIUS in
  if negb wouldCollide then
    if negb (newX =? x p) || negb (newY =? y p)
    then ((newX, newY), true)
    else ((x p, y p), false)
  else if negb (checkCollision currentDistrict newX (y p) PLAYER_RADIUS)
  then ((newX, y p), true)
  else if negb (checkCollision currentDistrict (x p) newY PLAYER_RADIUS)
  then ((x p, newY), true)
  else ((x p, y p), false).

(** ** Transition logic *)

Inductive side : Type := left | right | top | bottom.

(** [DISTRICT_MAP[district]?.side] *)
Definition DISTRICT_MAP (district : string) (sd : side) : option string :=
  if (district =? "plaza")%string then
    match sd with
    | left => Some "housing" | right => Some "arena"
    | top => Some "school" | bottom => None
    end
  else if (district =? "housing")%string then
    match sd with right => Some "plaza" | _ => None end
  else if (district =? "arena")%string then
    match sd with left => Some "plaza" | _ => None end
  else if (district =? "school")%string then
    match sd with bottom => Some "plaza" | _ => None end
  else None.

Definition W : Z := 800.
Definition H : Z := 600.
Definition OFFSET : Z := 75.

Definition set_xy (p : player) (nx ny : Z) : player :=
  mkPlayer nx ny (state p) (lastMoveTime p).

(** [checkDistrictBoundaries(player)] on [players[myId]]. *)
Definition checkDistrictBoundaries (c : t) : t :=
  match me c with
  | None => c
  | Some p =>
      if isTransitioning c then c
      else
        let '(target, spawn) :=
          if x p <? 0 then
            (DISTRICT_MAP (currentDistrict c) left, Some (W - OFFSET, y p))
          else if W <? x p then
            (DISTRICT_MAP (currentDistrict c) right, Some (OFFSET, y p))
          else if y p <? 0 then
            (DISTRICT_MAP (currentDistrict c) top, Some (x p, H - OFFSET))
          else if H <? y p then
            (DISTRICT_MAP (currentDistrict c) bottom, Some (x p, OFFSET))
          else (None, None) in
        match target, spawn with
        | Some tgt, Some sp =>
            let k := pressed c in
            mk (Some (set_xy p (fst sp) (snd sp)))
               tgt
               (mkKeys false false false false (ArrowUp k) (ArrowLeft k)
                       (ArrowDown k) (ArrowRight k))
               true
               (lastState c) (quizOpen c)
               (sent c ++ [joinDistrict tgt sp])
        | _, _ =>
            let x1 := if x p <? 0 then 0 else x p in
            let x2 := if W <? x1 then W else x1 in
            let y1 := if y p <? 0 then 0 else y p in
            let y2 := if H <? y1 then H else y1 in
            mk (Some (set_xy p x2 y2)) (currentDistrict c) (pressed c)
               (isTransitioning c) (lastState c) (quizOpen c) (sent c)
        end
  end.

(** The callback of the 500 ms [transitionTimer]. *)
Definition transition_timeout (c : t) : t :=
  mk (me c) (currentDistrict c) (pressed c) false (lastState c)
     (quizOpen c) (sent c).

(** The movement of [update()]: the function from the quiz guard on.
    [checkInteractions()] and [handleAttack()], which it calls first,
    release the keys [e] and [space], open the dialogs (the quiz among
    them, [quizOpen] here) and send events of their own ([buyHouse],
    [enterHouse], [joinBattle], [playerAttack]); they leave the position,
    the movement keys and the district alone, and [sent] has what the
    movement sends.  [now] is [Date.now()]. *)
Definition update (now : Z) (c : t) : t :=
  match me c with
  | None => c
  | Some p =>
      if quizOpen c then c
      else
        let '((nx, ny), moved) := move (currentDistrict c) (pressed c) p in
        let newState := if moved then "walking" else "idle" in
        let p1 := mkPlayer nx ny newState (lastMoveTime p) in
        let changed := negb (newState =? lastState c)%string in
        if moved || changed then
          let throttle_open :=
            match lastMoveTime p1 with
            | None => true
            | Some t0 => (t0 =? 0) || (30 <? now - t0)
            end || changed in
          let c1 :=
            if throttle_open
            then mk (Some (mkPlayer nx ny newState (Some now)))
                    (currentDistrict c) (pressed c) (isTransitioning c)
                    newState (quizOpen c)
                    (sent c ++ [playerMovement nx ny newState])
            else mk (Some p1) (currentDistrict c) (pressed c)
                    (isTransitioning c) (lastState c) (quizOpen c) (sent c) in
          if moved then checkDistrictBoundaries c1 else c1
        else
          mk (Some p1) (currentDistrict c) (pressed c) (isTransitioning c)
             (lastState c) (quizOpen c) (sent c)
  end.

(** ** The peer view: [socket.on('playerChangedDistrict', ...)]

    [peer] is the record the client keeps per player, [spread old p] is
    [{ ...old, ...p }]. *)
Section PeerView.
Context {peer : Type}.
Variable playerId : peer -> string.
Variable spread : peer -> peer -> peer.

Definition playerChangedDistrict (players : Obj.t peer)
    (newPlayersList : list peer) : Obj.t peer :=
  let oldPlayers := players in
  fold_left (fun players p =>
               match Obj.get oldPlayers (playerId p) with
               | Some old => Obj.set players (playerId p) (spread old p)
               | None => Obj.set players (playerId p) p
               end)
            newPlayersList [].
End PeerView.

End Client.

(* ------------------------------------------------------------------ *)
(** * Start-up and event traces *)

(** What reaches the server: a new connection, or an event of a socket. *)
Inductive input : Type :=
| connect (sid : string)
| request (sid : string) (r : Req.t).

Module FileBoot.
Import FileServer.

(** "Create 4 default plots" *)
Definition default_houses : Obj.t House.t :=
  [ ("plot_1", House.mk "plot_1" 350 200 500 None []);
    ("plot_2", House.mk "plot_2" 500 200 500 None []);
    ("plot_3", House.mk "plot_3" 650 200 500 None []);
    ("plot_4", House.mk "plot_4" 800 200 500 None []) ].

(** The state after the module has loaded, from the content of the
    three data files. *)
Definition boot (users : Obj.t User.t) (houses : Obj.t House.t)
    (its : list Item.t) : state store :=
  match houses with
  | [] => mkState (mkStore users default_houses its users default_houses)
                  [] [] [] [] []
  | _ => mkState (mkStore users houses its users houses) [] [] [] [] []
  end.

Definition step (i : input) : H unit :=
  match i with
  | connect sid => connection sid
  | request sid r => handle sid r
  end.

Fixpoint run (trace : list input) (s : state store) : option (state store) :=
  match trace with
  | [] => Some s
  | i :: trace' =>
      match exec (step i) s with
      | Some s' => run trace' s'
      | None => None
      end
  end.
End FileBoot.

Module MongoBoot.
Import MongoServer.

(** The state after [initDB]: an empty items or houses collection is
    filled from [initial_data]. *)
Definition boot (users : list User.t) (houses : list House.t)
    (its : list Item.t) (initialHouses : list House.t)
    (initialItems : list Item.t) : state store :=
  mkState (mkStore users
                   (match houses with [] => initialHouses | _ => houses end)
                   (match its with [] => initialItems | _ => its end))
          [] [] [] [] [].

Definition step (i : input) : H unit :=
  match i with
  | connect sid => connection sid
  | request sid r => handle sid r
  end.

Fixpoint run (trace : list input) (s : state store) : option (state store) :=
  match trace with
  | [] => Some s
  | i :: trace' =>
      match exec (step i) s with
      | Some s' => run trace' s'
      | None => None
      end
  end.
End MongoBoot.

(** ** Example data *)

Module Demo.

Definition catalog : list Item.t :=
  [ Item.mk "sword" "Iron Sword" 100 "Melee Damage" 20 50;
    Item.mk "gun" "Blaster" 250 "Ranged Damage" 35 400 ].

Definition plots : list House.t :=
  [ House.mk "plot_1" 350 200 500 None [] ].

(** Two clients connect; alice and bob register. *)
Definition two_players : list input :=
  [ connect "s1"; request "s1" (Req.register "alice" "pw1" "hsl(1, 70%, 50%)");
    connect "s2"; request "s2" (Req.register "bob" "pw2" "hsl(2, 70%, 50%)") ].

Definition file_state : state FileServer.store :=
  match FileBoot.run two_players (FileBoot.boot [] [] catalog) with
  | Some s => s
  | None => FileBoot.boot [] [] catalog
  end.

Definition mongo_state : state MongoServer.store :=
  match MongoBoot.run two_players (MongoBoot.boot [] [] [] plots catalog) with
  | Some s => s
  | None => MongoBoot.boot [] [] [] plots catalog
  end.

(** ... and alice has bought [plot_1]. *)
Definition file_sold : state FileServer.store :=
  match exec (FileServer.handle "s1" (Req.buyHouse "plot_1")) file_state with
  | Some s => s
  | None => file_state
  end.

Definition mongo_sold : state MongoServer.store :=
  match exec (MongoServer.handle "s1" (Req.buyHouse "plot_1")) mongo_state with
  | Some s => s
  | None => mongo_state
  end.

(** alice buys the blaster (damage 35), both enter the arena, and alice
    hits bob twice: bob is at 30 health. *)
Definition duel : list input :=
  two_players ++
  [ request "s1" (Req.buyItem "gun");
    request "s1" (Req.joinBattle (JS.Str "solo") JS.Null);
    request "s2" (Req.joinBattle (JS.Str "solo") JS.Null);
    request "s1" (Req.playerAttack "s2");
    request "s1" (Req.playerAttack "s2") ].

(** alice and bob enter the arena in team mode, both in team red. *)
Definition team_match : list input :=
  two_players ++
  [ request "s1" (Req.joinBattle (JS.Str "team") (JS.Str "red"));
    request "s2" (Req.joinBattle (JS.Str "team") (JS.Str "red")) ].

Definition alice (sid : string) (m : Z) : Player.t :=
  Player.mk "pw1" "alice" (JS.Number (JS.Num 400)) (JS.Number (JS.Num 300))
            "plaza" "hsl(1, 70%, 50%)" m None sid 100 100
            JS.Undefined JS.Undefined.

Definition bob (sid : string) (m : Z) : Player.t :=
  Player.mk "pw2" "bob" (JS.Number (JS.Num 400)) (JS.Number (JS.Num 300))
            "plaza" "hsl(2, 70%, 50%)" m None sid 100 100
            JS.Undefined JS.Undefined.

End Demo.
(* ------------------------------------------------------------------ *)
(** * The MongoDB server, [await] by [await]

    A handler of the MongoDB server runs in one go from the arrival of its
    event to its first [await]; what follows an [await] runs later, when
    the promise is settled, and the handlers of other events can run in
    between.  [MongoTask] has every handler of the server cut at its
    [await]s: a handler is the step that runs at once and gives what is
    left to do, a [task].  A database operation is taken to happen when
    its [await] goes on, with the arguments it was called with.

    [MongoServer.handle] is a handler that runs to its end with nothing in
    between ([uninterrupted]). *)

Module MongoTask.

(** The collections, and the session objects that are no longer in
    [players]: a handler that has taken [players[socket.id]] before an
    [await] still holds the object after it, also when the entry has been
    deleted or replaced meanwhile.  [serial] counts, per socket id, the
    objects that have been taken out of [players]. *)
Record store : Type := mkStore {
  data : MongoServer.store;
  serial : Obj.t nat;
  detached : list ((string * nat) * Player.t)
}.

Definition H := M store.

(** What is left to do of a handler: nothing, or the code that follows
    the [await] it is waiting at. *)
#[warnings="-register-all"] Inductive task : Type :=
| done
| await (resume : H task).

Definition usersCol (s : state store) : list User.t :=
  MongoServer.usersCol (data (db s)).
Definition housesCol (s : state store) : list House.t :=
  MongoServer.housesCol (data (db s)).
Definition itemsCol (s : state store) : list Item.t :=
  MongoServer.itemsCol (data (db s)).

Definition set_users (f : list User.t -> list User.t) : H unit :=
  modify (fun s =>
    let d := db s in
    set_db s (mkStore (MongoServer.mkStore (f (MongoServer.usersCol (data d)))
                                           (MongoServer.housesCol (data d))
                                           (MongoServer.itemsCol (data d)))
                      (serial d) (detached d))).

Definition set_houses (f : list House.t -> list House.t) : H unit :=
  modify (fun s =>
    let d := db s in
    set_db s (mkStore (MongoServer.mkStore (MongoServer.usersCol (data d))
                                           (f (MongoServer.housesCol (data d)))
                                           (MongoServer.itemsCol (data d)))
                      (serial d) (detached d))).

(** ** References to session objects *)

(** A session object: the socket id it was stored under and the number of
    objects taken out from under that id before it. *)
Definition ref : Type := (string * nat)%type.

Definition same_ref (r r' : ref) : bool :=
  (fst r =? fst r')%string && Nat.eqb (snd r) (snd r').

Definition serial_of (s : state store) (sid : string) : nat :=
  match Obj.get (serial (db s)) sid with
  | Some n => n
  | None => O
  end.

(** The object is still the one in [players]. *)
Definition attached (s : state store) (r : ref) : bool :=
  Nat.eqb (serial_of s (fst r)) (snd r).

Definition object (s : state store) (r : ref) : option Player.t :=
  if attached s r then Obj.get (players s) (fst r)
  else option_map snd (find (fun e => same_ref (fst e) r) (detached (db s))).

(** [const player = players[sid]] *)
Definition capture (sid : string) : H (option ref) :=
  gets (fun s =>
    match Obj.get (players s) sid with
    | Some _ => Some (sid, serial_of s sid)
    | None => None
    end).

(** The object as it is now. *)
Definition read (r : ref) : H Player.t :=
  o <- gets (fun s => object s r) ;;
  match o with
  | Some p => ret p
  | None => throw   (* not reached: an object taken from [players] is there
                       or among the detached ones *)
  end.

(** A field update through the reference. *)
Definition write (r : ref) (f : Player.t -> Player.t) : H unit :=
  modify (fun s =>
    if attached s r then
      match Obj.get (players s) (fst r) with
      | Some p => set_players s (Obj.set (players s) (fst r) (f p))
      | None => s
      end
    else
      let d := db s in
      set_db s (mkStore (data d) (serial d)
                  (map (fun e => if same_ref (fst e) r
                                 then (fst e, f (snd e)) else e)
                       (detached d)))).

(** The object of [players[sid]], if any, is about to be replaced or
    deleted: those who hold it keep it. *)
Definition detach (sid : string) : H unit :=
  modify (fun s =>
    match Obj.get (players s) sid with
    | Some p =>
        let d := db s in
        let n := serial_of s sid in
        set_db s (mkStore (data d) (Obj.set (serial d) sid (S n))
                          (((sid, n), p) :: detached d))
    | None => s
    end).

(** ** The handlers *)

(** [loginUser]: all of it follows its first [await]. *)
Definition loginUser (sid username : string) : task :=
  await (                                                  (* l.105 *)
    users <- gets usersCol ;;
    match find (MongoServer.by_username username) users with
    | None => throw   (* not reached: accounts are never removed *)
    | Some userData =>
        modify (fun s => set_socketUserMap s
                           (Obj.set (socketUserMap s) sid username)) ;;
        detach sid ;;
        modify (fun s => set_players s
                           (Obj.set (players s) sid
                                    (Player.of_user userData sid))) ;;
        let district := Player.district (Player.of_user userData sid) in
        socket_join sid district ;;
        ret (await (                                       (* l.117 *)
          its <- gets itemsCol ;;
          ret (await (                                     (* l.118 *)
            persistentHousesArr <- gets housesCol ;;
            op <- player_of sid ;;
            socket_emit sid
              match op with
              | Some p => Ev.loginSuccess p its
              | None => Ev.loginSuccess_no_session sid its
              end ;;
            socket_emit sid
              (Ev.houseData (MongoServer.houses_by_id persistentHousesArr)) ;;
            playersInDistrict <- gets (fun s => players_in s district) ;;
            socket_emit sid (Ev.currentPlayers playersInDistrict) ;;
            op' <- player_of sid ;;
            socket_to sid district
              match op' with
              | Some p => Ev.newPlayer p
              | None => Ev.newPlayer_undefined
              end ;;
            ret done))))
    end).

Definition register (sid username password color : string) : H task :=
  ret (await (                                             (* l.70 *)
    users <- gets usersCol ;;
    match find (MongoServer.by_username username) users with
    | Some _ =>
        socket_emit sid (Ev.authError "Username already taken") ;;
        ret done
    | None =>
        ret (await (                                       (* l.87 *)
          set_users (fun us =>
            us ++ [User.mk password username (JS.Number (JS.Num 400))
                           (JS.Number (JS.Num 300)) "plaza" color 1000
                           None]) ;;
          ret (loginUser sid username)))
    end)).

Definition login (sid username password : string) : H task :=
  ret (await (                                             (* l.92 *)
    users <- gets usersCol ;;
    match find (MongoServer.by_username username) users with
    | None =>
        socket_emit sid (Ev.authError "Invalid username or password") ;;
        ret done
    | Some user =>
        if negb (User.password user =? password)%string
        then socket_emit sid (Ev.authError "Invalid username or password") ;;
             ret done
        else
          um <- gets socketUserMap ;;
          if includes (Obj.values um) username
          then socket_emit sid (Ev.authError "User already logged in") ;;
               ret done
          else ret (loginUser sid username)
    end)).

Definition disconnect (sid : string) : H task :=
  socket_closed sid ;;
  um <- gets socketUserMap ;;
  op <- capture sid ;;
  match Obj.get um sid, op with
  | Some username, Some r =>
      if (username =? "")%string then ret done
      else
        p <- read r ;;
        ret (await (                                       (* l.139 *)
          set_users (updateOne (MongoServer.by_username username) (fun u =>
            User.mk (User.password u) (User.username u)
                    (Player.x p) (Player.y p) (Player.district p)
                    (User.color u) (Player.money p)
                    (equipment_or_null (Player.equipment p)))) ;;
          p' <- read r ;;
          let district := Player.district p' in
          detach sid ;;
          modify (fun s => set_players s (Obj.delete (players s) sid)) ;;
          modify (fun s => set_socketUserMap s
                             (Obj.delete (socketUserMap s) sid)) ;;
          (if (district =? "")%string then ret tt
           else io_to district (Ev.playerDisconnected sid)) ;;
          ret done))
  | _, _ => ret done
  end.

Definition playerMovement (sid : string) (mx my : JS.value) : H task :=
  op <- player_of sid ;;
  match op with
  | Some _ =>
      update_player sid (fun p => Player.set_pos p mx my) ;;
      op' <- player_of sid ;;
      match op' with
      | Some p => socket_to sid (Player.district p) (Ev.playerMoved p)
      | None => ret tt
      end ;;
      ret done
  | None => ret done
  end.

(** [handleDistrictChange]: the [await] of the account update is reached
    for a main district only; for a house the function runs to its end at
    once. *)
Definition handleDistrictChange (sid newRoom : string) (spawnPos : spawn)
  : H task :=
  op <- capture sid ;;
  match op with
  | None => ret done
  | Some player =>
      p <- read player ;;
      let oldRoom := Player.district p in
      socket_leave sid oldRoom ;;
      socket_to sid oldRoom (Ev.playerDisconnected sid) ;;
      write player (fun p => Player.set_district p newRoom) ;;
      match spawnPos with
      | Some (sx, sy) => write player (fun p => Player.set_pos p sx sy)
      | None =>
          if negb (oldRoom =? newRoom)%string
          then write player (fun p =>
                 Player.set_pos p (JS.Number (JS.Num 400))
                                  (JS.Number (JS.Num 300)))
          else ret tt
      end ;;
      let rest : H task :=                                 (* l.335-346 *)
        socket_join sid newRoom ;;
        roomPlayers <- gets (fun s => players_in s newRoom) ;;
        socket_emit sid (Ev.playerChangedDistrict roomPlayers) ;;
        p' <- read player ;;
        socket_to sid newRoom (Ev.newPlayer p') ;;
        socket_emit sid (Ev.setDistrict newRoom) ;;
        if (newRoom =? "housing")%string
        then ret (await (                                  (* l.342 *)
               persistentHousesArr <- gets housesCol ;;
               socket_emit sid
                 (Ev.houseData
                    (MongoServer.houses_by_id persistentHousesArr)) ;;
               ret done))
        else ret done in
      if includes DISTRICTS newRoom then
        p1 <- read player ;;
        ret (await (                                       (* l.332 *)
          set_users (updateOne (MongoServer.by_username (Player.username p1))
            (fun u =>
               User.mk (User.password u) (User.username u)
                       (Player.x p1) (Player.y p1) newRoom
                       (User.color u) (User.money u) (User.equipment u))) ;;
          rest))
      else rest
  end.

Definition joinDistrict (sid newDistrict : string) (spawnPos : spawn)
  : H task :=
  if negb (includes DISTRICTS newDistrict)
     && negb (MongoServer.is_house_room newDistrict)
  then ret done
  else handleDistrictChange sid newDistrict spawnPos.

Definition buyHouse (sid plotId : string) : H task :=
  op <- capture sid ;;
  match op with
  | None => ret done
  | Some player =>
      ret (await (                                         (* l.173 *)
        houses <- gets housesCol ;;
        p <- read player ;;
        match find (MongoServer.by_id plotId) houses with
        | Some house =>
            if House.unowned house && (House.price house <=? Player.money p)
            then
              write player (fun q =>
                Player.set_money q (Player.money q - House.price house)) ;;
              p1 <- read player ;;
              ret (await (                                 (* l.176 *)
                set_houses (updateOne (MongoServer.by_id plotId) (fun h =>
                  House.set_owner h (Some (Player.username p1)))) ;;
                p2 <- read player ;;
                ret (await (                               (* l.177 *)
                  set_users
                    (updateOne (MongoServer.by_username (Player.username p2))
                       (MongoServer.user_set_money (Player.money p2))) ;;
                  ret (await (                             (* l.179 *)
                    houses' <- gets housesCol ;;
                    match find (MongoServer.by_id plotId) houses' with
                    | Some updatedHouse =>
                        io_emit (Ev.houseUpdate updatedHouse)
                    | None => ret tt
                    end ;;
                    p3 <- read player ;;
                    socket_emit sid (Ev.updateMoney (Player.money p3)) ;;
                    io_to "housing"
                      (Ev.chatMessage "SYSTEM"
                         (String.append (Player.username p3)
                            (String.append " bought "
                               (String.append plotId "!")))
                         "#ffff00") ;;
                    ret done))))))
            else ret done
        | None => ret done
        end))
  end.

Definition enterHouse (sid plotId : string) : H task :=
  handleDistrictChange sid (String.append "house_" plotId) None.

Definition leaveHouse (sid : string) : H task :=
  handleDistrictChange sid "housing" None.

Definition placeFurniture (sid houseId : string) (item : Furniture.t)
  : H task :=
  ret (await (                                             (* l.201 *)
    houses <- gets housesCol ;;
    op <- player_of sid ;;
    match find (MongoServer.by_id houseId) houses, op with
    | Some house, Some player =>
        match House.owner house with
        | Some o =>
            if (o =? Player.username player)%string then
              ret (await (                                 (* l.204 *)
                set_houses (updateOne (MongoServer.by_id houseId) (fun h =>
                  House.push_furniture h item)) ;;
                ret (await (                               (* l.208 *)
                  houses' <- gets housesCol ;;
                  match find (MongoServer.by_id houseId) houses' with
                  | Some updatedHouse =>
                      io_emit (Ev.houseUpdate updatedHouse)
                  | None => ret tt
                  end ;;
                  ret done))))
            else ret done
        | None => ret done
        end
    | _, _ => ret done
    end)).

Definition submitQuizAnswer (sid : string)
    (num1 num2 playerAnswer : JS.value) (extra : list (string * JS.value))
  : H task :=
  op <- capture sid ;;
  match op with
  | None => ret done
  | Some player =>
      let correctAnswer := JS.add num1 num2 in
      if JS.strict_eq (JS.Number (JS.parseInt playerAnswer)) correctAnswer
      then
        write player (fun q => Player.set_money q (Player.money q + 10)) ;;
        p1 <- read player ;;
        ret (await (                                       (* l.222 *)
          set_users (updateOne (MongoServer.by_username (Player.username p1))
                               (MongoServer.user_set_money (Player.money p1))) ;;
          p2 <- read player ;;
          socket_emit sid (Ev.updateMoney (Player.money p2)) ;;
          socket_emit sid (Ev.quizResult true (Some (10, Player.money p2))) ;;
          ret done))
      else socket_emit sid (Ev.quizResult false None) ;; ret done
  end.

Definition buyItem (sid itemId : string) : H task :=
  op <- capture sid ;;
  match op with
  | None => ret done
  | Some player =>
      ret (await (                                         (* l.234 *)
        its <- gets itemsCol ;;
        p <- read player ;;
        match find (fun i => (Item.id i =? itemId)%string) its with
        | Some item =>
            if Item.price item <=? Player.money p then
              write player (fun q =>
                Player.set_equipment
                  (Player.set_money q (Player.money q - Item.price item))
                  (Some itemId)) ;;
              p1 <- read player ;;
              ret (await (                                 (* l.239 *)
                set_users
                  (updateOne (MongoServer.by_username (Player.username p1))
                     (fun u =>
                        User.mk (User.password u) (User.username u)
                                (User.x u) (User.y u) (User.district u)
                                (User.color u) (Player.money p1)
                                (Some itemId))) ;;
                p2 <- read player ;;
                socket_emit sid (Ev.updateMoney (Player.money p2)) ;;
                socket_emit sid (Ev.itemBought (Some item) true None) ;;
                io_to (Player.district p2)
                  (Ev.chatMessage "SYSTEM"
                     (String.append (Player.username p2)
                        (String.append " bought a "
                           (String.append (Item.name item) "!")))
                     "#ffff00") ;;
                ret done))
            else socket_emit sid
                   (Ev.itemBought None false (Some "Not enough money")) ;;
                 ret done
        | None => socket_emit sid
                    (Ev.itemBought None false (Some "Not enough money")) ;;
                  ret done
        end))
  end.

(** [handleDistrictChange] is not awaited: the broadcast of [joinBattle]
    runs when the call has reached its first [await]. *)
Definition joinBattle (sid : string) (mode team : JS.value) : H task :=
  op <- capture sid ;;
  match op with
  | None => ret done
  | Some player =>
      write player (fun p => Player.set_battle p mode team) ;;
      rest <- handleDistrictChange sid "arena_battle"
                (Some (JS.Number (JS.Num 400), JS.Number (JS.Num 300))) ;;
      p <- read player ;;
      io_to "arena_battle" (Ev.playerUpdate p) ;;
      ret rest
  end.

Definition playerAttack (sid targetId : string) : H task :=
  oa <- capture sid ;;
  ot <- capture targetId ;;
  match oa, ot with
  | Some attacker, Some target =>
      a <- read attacker ;;
      t <- read target ;;
      if negb (Player.district a =? "arena_battle")%string
         || negb (Player.district t =? "arena_battle")%string
      then ret done
      else
        ret (await (                                       (* l.276 *)
          its <- gets itemsCol ;;
          a0 <- read attacker ;;
          let damage := match find_weapon its (Player.equipment a0) with
                        | Some weapon => Item.damage weapon
                        | None => 5
                        end in
          write target (fun q => Player.set_hp q (Player.hp q - damage)) ;;
          t1 <- read target ;;
          io_to "arena_battle" (Ev.playerHit targetId (Player.hp t1) sid) ;;
          if Player.hp t1 <=? 0 then
            write attacker (fun q =>
              Player.set_money q (Player.money q + 50)) ;;
            a1 <- read attacker ;;
            ret (await (                                   (* l.285 *)
              set_users
                (updateOne (MongoServer.by_username (Player.username a1))
                   (MongoServer.user_set_money (Player.money a1))) ;;
              write target (fun q =>
                Player.set_pos (Player.set_hp q 100)
                  (JS.Number (JS.Num 400)) (JS.Number (JS.Num 300))) ;;
              t2 <- read target ;;
              io_emit (Ev.playerUpdate t2) ;;
              a2 <- read attacker ;;
              io_to "arena_battle"
                (Ev.chatMessage "SYSTEM"
                   (String.append (Player.username a2)
                      (String.append " eliminated "
                         (String.append (Player.username t2)
                                        "! +50 Coins")))
                   "#ffaa00") ;;
              (* io.to(target.socketId): a player object has no
                 [socketId], the room is [undefined] and has no member *)
              deliver [] Ev.playerRespawned ;;
              socket_emit sid (Ev.updateMoney (Player.money a2)) ;;
              ret done))
          else ret done))
  | _, _ => ret done
  end.

Definition chatMessage (sid msg : string) : H task :=
  op <- player_of sid ;;
  match op with
  | Some player =>
      io_to (Player.district player)
        (Ev.chatMessage (Player.username player) msg (Player.color player)) ;;
      ret done
  | None => ret done
  end.

(** The handler registered for each inbound event: what runs when the
    event arrives, and what is left to do after it. *)
Definition handle (sid : string) (r : Req.t) : H task :=
  match r with
  | Req.register u p c => register sid u p c
  | Req.login u p => login sid u p
  | Req.disconnect => disconnect sid
  | Req.playerMovement mx my => playerMovement sid mx my
  | Req.joinDistrict d sp => joinDistrict sid d sp
  | Req.buyHouse plotId => buyHouse sid plotId
  | Req.enterHouse plotId => enterHouse sid plotId
  | Req.leaveHouse => leaveHouse sid
  | Req.placeFurniture h i => placeFurniture sid h i
  | Req.submitQuizAnswer _ n1 n2 a e => submitQuizAnswer sid n1 n2 a e
  | Req.buyItem i => buyItem sid i
  | Req.joinBattle m t => joinBattle sid m t
  | Req.playerAttack t => playerAttack sid t
  | Req.chatMessage m => chatMessage sid m
  end.

(** ** Running a handler with nothing in between *)

(** What is left of a handler, run to its end. *)
Fixpoint finish (t : task) (s : state store) : option (unit * state store) :=
  match t with
  | done => Some (tt, s)
  | await resume =>
      match resume s with
      | Some (t', s') => finish t' s'
      | None => None
      end
  end.

Definition uninterrupted (h : H task) : H unit :=
  fun s =>
    match h s with
    | Some (t, s') => finish t s'
    | None => None
    end.

(** The state of the MongoDB server in a state of this one, and back. *)
Definition forget (s : state store) : state MongoServer.store :=
  mkState (data (db s)) (players s) (socketUserMap s) (sockets s) (rooms s)
          (outbox s).

Definition fresh (s : state MongoServer.store) : state store :=
  mkState (mkStore (db s) [] []) (players s) (socketUserMap s) (sockets s)
          (rooms s) (outbox s).

(** The handler [task], run to its end from [s] with nothing in between,
    and the handler [whole] of [MongoServer] leave the same server
    state. *)
Definition same_run (s : state store) (task : H task)
    (whole : MongoServer.H unit) : Prop :=
  option_map (fun o => forget (snd o)) (uninterrupted task s)
  = exec whole (forget s).

End MongoTask.

(** ** The event loop *)

Module MongoLoop.

(** What happens next on the server: a socket connects, an event arrives
    and its handler runs to its first [await], or the [n]-th of the
    handlers that are waiting (the oldest is number 0) goes on to its
    next [await]. *)
Inductive action : Type :=
| connect (sid : string)
| request (sid : string) (r : Req.t)
| resume (n : nat).

Record world : Type := mkWorld {
  mem : state MongoTask.store;
  waiting : list (MongoTask.H MongoTask.task)
}.

Definition park (t : MongoTask.task)
    (l : list (MongoTask.H MongoTask.task))
  : list (MongoTask.H MongoTask.task) :=
  match t with
  | MongoTask.done => l
  | MongoTask.await k => l ++ [k]
  end.

Fixpoint remove_nth {A} (n : nat) (l : list A) : list A :=
  match n, l with
  | _, [] => []
  | O, _ :: l' => l'
  | S n', a :: l' => a :: remove_nth n' l'
  end.

Definition step (a : action) (w : world) : option world :=
  match a with
  | connect sid =>
      match connection sid (mem w) with
      | Some (_, m') => Some (mkWorld m' (waiting w))
      | None => None
      end
  | request sid r =>
      match MongoTask.handle sid r (mem w) with
      | Some (t, m') => Some (mkWorld m' (park t (waiting w)))
      | None => None
      end
  | resume n =>
      match nth_error (waiting w) n with
      | Some k =>
          match k (mem w) with
          | Some (t, m') => Some (mkWorld m' (park t (remove_nth n (waiting w))))
          | None => None
          end
      | None => None
      end
  end.

Fixpoint run (schedule : list action) (w : world) : option world :=
  match schedule with
  | [] => Some w
  | a :: schedule' =>
      match step a w with
      | Some w' => run schedule' w'
      | None => None
      end
  end.

(** The server after [initDB], nothing waiting. *)
Definition boot (users : list User.t) (houses : list House.t)
    (its : list Item.t) (initialHouses : list House.t)
    (initialItems : list Item.t) : world :=
  mkWorld (MongoTask.fresh
             (MongoBoot.boot users houses its initialHouses initialItems))
          [].

End MongoLoop.

(** ** Example schedules *)

Module Overlap.
Import MongoLoop.

(** A client connects and registers alice; the five [await]s of
    [register] and [loginUser] go on one after the other. *)
Definition alice_registers : list action :=
  [ connect "s1";
    request "s1" (Req.register "alice" "pw1" "hsl(1, 70%, 50%)");
    resume 0; resume 0; resume 0; resume 0; resume 0 ].

(** ... and so does bob. *)
Definition bob_registers : list action :=
  [ connect "s2";
    request "s2" (Req.register "bob" "pw2" "hsl(2, 70%, 50%)");
    resume 0; resume 0; resume 0; resume 0; resume 0 ].

(** alice's socket closes, and its handler runs to its end.  Then two
    clients log in as alice at the same time: the second [login] arrives
    while the first is waiting for its [findOne], and the two handlers go
    on in turn, each to its next [await], until both have ended. *)
Definition two_logins : list action :=
  alice_registers ++
  [ request "s1" Req.disconnect; resume 0;
    connect "s2"; connect "s3";
    request "s2" (Req.login "alice" "pw1");
    request "s3" (Req.login "alice" "pw1");
    resume 0; resume 0; resume 0; resume 0;
    resume 0; resume 0; resume 0; resume 0 ].

(** alice asks for the housing district and, before the account update
    of that transfer has come back, enters the house on [plot_1]; then the
    first transfer goes on to its end. *)
Definition two_transfers_begin : list action :=
  alice_registers ++
  [ request "s1" (Req.joinDistrict "housing" None);
    request "s1" (Req.enterHouse "plot_1") ].

Definition two_transfers : list action :=
  two_transfers_begin ++ [ resume 0; resume 0 ].

(** alice and bob, 1000 coins each, ask for [plot_1] (500 coins) at the
    same time; the two handlers go on in turn until both have ended. *)
Definition two_purchases : list action :=
  alice_registers ++ bob_registers ++
  [ request "s1" (Req.buyHouse "plot_1");
    request "s2" (Req.buyHouse "plot_1");
    resume 0; resume 0; resume 0; resume 0;
    resume 0; resume 0; resume 0; resume 0 ].

(** alice buys the blaster (damage 35), both enter the battle zone and
    alice hits bob twice, every handler running to its end before the
    next event arrives: bob is at 30 health and alice has 750 coins. *)
Definition duel_begins : list action :=
  alice_registers ++ bob_registers ++
  [ request "s1" (Req.buyItem "gun"); resume 0; resume 0;
    request "s1" (Req.joinBattle (JS.Str "solo") JS.Null); resume 0;
    request "s2" (Req.joinBattle (JS.Str "solo") JS.Null); resume 0;
    request "s1" (Req.playerAttack "s2"); resume 0;
    request "s1" (Req.playerAttack "s2"); resume 0 ].

(** Two more attacks of alice arrive together; the two handlers go on in
    turn until both have ended. *)
Definition two_attacks : list action :=
  duel_begins ++
  [ request "s1" (Req.playerAttack "s2");
    request "s1" (Req.playerAttack "s2");
    resume 0; resume 0; resume 0; resume 0 ].

(** The third hit brings bob down, and while the account update of the
    reward (l.285) is under way bob moves. *)
Definition wounded_moves : list action :=
  duel_begins ++
  [ request "s1" (Req.playerAttack "s2"); resume 0;
    request "s2" (Req.playerMovement (JS.Number (JS.Num 410))
                                     (JS.Number (JS.Num 300))) ].



End Overlap.

(* ------------------------------------------------------------------ *)
(** * Specification-level notions *)

(** ** Quiz reward *)

(** The integer a claimed answer stands for: that number, or its decimal
    numeral as the quiz input field sends it. *)
Inductive denotes : JS.value -> Z -> Prop :=
| denotes_number (z : Z) : denotes (JS.Number (JS.Num z)) z
| denotes_numeral (z : Z) :
    denotes (JS.Str (JS.ToString (JS.Number (JS.Num z)))) z.

(** The recomputed sum [num1 + num2] equals the claimed answer. *)
Definition sum_equals_answer (num1 num2 answer : JS.value) : Prop :=
  exists z, JS.add num1 num2 = JS.Number (JS.Num z) /\ denotes answer z.

(** The reward is granted: the session's balance grows by 10 and the
    submitter is sent [updateMoney] and [quizResult {success: true}]. *)
Definition quiz_rewarded {Store} (sid : string) (s s' : state Store) : Prop :=
  exists p,
    Obj.get (players s) sid = Some p /\
    Obj.get (players s') sid
      = Some (Player.set_money p (Player.money p + 10)) /\
    outbox s' = outbox s ++
      [ (sid, Ev.updateMoney (Player.money p + 10));
        (sid, Ev.quizResult true (Some (10, Player.money p + 10))) ].

(** The balance [m] of account [username] is on disk / in the collection:
    the account is there and has that balance. *)
Definition file_balance_saved (username : string) (m : Z)
    (s : state FileServer.store) : Prop :=
  FileServer.DATA_FILE (db s) = FileServer.persistentUsers (db s) /\
  exists acc,
    Obj.get (FileServer.persistentUsers (db s)) username = Some acc /\
    User.money acc = m.

Definition mongo_balance_saved (username : string) (m : Z)
    (s : state MongoTask.store) : Prop :=
  exists acc,
    find (MongoServer.by_username username) (MongoTask.usersCol s)
      = Some acc /\
    User.money acc = m.

(** ** Plot purchase *)

(** [d] is among the deliveries made between [s] and [s']. *)
Definition delivered_since {Store} (s s' : state Store) (d : string * Ev.t)
  : Prop :=
  exists sent, outbox s' = outbox s ++ sent /\ In d sent.

(** Some payload reached connection [sid] between [s] and [s']. *)
Definition payload_surfaced {Store} (sid : string) (s s' : state Store) : Prop :=
  exists e, delivered_since s s' (sid, e).

(** The deliveries of a successful purchase: the updated plot to every
    connected socket, the new balance to the buyer, the system chat line to
    the housing district. *)
Definition purchase_deliveries {Store} (s : state Store) (sid : string)
    (house' : House.t) (money' : Z) (buyer plotId : string)
  : list (string * Ev.t) :=
  map (fun r => (r, Ev.houseUpdate house')) (sockets s)
  ++ [(sid, Ev.updateMoney money')]
  ++ map (fun r => (r, Ev.chatMessage "SYSTEM"
                         (String.append buyer
                            (String.append " bought "
                               (String.append plotId "!")))
                         "#ffff00"))
         (members s "housing").

(** The purchase goes through: plot without owner and balance at least the
    price. *)
Definition can_buy (h : House.t) (p : Player.t) : bool :=
  House.unowned h && (House.price h <=? Player.money p).

Definition file_buyHouse_outcome (sid plotId : string) (p : Player.t)
    (h : House.t) (s : state FileServer.store) : Prop :=
  exists s',
    exec (FileServer.handle sid (Req.buyHouse plotId)) s = Some s' /\
    (can_buy h p = false -> s' = s) /\
    (can_buy h p = true ->
       let money' := Player.money p - House.price h in
       let house' := House.set_owner h (Some (Player.username p)) in
       players s' = Obj.set (players s) sid (Player.set_money p money') /\
       Obj.get (FileServer.persistentHouses (db s')) plotId = Some house' /\
       FileServer.HOUSES_FILE (db s') = FileServer.persistentHouses (db s') /\
       file_balance_saved (Player.username p) money' s' /\
       outbox s' = outbox s
                   ++ purchase_deliveries s sid house' money'
                        (Player.username p) plotId /\
       (Player.username p <> "" ->
        forall sid2,
          exec (FileServer.handle sid2 (Req.buyHouse plotId)) s' = Some s')).

(** On the MongoDB server the request is followed from the arrival of the
    event to the end of its handler, no other handler running at its
    [await]s. *)
Definition mongo_buyHouse_outcome (sid plotId : string) (p : Player.t)
    (h : House.t) (s : state MongoTask.store) : Prop :=
  let buyHouse sid :=
    MongoTask.uninterrupted (MongoTask.handle sid (Req.buyHouse plotId)) in
  exists s',
    exec (buyHouse sid) s = Some s' /\
    (can_buy h p = false -> s' = s) /\
    (can_buy h p = true ->
       let money' := Player.money p - House.price h in
       let house' := House.set_owner h (Some (Player.username p)) in
       players s' = Obj.set (players s) sid (Player.set_money p money') /\
       find (MongoServer.by_id plotId) (MongoTask.housesCol s')
         = Some house' /\
       mongo_balance_saved (Player.username p) money' s' /\
       outbox s' = outbox s
                   ++ purchase_deliveries s sid house' money'
                        (Player.username p) plotId /\
       (Player.username p <> "" ->
        forall sid2, exec (buyHouse sid2) s' = Some s')).

(** ** Combat *)

(** The health value an outbound event carries. *)
Definition health_of (e : Ev.t) : option Z :=
  match e with
  | Ev.playerHit _ hp _ => Some hp
  | Ev.playerUpdate p => Some (Player.hp p)
  | _ => None
  end.

(** ** Balances *)





(** ** Movement *)


(** ** Collision and boundaries on the client *)

(** The circle of centre [(x, y)] and radius [r] meets the rectangle: some
    point of the rectangle is at distance less than [r] from the centre. *)
Definition circle_meets_rect (x y r : Z) (o : Client.rect) : Prop :=
  exists px py,
    Client.rx o <= px <= Client.rx o + Client.width o /\
    Client.ry o <= py <= Client.ry o + Client.height o /\
    (x - px) * (x - px) + (y - py) * (y - py) < r * r.

(** A player standing at [(x, y)], a circle of radius 15, touches one of
    the six obstacles of the battle zone. *)
Definition blocked (x y : Z) : Prop :=
  exists o, In o Client.BATTLE_OBSTACLES /\ circle_meets_rect x y 15 o.

Definition position (p : Client.player) : Z * Z := (Client.x p, Client.y p).

(** The position is inside the 800x600 district. *)
Definition in_bounds (xy : Z * Z) : Prop :=
  0 <= fst xy <= 800 /\ 0 <= snd xy <= 600.

(** The position is beyond the given side of the 800x600 district. *)
Definition exits (p : Client.player) (sd : Client.side) : Prop :=
  match sd with
  | Client.left => Client.x p < 0
  | Client.right => 800 < Client.x p
  | Client.top => Client.y p < 0
  | Client.bottom => 600 < Client.y p
  end.

(** 75 units inside the edge of the neighbour that faces the side left. *)
Definition safe_spawn (p : Client.player) (sd : Client.side) : Z * Z :=
  match sd with
  | Client.left => (725, Client.y p)
  | Client.right => (75, Client.y p)
  | Client.top => (Client.x p, 525)
  | Client.bottom => (Client.x p, 75)
  end.

Definition clamped (p : Client.player) : Z * Z :=
  (Z.max 0 (Z.min 800 (Client.x p)), Z.max 0 (Z.min 600 (Client.y p))).

(** The client state after a crossing to [target]: the player at the safe
    spawn, the district switched, the letter keys released, the cooldown
    started and [joinDistrict] sent. *)
Definition crossed (c : Client.t) (p : Client.player) (target : string)
    (spawn : Z * Z) : Client.t :=
  Client.mk (Some (Client.set_xy p (fst spawn) (snd spawn)))
            target
            (Client.mkKeys false false false false
               (Client.ArrowUp (Client.pressed c))
               (Client.ArrowLeft (Client.pressed c))
               (Client.ArrowDown (Client.pressed c))
               (Client.ArrowRight (Client.pressed c)))
            true (Client.lastState c) (Client.quizOpen c)
            (Client.sent c ++ [Client.joinDistrict target spawn]).

(** The client state after a position was clamped: nothing else changes. *)
Definition held_at (c : Client.t) (p : Client.player) (xy : Z * Z) : Client.t :=
  Client.mk (Some (Client.set_xy p (fst xy) (snd xy)))
            (Client.currentDistrict c) (Client.pressed c)
            (Client.isTransitioning c) (Client.lastState c)
            (Client.quizOpen c) (Client.sent c).

(** Example client states. *)
Module ClientDemo.

Definition no_keys : Client.keys :=
  Client.mkKeys false false false false false false false false.

(** In the arena, right under the top-left obstacle, pressing up and
    right. *)
Definition under_obstacle : Client.t :=
  Client.mk (Some (Client.mkPlayer 240 245 "idle" None)) "arena_battle"
            (Client.mkKeys true false false true false false false false)
            false "idle" false [].

(** In the plaza, just across the left edge. *)
Definition past_left_edge : Client.t :=
  Client.mk (Some (Client.mkPlayer (-5) 300 "walking" None)) "plaza"
            (Client.mkKeys false true false false false false false false)
            false "walking" false [].

(** In the school, across the left and the bottom edge at once. *)
Definition past_corner : Client.t :=
  Client.mk (Some (Client.mkPlayer (-5) 605 "walking" None)) "school"
            (Client.mkKeys false true true false false false false false)
            false "walking" false [].

(** In the school, in the bottom-left corner, pressing down and left. *)
Definition in_corner : Client.t :=
  Client.mk (Some (Client.mkPlayer 0 600 "walking" (Some 1000))) "school"
            (Client.mkKeys false true true false false false false false)
            false "walking" false [].

End ClientDemo.

(** The move the pressed keys ask for in one tick: 5 along each axis,
    opposite keys cancelling out. *)
Definition asked_step (k : Client.keys) : Z * Z :=
  ((if Client.d k || Client.ArrowRight k then 5 else 0)
   - (if Client.a k || Client.ArrowLeft k then 5 else 0),
   (if Client.s k || Client.ArrowDown k then 5 else 0)
   - (if Client.w k || Client.ArrowUp k then 5 else 0)).

(** The candidate position. *)
Definition asked_position (k : Client.keys) (p : Client.player) : Z * Z :=
  (Client.x p + fst (asked_step k), Client.y p + snd (asked_step k)).

(** The six obstacles of the battle zone: left, top, width, height. *)
Definition zone_obstacles : list (Z * Z * Z * Z) :=
  [ (200, 150, 80, 80); (520, 150, 80, 80);
    (200, 370, 80, 80); (520, 370, 80, 80);
    (260, 260, 80, 80); (460, 260, 80, 80) ].

(** A player at [(x, y)], a circle of radius 15, touches one of the six
    obstacles: some point of the rectangle is less than 15 away from the
    centre. *)
Definition touches_obstacle (xy : Z * Z) : Prop :=
  exists l t w h px py,
    In (l, t, w, h) zone_obstacles /\
    l <= px <= l + w /\ t <= py <= t + h /\
    (fst xy - px) * (fst xy - px) + (snd xy - py) * (snd xy - py) < 15 * 15.

(** How a tick in the battle zone resolves the move asked for: the
    position it gives the player, and whether the player has moved.  The
    candidate is taken when it touches no obstacle; else the move along X
    only, when that touches none; else the move along Y only; else the
    player stays. *)
Inductive resolved (k : Client.keys) (p : Client.player)
  : Z * Z -> bool -> Prop :=
| resolved_free :
    ~ touches_obstacle (asked_position k p) ->
    asked_position k p <> position p ->
    resolved k p (asked_position k p) true
| resolved_idle :
    ~ touches_obstacle (asked_position k p) ->
    asked_position k p = position p ->
    resolved k p (position p) false
| resolved_slide_x :
    touches_obstacle (asked_position k p) ->
    ~ touches_obstacle (fst (asked_position k p), Client.y p) ->
    resolved k p (fst (asked_position k p), Client.y p) true
| resolved_slide_y :
    touches_obstacle (asked_position k p) ->
    touches_obstacle (fst (asked_position k p), Client.y p) ->
    ~ touches_obstacle (Client.x p, snd (asked_position k p)) ->
    resolved k p (Client.x p, snd (asked_position k p)) true
| resolved_stuck :
    touches_obstacle (asked_position k p) ->
    touches_obstacle (fst (asked_position k p), Client.y p) ->
    touches_obstacle (Client.x p, snd (asked_position k p)) ->
    resolved k p (position p) false.

(** A movement tick in the battle zone resolves the move asked for, and
    leaves the player at the position so resolved, provided the player
    has not moved or that position is inside the district (otherwise the
    boundary check applies). *)
Definition arena_tick_spec (now : Z) (c : Client.t) (p : Client.player)
  : Prop :=
  exists target moved,
    resolved (Client.pressed c) p target moved /\
    (moved = false \/ in_bounds target ->
     option_map position (Client.me (Client.update now c)) = Some target).

(** The boundary check on a position that is beyond side [sd] only. *)
Definition crossing_spec (c : Client.t) (p : Client.player) (sd : Client.side)
  : Prop :=
  match Client.DISTRICT_MAP (Client.currentDistrict c) sd with
  | Some target =>
      Client.checkDistrictBoundaries c = crossed c p target (safe_spawn p sd)
  | None =>
      Client.checkDistrictBoundaries c = held_at c p (clamped p)
  end.

(** ** Sessions and accounts *)

(** At most one live session per account: two sockets whose sessions
    carry the same username are the same socket. *)
Definition single_session {Store} (s : state Store) : Prop :=
  forall sid1 sid2 p1 p2,
    Obj.get (players s) sid1 = Some p1 ->
    Obj.get (players s) sid2 = Some p2 ->
    Player.username p1 = Player.username p2 ->
    sid1 = sid2.

(** Account [username] maps to a live session. *)
Definition logged_in {Store} (s : state Store) (username : string) : Prop :=
  exists sid, Obj.get (socketUserMap s) sid = Some username.

(** The login was turned down: one [authError] to the requesting socket,
    nothing else changes (no session is created). *)
Definition login_rejected {Store} (sid msg : string) (s s' : state Store)
  : Prop :=
  s' = set_outbox s (outbox s ++ [(sid, Ev.authError msg)]).

(** The invariant of the session registry, [registered u] saying that the
    store holds an account for [u]:
    - every socket of [socketUserMap] names an account of the store;
    - no two sockets name the same account;
    - a session is registered under the username it carries. *)
Definition registry_inv (registered : string -> Prop)
    (ps : Obj.t Player.t) (um : Obj.t string) : Prop :=
  (forall sid u, Obj.get um sid = Some u -> registered u) /\
  (forall sid1 sid2 u,
     Obj.get um sid1 = Some u -> Obj.get um sid2 = Some u -> sid1 = sid2) /\
  (forall sid p, Obj.get ps sid = Some p ->
                 Obj.get um sid = Some (Player.username p)).

(** Every account of [users.json] is stored under its own username. *)
Definition users_keyed (users : Obj.t User.t) : Prop :=
  forall k acc, Obj.get users k = Some acc -> User.username acc = k.

(** The invariant on the three maps of the file-backed server. *)
Definition fcore (users : Obj.t User.t) (ps : Obj.t Player.t)
    (um : Obj.t string) : Prop :=
  users_keyed users /\
  registry_inv (fun u => exists acc, Obj.get users u = Some acc) ps um.

Definition file_inv (s : state FileServer.store) : Prop :=
  fcore (FileServer.persistentUsers (db s)) (players s) (socketUserMap s).

(** The invariant on the collection and the two maps of the MongoDB
    server. *)
Definition mcore (users : list User.t) (ps : Obj.t Player.t)
    (um : Obj.t string) : Prop :=
  registry_inv
    (fun u => exists acc, find (MongoServer.by_username u) users = Some acc)
    ps um.

Definition mongo_inv (s : state MongoServer.store) : Prop :=
  mcore (MongoServer.usersCol (db s)) (players s) (socketUserMap s).

(** The handler keeps the invariant and returns. *)
Definition file_keeps (m : FileServer.H unit) : Prop :=
  forall s, file_inv s -> exists s', m s = Some (tt, s') /\ file_inv s'.

Definition mongo_keeps (m : MongoServer.H unit) : Prop :=
  forall s, mongo_inv s -> exists s', m s = Some (tt, s') /\ mongo_inv s'.

(** [password] is the password of the account [username]. *)
Definition file_credentials (username password : string)
    (s : state FileServer.store) : Prop :=
  exists acc,
    Obj.get (FileServer.persistentUsers (db s)) username = Some acc /\
    User.password acc = password.

Definition mongo_credentials (username password : string)
    (s : state MongoServer.store) : Prop :=
  exists acc,
    find (MongoServer.by_username username) (MongoServer.usersCol (db s))
    = Some acc /\
    User.password acc = password.

(** ** District transfer *)

(** The fixed default spawn point. *)
Definition default_spawn : JS.value * JS.value :=
  (JS.Number (JS.Num 400), JS.Number (JS.Num 300)).



(** What the transfer of the session [p] on socket [sid] to [newRoom] has
    done between [s] and [s']:
    - the session is in [newRoom], at the spawn position when one was
      given, else at the default spawn when the district changed, else
      where it was;
    - the socket has left the room of the previous district and is in the
      room of the target; the other sockets are in the rooms they were in;
    - the other members of the previous district were sent
      [playerDisconnected], those of the target district [newPlayer];
    - the moving socket was sent [playerChangedDistrict] with the list of
      all sessions of the target district, itself included. *)
Definition transfer_outcome {Store} (sid newRoom : string) (spawnPos : spawn)
    (p : Player.t) (s s' : state Store) : Prop :=
  let oldRoom := Player.district p in
  exists p',
    Obj.get (players s') sid = Some p' /\
    Player.district p' = newRoom /\
    (Player.x p', Player.y p')
      = match spawnPos with
        | Some xy => xy
        | None => if (oldRoom =? newRoom)%string
                  then (Player.x p, Player.y p)
                  else default_spawn
        end /\
    (oldRoom <> newRoom -> in_room s' sid oldRoom = false) /\
    in_room s' sid newRoom = true /\
    (forall r room, r <> sid -> in_room s' r room = in_room s r room) /\
    (forall r, In r (members s oldRoom) -> r <> sid ->
               delivered_since s s' (r, Ev.playerDisconnected sid)) /\
    (forall r, In r (members s newRoom) -> r <> sid ->
               delivered_since s s' (r, Ev.newPlayer p')) /\
    delivered_since s s'
      (sid, Ev.playerChangedDistrict (players_in s' newRoom)) /\
    (forall sid2 q, Obj.get (players s') sid2 = Some q ->
                    Player.district q = newRoom ->
                    In q (players_in s' newRoom)) /\
    (forall q, In q (players_in s' newRoom) -> Player.district q = newRoom).

(** A transfer request handled in the state a run has reached: the server
    has not thrown so far, and if the socket holds a live session the
    handler returns and has carried the transfer out. *)
Definition transfers_ok {Store} (reached : option (state Store))
    (handler : M Store unit) (sid newRoom : string) (spawnPos : spawn)
  : Prop :=
  exists s,
    reached = Some s /\
    forall p, Obj.get (players s) sid = Some p ->
      exists s', exec handler s = Some s' /\
                 transfer_outcome sid newRoom spawnPos p s s'.


(* ------------------------------------------------------------------ *)
(** * What every run keeps: sessions, accounts and plots *)

(** No catalog item heals: every damage is non-negative. *)
Definition harmless (its : list Item.t) : Prop :=
  Forall (fun i => 0 <= Item.damage i) its.

(** What holds of the session [p] stored under socket [sid], [account]
    looking an account up by username:
    - the session carries its socket id;
    - its health is between 1 and 100 (for a catalog that does not heal),
      its maximum health is 100;
    - its balance, its equipment and its password are those of its
      account;
    - unless its username is empty, the socket is in the room of the
      district the session is in. *)
Definition session_ok (account : string -> option User.t)
    (its : list Item.t) (rs : list (string * string))
    (sid : string) (p : Player.t) : Prop :=
  Player.playerId p = sid /\
  Player.maxHp p = 100 /\
  (harmless its -> 0 < Player.hp p <= 100) /\
  (exists acc, account (Player.username p) = Some acc /\
               User.money acc = Player.money p /\
               User.equipment acc = Player.equipment p /\
               User.password acc = Player.password p) /\
  (Player.username p <> "" -> joined rs sid (Player.district p) = true).

(** Every socket of [socketUserMap] has a session, and the two maps have
    one entry per socket. *)
Definition sessions_mapped (ps : Obj.t Player.t) (um : Obj.t string) : Prop :=
  (forall sid u, Obj.get um sid = Some u -> exists p, Obj.get ps sid = Some p) /\
  NoDup (Obj.keys ps) /\
  NoDup (Obj.keys um).

(** The state of the file-backed server between two events. *)
Definition file_wf (s : state FileServer.store) : Prop :=
  file_inv s /\
  FileServer.DATA_FILE (db s) = FileServer.persistentUsers (db s) /\
  FileServer.HOUSES_FILE (db s) = FileServer.persistentHouses (db s) /\
  sessions_mapped (players s) (socketUserMap s) /\
  (forall sid p, Obj.get (players s) sid = Some p ->
     session_ok (Obj.get (FileServer.persistentUsers (db s)))
                (FileServer.items (db s)) (rooms s) sid p).

(** What is left of an account: it is never removed, and its password and
    its colour never change. *)
Definition account_kept (acc acc' : User.t) : Prop :=
  User.username acc' = User.username acc /\
  User.password acc' = User.password acc /\
  User.color acc' = User.color acc.

(** What is left of a plot: place and price stay, an owner with a
    non-empty name stays, furniture is only added, at the end. *)
Definition plot_kept (h h' : House.t) : Prop :=
  House.id h' = House.id h /\
  House.x h' = House.x h /\
  House.y h' = House.y h /\
  House.price h' = House.price h /\
  (forall o, House.owner h = Some o -> o <> "" -> House.owner h' = Some o) /\
  (exists more, House.furniture h' = House.furniture h ++ more).

(** Every account of [account] is still in [account'], kept. *)
Definition accounts_kept (account account' : string -> option User.t) : Prop :=
  forall u acc, account u = Some acc ->
    exists acc', account' u = Some acc' /\ account_kept acc acc'.

(** Every plot of [plot] is still in [plot'], kept, and [plot'] has no
    other plot. *)
Definition plots_kept (plot plot' : string -> option House.t) : Prop :=
  (forall id h, plot id = Some h ->
     exists h', plot' id = Some h' /\ plot_kept h h') /\
  (forall id, plot id = None -> plot' id = None).



(** How the file-backed store can have changed from [s] to [s']. *)
Definition file_evolves (s s' : state FileServer.store) : Prop :=
  accounts_kept (Obj.get (FileServer.persistentUsers (db s)))
                (Obj.get (FileServer.persistentUsers (db s'))) /\
  plots_kept (Obj.get (FileServer.persistentHouses (db s)))
             (Obj.get (FileServer.persistentHouses (db s'))) /\
  FileServer.items (db s') = FileServer.items (db s).

(** The handler returns, keeps [file_wf] and changes the store within
    [file_evolves]. *)
Definition file_sound (m : FileServer.H unit) : Prop :=
  forall s, file_wf s ->
    exists s', m s = Some (tt, s') /\ file_wf s' /\ file_evolves s s'.




(** ** What holds after every run *)

(** Every session has between 1 and 100 health points, of at most 100. *)
Definition healthy {Store} (s : state Store) : Prop :=
  forall sid p, Obj.get (players s) sid = Some p ->
    0 < Player.hp p <= 100 /\ Player.maxHp p = 100.

(** [players[targetId]], as the MongoDB server looks the target of an
    attack up, with its key. *)
Definition direct_target (ps : Obj.t Player.t) (targetId : string)
  : option (string * Player.t) :=
  option_map (fun p => (targetId, p)) (Obj.get ps targetId).

(** Requests that only a logged-in socket can make. *)
Definition needs_session (r : Req.t) : bool :=
  match r with
  | Req.register _ _ _ | Req.login _ _ | Req.disconnect => false
  | _ => true
  end.

(** ** The client over several ticks *)

(** The key handlers have left the keys in state [k]. *)
Definition press (k : Client.keys) (c : Client.t) : Client.t :=
  Client.mk (Client.me c) (Client.currentDistrict c) k
            (Client.isTransitioning c) (Client.lastState c)
            (Client.quizOpen c) (Client.sent c).

(** Successive calls of [update], each at its time and with the keys as
    the key handlers have left them. *)
Fixpoint play (ticks : list (Z * Client.keys)) (c : Client.t) : Client.t :=
  match ticks with
  | [] => c
  | (now, k) :: ticks' => play ticks' (Client.update now (press k c))
  end.

(** In the battle zone, outside any cooldown, at a place inside the field
    where the player's circle of radius 15 touches none of the six
    obstacles. *)
Definition clear_in_arena (c : Client.t) : Prop :=
  Client.currentDistrict c = "arena_battle" /\
  Client.isTransitioning c = false /\
  exists p, Client.me c = Some p /\
            in_bounds (position p) /\
            ~ touches_obstacle (position p).

(** The same with the obstacles as [checkCollision] reads them. *)
Definition free_in_arena (c : Client.t) : Prop :=
  Client.currentDistrict c = "arena_battle" /\
  Client.isTransitioning c = false /\
  exists p, Client.me c = Some p /\
            in_bounds (position p) /\
            ~ blocked (Client.x p) (Client.y p).



(** ** What the moving client sees after a transfer *)



(** ** An attack that lands *)

(** The damage of an attack by a session with [equipment]: that of the
    first catalog item with that id, and [bare] without one. *)
Definition attack_damage (its : list Item.t) (equipment : option string)
    (bare : Z) : Z :=
  match find_weapon its equipment with
  | Some weapon => Item.damage weapon
  | None => bare
  end.

(** The friendly-fire guard of the file server. *)
Definition same_team (attacker target : Player.t) : bool :=
  JS.strict_eq (Player.mode attacker) (JS.Str "team")
  && JS.strict_eq (Player.team attacker) (Player.team target).

(** What an attack of [damage] by [attacker] (socket [sid]) on [target]
    (socket [targetId]) leaves in [s']: a target that survives has lost
    [damage] and nothing else changed for the two; otherwise the target
    is back at full health at (400, 300) and the attacker has 50 coins
    more, in its session and in its account. *)
Definition attack_lands {Store}
    (account : state Store -> string -> option User.t)
    (s' : state Store) (sid targetId : string)
    (attacker target : Player.t) (damage : Z) : Prop :=
  if 0 <? Player.hp target - damage then
    Obj.get (players s') targetId
      = Some (Player.set_hp target (Player.hp target - damage)) /\
    (sid <> targetId -> Obj.get (players s') sid = Some attacker)
  else
    exists attacker' target' acc,
      Obj.get (players s') sid = Some attacker' /\
      Obj.get (players s') targetId = Some target' /\
      Player.money attacker' = Player.money attacker + 50 /\
      account s' (Player.username attacker) = Some acc /\
      User.money acc = Player.money attacker + 50 /\
      Player.hp target' = 100 /\
      Player.x target' = JS.Number (JS.Num 400) /\
      Player.y target' = JS.Number (JS.Num 300).

(** An attack request handled in the state a run has reached, attacker
    and target both in the combat zone and not stopped by [guard]. *)
Definition attack_resolved {Store}
    (account : state Store -> string -> option User.t)
    (catalog : state Store -> list Item.t) (bare : Z)
    (guard : Player.t -> Player.t -> bool)
    (reached : option (state Store)) (handler : M Store unit)
    (sid targetId : string) : Prop :=
  exists s,
    reached = Some s /\
    forall attacker target,
      Obj.get (players s) sid = Some attacker ->
      Obj.get (players s) targetId = Some target ->
      Player.district attacker = "arena_battle" ->
      Player.district target = "arena_battle" ->
      guard attacker target = false ->
      exists s',
        exec handler s = Some s' /\
        attack_lands account s' sid targetId attacker target
          (attack_damage (catalog s) (Player.equipment attacker) bare).

(** ** What a movement tells the district *)


(* ------------------------------------------------------------------ *)
(** * Facts about objects and JavaScript values *)

Module ObjFacts.

Lemma get_set_eq {V} (o : Obj.t V) k v : Obj.get (Obj.set o k v) k = Some v.
Proof.
  induction o as [|[k' v'] o IH]; cbn.
  - now rewrite String.eqb_refl.
  - destruct (k' =? k)%string eqn:E; cbn.
    + now rewrite String.eqb_refl.
    + now rewrite E.
Qed.

Lemma get_set_ne {V} (o : Obj.t V) k k' v :
  k <> k' -> Obj.get (Obj.set o k v) k' = Obj.get o k'.
Proof.
  intros Hne. induction o as [|[k0 v0] o IH]; cbn.
  - destruct (String.eqb_spec k k'); congruence.
  - destruct (String.eqb_spec k0 k) as [->|]; cbn.
    + destruct (String.eqb_spec k k'); congruence.
    + destruct (String.eqb_spec k0 k'); congruence.
Qed.

Lemma get_delete_eq {V} (o : Obj.t V) k : Obj.get (Obj.delete o k) k = None.
Proof.
  induction o as [|[k0 v0] o IH]; cbn; [reflexivity|].
  destruct (String.eqb_spec k0 k); cbn; [exact IH|].
  destruct (String.eqb_spec k0 k); [congruence | exact IH].
Qed.

Lemma get_delete_ne {V} (o : Obj.t V) k k' :
  k <> k' -> Obj.get (Obj.delete o k) k' = Obj.get o k'.
Proof.
  intros Hne. induction o as [|[k0 v0] o IH]; cbn; [reflexivity|].
  destruct (String.eqb_spec k0 k) as [->|]; cbn.
  - destruct (String.eqb_spec k k'); [congruence | exact IH].
  - destruct (String.eqb_spec k0 k'); [reflexivity | exact IH].
Qed.

Lemma get_in_values {V} (o : Obj.t V) k v :
  Obj.get o k = Some v -> In v (Obj.values o).
Proof.
  induction o as [|[k0 v0] o IH]; cbn; [discriminate|].
  destruct (k0 =? k)%string; [intros [= ->]; now left | auto].
Qed.

Lemma includes_spec (l : list string) (x : string) :
  includes l x = true <-> In x l.
Proof.
  unfold includes. rewrite existsb_exists. split.
  - intros [y [Hy E]]. apply String.eqb_eq in E. now subst.
  - intros Hx. exists x. now rewrite String.eqb_refl.
Qed.

End ObjFacts.

Module JSFacts.

Lemma dec_prefix_print (u : Decimal.uint) :
  JS.dec_prefix (NilEmpty.string_of_uint u) = u.
Proof. induction u; cbn; congruence. Qed.

(** A printed natural number is read back: nothing is trimmed, no sign
    and no [0x] prefix is seen, and all digits are taken. *)
Lemma parse_printed_digits (u : Decimal.uint) :
  u <> Decimal.Nil ->
  JS.parseInt (JS.Str (NilEmpty.string_of_uint u)) = JS.Num (Z.of_uint u).
Proof.
  intros Hu. unfold JS.parseInt. cbn [JS.ToString].
  destruct u as [|u|u|u|u|u|u|u|u|u|u]; [congruence|..];
    destruct u; cbn -[Z.mul Z.of_uint]; unfold JS.dec_magnitude;
    cbn -[Z.mul Z.of_uint]; rewrite ?dec_prefix_print, ?Z.mul_1_l;
    reflexivity.
Qed.

Lemma of_uint_to_uint (p : positive) : Z.of_uint (Pos.to_uint p) = Z.pos p.
Proof.
  unfold Z.of_uint. now rewrite DecimalPos.Unsigned.of_to.
Qed.

Lemma print_pos (p : positive) :
  NilZero.string_of_uint (Pos.to_uint p)
  = NilEmpty.string_of_uint (Pos.to_uint p).
Proof.
  pose proof (DecimalPos.Unsigned.to_uint_nonnil p) as Hn.
  destruct (Pos.to_uint p); [congruence | reflexivity..].
Qed.

(** [parseInt] reads an integer back, from the number and from its
    decimal numeral alike. *)
Lemma parseInt_integer (z : Z) :
  JS.parseInt (JS.Number (JS.Num z)) = JS.Num z.
Proof.
  destruct z as [|p|p].
  - reflexivity.
  - unfold JS.parseInt. cbn [JS.ToString Z.to_int NilZero.string_of_int].
    rewrite print_pos.
    pose proof (parse_printed_digits (Pos.to_uint p)
                  (DecimalPos.Unsigned.to_uint_nonnil p)) as Hp.
    unfold JS.parseInt in Hp. cbn [JS.ToString] in Hp.
    now rewrite Hp, of_uint_to_uint.
  - pose proof (parse_printed_digits (Pos.to_uint p)
                  (DecimalPos.Unsigned.to_uint_nonnil p)) as Hp.
    unfold JS.parseInt in *.
    cbn [JS.ToString Z.to_int NilZero.string_of_int] in *.
    rewrite print_pos. cbn [JS.trim_start JS.is_white].
    pose proof (DecimalPos.Unsigned.to_uint_nonnil p) as Hn.
    destruct (Pos.to_uint p) eqn:E; [congruence|..];
      cbn [NilEmpty.string_of_uint JS.trim_start JS.is_white] in Hp |- *;
      (destruct (JS.magnitude _) as [m|];
       [ rewrite Z.mul_1_l in Hp; injection Hp as Hp; subst m;
         rewrite <- E, of_uint_to_uint; reflexivity
       | discriminate ]).
Qed.

Lemma parseInt_numeral (z : Z) :
  JS.parseInt (JS.Str (JS.ToString (JS.Number (JS.Num z)))) = JS.Num z.
Proof. exact (parseInt_integer z). Qed.

Lemma strict_eq_refl_num (z : Z) :
  JS.strict_eq (JS.Number (JS.Num z)) (JS.Number (JS.Num z)) = true.
Proof. cbn. apply Z.eqb_refl. Qed.

End JSFacts.

(* ------------------------------------------------------------------ *)
(** * Symbolic execution of handlers *)

Ltac simpl_state :=
  cbv beta iota delta
    [set_db set_players set_socketUserMap set_sockets set_rooms set_outbox] in *;
  cbn [db players socketUserMap sockets rooms outbox
       FileServer.persistentUsers FileServer.persistentHouses FileServer.items
       FileServer.DATA_FILE FileServer.HOUSES_FILE
       MongoServer.usersCol MongoServer.housesCol MongoServer.itemsCol] in *.

Ltac run :=
  cbv beta iota delta
    [exec bind ret gets modify throw player_of update_player deliver
     socket_emit io_emit io_to socket_to socket_join socket_leave
     socket_closed connection
     FileServer.set_users FileServer.set_houses FileServer.saveData_users
     FileServer.saveData_houses FileServer.assign_user
     MongoServer.set_users MongoServer.set_houses];
  simpl_state.

(** Case analysis on the innermost scrutinee. *)
Ltac break_match_hyp H :=
  match type of H with
  | context [match ?x with _ => _ end] =>
      lazymatch x with
      | context [match _ with _ => _ end] => fail
      | _ => let E := fresh "E" in destruct x eqn:E
      end
  end.

Ltac break_match_goal :=
  match goal with
  | |- context [match ?x with _ => _ end] =>
      lazymatch x with
      | context [match _ with _ => _ end] => fail
      | _ => let E := fresh "E" in destruct x eqn:E
      end
  end.

Import ObjFacts JSFacts.

(* ------------------------------------------------------------------ *)
(** * The MongoDB handlers without interruption

    A handler of [MongoTask] that runs to its end with nothing in between
    does what the handler of [MongoServer] does. *)

Ltac task_run :=
  cbv beta iota delta
    [MongoTask.uninterrupted MongoTask.finish MongoTask.forget
     MongoTask.handle MongoServer.handle
     MongoTask.register MongoTask.login MongoTask.loginUser
     MongoTask.disconnect MongoTask.playerMovement
     MongoTask.handleDistrictChange MongoTask.joinDistrict
     MongoTask.buyHouse MongoTask.enterHouse MongoTask.leaveHouse
     MongoTask.placeFurniture MongoTask.submitQuizAnswer MongoTask.buyItem
     MongoTask.joinBattle MongoTask.playerAttack MongoTask.chatMessage
     MongoServer.register MongoServer.login MongoServer.loginUser
     MongoServer.disconnect MongoServer.playerMovement
     MongoServer.handleDistrictChange MongoServer.handleDistrictChange_begin
     MongoServer.handleDistrictChange_resume MongoServer.persist_position
     MongoServer.joinDistrict
     MongoServer.buyHouse MongoServer.enterHouse MongoServer.leaveHouse
     MongoServer.placeFurniture MongoServer.submitQuizAnswer
     MongoServer.buyItem MongoServer.joinBattle MongoServer.playerAttack
     MongoServer.chatMessage
     MongoTask.capture MongoTask.read MongoTask.write MongoTask.detach
     MongoTask.object MongoTask.attached MongoTask.serial_of
     MongoTask.set_users MongoTask.set_houses
     MongoTask.usersCol MongoTask.housesCol MongoTask.itemsCol
     MongoServer.set_users MongoServer.set_houses
     exec bind ret gets modify throw player_of update_player deliver
     socket_emit io_emit io_to socket_to socket_join socket_leave
     socket_closed connection members in_room players_in
     set_db set_players set_socketUserMap set_sockets set_rooms set_outbox
     option_map fst snd];
  cbn [db players socketUserMap sockets rooms outbox
       MongoTask.data MongoTask.serial MongoTask.detached
       MongoServer.usersCol MongoServer.housesCol MongoServer.itemsCol
       Player.username Player.password Player.x Player.y Player.district
       Player.color Player.money Player.equipment Player.playerId Player.hp
       Player.maxHp Player.mode Player.team
       Player.set_money Player.set_pos Player.set_hp Player.set_district
       Player.set_equipment Player.set_battle Player.of_user].

Ltac same_lookups :=
  repeat match goal with
  | H : Some _ = Some _ |- _ => injection H as ->
  | H : Some _ = None |- _ => discriminate H
  | H : None = Some _ |- _ => discriminate H
  | H : ?x = ?x |- _ => clear H
  end.

Ltac task_step :=
  first
  [ progress (rewrite ?Nat.eqb_refl, ?get_set_eq)
  | match goal with
    | E : ?x = _ |- context [match ?x with _ => _ end] => rewrite E
    end
  | break_match_goal; same_lookups; try reflexivity ];
  task_run.

Ltac task_equiv s :=
  destruct s as [[[us hs its] ser det] ps um so rs ob];
  task_run; repeat task_step; try reflexivity.

Section Uninterrupted.

Variable sid : string.
Variable s : state MongoTask.store.

Lemma register_uninterrupted u p c :
  MongoTask.same_run s (MongoTask.register sid u p c) (MongoServer.register sid u p c).
Proof. unfold MongoTask.same_run. task_equiv s. Qed.

Lemma login_uninterrupted u p :
  MongoTask.same_run s (MongoTask.login sid u p) (MongoServer.login sid u p).
Proof. unfold MongoTask.same_run. task_equiv s. Qed.

Lemma disconnect_uninterrupted :
  MongoTask.same_run s (MongoTask.disconnect sid) (MongoServer.disconnect sid).
Proof. unfold MongoTask.same_run. task_equiv s. Qed.

Lemma playerMovement_uninterrupted x y :
  MongoTask.same_run s (MongoTask.playerMovement sid x y)
           (MongoServer.playerMovement sid x y).
Proof. unfold MongoTask.same_run. task_equiv s. Qed.

Lemma handleDistrictChange_uninterrupted d sp :
  MongoTask.same_run s (MongoTask.handleDistrictChange sid d sp)
           (MongoServer.handleDistrictChange sid d sp).
Proof. unfold MongoTask.same_run. task_equiv s. Qed.

Lemma buyHouse_uninterrupted plotId :
  MongoTask.same_run s (MongoTask.buyHouse sid plotId) (MongoServer.buyHouse sid plotId).
Proof. unfold MongoTask.same_run. task_equiv s. Qed.

Lemma placeFurniture_uninterrupted h i :
  MongoTask.same_run s (MongoTask.placeFurniture sid h i)
           (MongoServer.placeFurniture sid h i).
Proof. unfold MongoTask.same_run. task_equiv s. Qed.

Lemma submitQuizAnswer_uninterrupted n1 n2 a e :
  MongoTask.same_run s (MongoTask.submitQuizAnswer sid n1 n2 a e)
           (MongoServer.submitQuizAnswer sid n1 n2 a e).
Proof. unfold MongoTask.same_run. task_equiv s. Qed.

Lemma buyItem_uninterrupted i :
  MongoTask.same_run s (MongoTask.buyItem sid i) (MongoServer.buyItem sid i).
Proof. unfold MongoTask.same_run. task_equiv s. Qed.

Lemma joinBattle_uninterrupted m t :
  MongoTask.same_run s (MongoTask.joinBattle sid m t) (MongoServer.joinBattle sid m t).
Proof.
  unfold MongoTask.same_run.
  destruct s as [[[us hs its] ser det] ps um so rs ob].
  task_run.
  change (includes DISTRICTS "arena_battle") with true.
  change ("arena_battle" =? "housing")%string with false.
  task_run. repeat task_step. all: try reflexivity.
Qed.

Lemma playerAttack_uninterrupted t :
  MongoTask.same_run s (MongoTask.playerAttack sid t) (MongoServer.playerAttack sid t).
Proof.
  unfold MongoTask.same_run.
  destruct s as [[[us hs its] ser det] ps um so rs ob].
  destruct (String.eqb_spec sid t) as [e|e]; [subst t|].
  - task_run; repeat task_step; try reflexivity.
  - assert (e' : t <> sid) by congruence.
    task_run;
    repeat (first [ progress (rewrite ?(get_set_ne _ _ _ _ e),
                                      ?(get_set_ne _ _ _ _ e')); task_run
                  | task_step ]);
    try reflexivity.
Qed.

Lemma chatMessage_uninterrupted m :
  MongoTask.same_run s (MongoTask.chatMessage sid m) (MongoServer.chatMessage sid m).
Proof. unfold MongoTask.same_run. task_equiv s. Qed.

(** Every handler of the MongoDB server, run from the arrival of its
    event to its end with no other handler in between, is the handler of
    [MongoServer]. *)
Lemma handle_uninterrupted (r : Req.t) :
  MongoTask.same_run s (MongoTask.handle sid r) (MongoServer.handle sid r).
Proof.
  destruct r; cbn [MongoTask.handle MongoServer.handle].
  - apply register_uninterrupted.
  - apply login_uninterrupted.
  - apply disconnect_uninterrupted.
  - apply playerMovement_uninterrupted.
  - unfold MongoTask.joinDistrict, MongoServer.joinDistrict.
    destruct (negb _ && negb _); [reflexivity|].
    apply handleDistrictChange_uninterrupted.
  - apply buyHouse_uninterrupted.
  - apply handleDistrictChange_uninterrupted.
  - apply handleDistrictChange_uninterrupted.
  - apply placeFurniture_uninterrupted.
  - apply submitQuizAnswer_uninterrupted.
  - apply buyItem_uninterrupted.
  - apply joinBattle_uninterrupted.
  - apply playerAttack_uninterrupted.
  - apply chatMessage_uninterrupted.
Qed.

End Uninterrupted.
(* ------------------------------------------------------------------ *)
(** * Quiz reward *)

Lemma find_updateOne {A} (matches : A -> bool) (f : A -> A) (col : list A) :
  (forall a, matches (f a) = matches a) ->
  find matches (updateOne matches f col) = option_map f (find matches col).
Proof.
  intros Hf. induction col as [|a col IH]; cbn; [reflexivity|].
  destruct (matches a) eqn:E; cbn.
  - now rewrite Hf, E.
  - now rewrite E.
Qed.

(** The demonstration states: alice on socket [s1] and bob on [s2], both
    just registered with 1000 coins. *)
Lemma demo_file_players :
  players Demo.file_state
  = [("s1", Demo.alice "s1" 1000); ("s2", Demo.bob "s2" 1000)].
Proof. reflexivity. Qed.

Lemma demo_mongo_players :
  players Demo.mongo_state
  = [("s1", Demo.alice "s1" 1000); ("s2", Demo.bob "s2" 1000)].
Proof. reflexivity. Qed.

(** C1: both servers reward an answer that is not the sum.  alice, on
    socket [s1] with 1000 coins, submits the operands 5 and 3 with the
    answer ["8abc"]: [parseInt] reads the leading digit only, the test
    [parseInt(playerAnswer) === correctAnswer] passes, and both servers
    grant the reward: the session has 1010 coins, the account is saved
    with 1010 coins, and [updateMoney] and [quizResult {success: true}] go
    to the submitter. *)
Theorem quiz_rewards_an_answer_that_is_not_the_sum :
  ~ sum_equals_answer (JS.Number (JS.Num 5)) (JS.Number (JS.Num 3))
                      (JS.Str "8abc") /\
  (exists s',
     exec (FileServer.handle "s1"
             (Req.submitQuizAnswer (JS.Str "local") (JS.Number (JS.Num 5))
                (JS.Number (JS.Num 3)) (JS.Str "8abc") []))
          Demo.file_state = Some s' /\
     quiz_rewarded "s1" Demo.file_state s' /\
     file_balance_saved "alice" 1010 s') /\
  (exists s',
     exec (MongoTask.uninterrupted
             (MongoTask.handle "s1"
                (Req.submitQuizAnswer (JS.Str "local") (JS.Number (JS.Num 5))
                   (JS.Number (JS.Num 3)) (JS.Str "8abc") [])))
          (MongoTask.fresh Demo.mongo_state) = Some s' /\
     quiz_rewarded "s1" (MongoTask.fresh Demo.mongo_state) s' /\
     mongo_balance_saved "alice" 1010 s').
Proof.
  split; [|split].
  - intros [z [Hs Hd]]. cbn in Hs. injection Hs as <-.
    inversion Hd as [|z Hz Hz8]. subst z. vm_compute in Hz. discriminate.
  - eexists. split; [vm_compute; reflexivity|]. split.
    + exists (Demo.alice "s1" 1000). repeat split.
    + split; [reflexivity|]. eexists. split; reflexivity.
  - eexists. split; [vm_compute; reflexivity|]. split.
    + exists (Demo.alice "s1" 1000). repeat split.
    + eexists. split; reflexivity.
Qed.

(* ------------------------------------------------------------------ *)
(** * Plot purchase *)

Ltac rooms_eq :=
  unfold members, members_of, in_room, players_in; simpl_state.

Lemma unowned_after_sale h u :
  u <> "" -> House.unowned (House.set_owner h (Some u)) = false.
Proof.
  intros Hu. unfold House.unowned. cbn.
  destruct (String.eqb_spec u ""); congruence.
Qed.

Lemma file_buyHouse sid plotId p h acc (s : state FileServer.store) :
  Obj.get (players s) sid = Some p ->
  Obj.get (FileServer.persistentHouses (db s)) plotId = Some h ->
  Obj.get (FileServer.persistentUsers (db s)) (Player.username p) = Some acc ->
  file_buyHouse_outcome sid plotId p h s.
Proof.
  intros Hp Hh Hacc. unfold file_buyHouse_outcome, can_buy.
  cbn [FileServer.handle]. unfold FileServer.buyHouse. run.
  rewrite Hh, Hp.
  destruct (House.unowned h && (House.price h <=? Player.money p)) eqn:Hc.
  - rewrite Hp. simpl_state. rewrite Hacc. simpl_state.
    eexists. split; [reflexivity|]. split; [discriminate|]. intros _.
    cbn zeta. simpl_state.
    split; [reflexivity|]. split; [apply get_set_eq|].
    split; [reflexivity|]. split; [|split].
    + split; [reflexivity|]. cbn. rewrite get_set_eq.
      eexists. split; reflexivity.
    + unfold purchase_deliveries. rooms_eq. cbn [map].
      now rewrite <- !app_assoc.
    + intros Hu sid2. run. rewrite get_set_eq.
      rewrite (unowned_after_sale h _ Hu). cbn [andb].
      now destruct (Obj.get _ sid2).
  - eexists. split; [reflexivity|]. split; [reflexivity|discriminate].
Qed.

Lemma mongo_buyHouse sid plotId p h acc (s : state MongoTask.store) :
  Obj.get (players s) sid = Some p ->
  find (MongoServer.by_id plotId) (MongoTask.housesCol s) = Some h ->
  find (MongoServer.by_username (Player.username p)) (MongoTask.usersCol s)
    = Some acc ->
  mongo_buyHouse_outcome sid plotId p h s.
Proof.
  intros Hp Hh Hacc. unfold mongo_buyHouse_outcome, can_buy. cbv zeta.
  destruct s as [[[us hs its] ser det] ps um so rs ob].
  cbn in Hp, Hh, Hacc.
  task_run. rewrite Hp. task_run. rewrite Nat.eqb_refl, Hp, Hh. task_run.
  destruct (House.unowned h && (House.price h <=? Player.money p)) eqn:Hc.
  - task_run.
    repeat (rewrite ?Nat.eqb_refl, ?Hp, ?get_set_eq; task_run).
    rewrite find_updateOne by reflexivity. rewrite Hh. task_run.
    repeat (rewrite ?Nat.eqb_refl, ?get_set_eq; task_run).
    eexists. split; [reflexivity|]. split; [discriminate|]. intros _.
    cbn [players outbox].
    split; [reflexivity|]. split; [|split; [|split]].
    + cbn. rewrite find_updateOne by reflexivity. now rewrite Hh.
    + unfold mongo_balance_saved. cbn.
      rewrite find_updateOne by reflexivity. rewrite Hacc. cbn.
      eexists. split; reflexivity.
    + unfold purchase_deliveries. rooms_eq. cbn [map].
      now rewrite <- !app_assoc.
    + intros Hu sid2.
      destruct (Obj.get (Obj.set ps sid _) sid2) eqn:E2; task_run;
        [|reflexivity].
      rewrite Nat.eqb_refl, E2. task_run.
      rewrite find_updateOne by reflexivity. rewrite Hh. task_run.
      rewrite (unowned_after_sale h _ Hu). reflexivity.
  - eexists. split; [reflexivity|]. split; [reflexivity|discriminate].
Qed.

Lemma nothing_surfaced_in_same_state {Store} (sid : string) (s : state Store) :
  ~ payload_surfaced sid s s.
Proof.
  intros [e [sent [Ho Hin]]].
  rewrite <- (app_nil_r (outbox s)) in Ho at 1.
  apply app_inv_head in Ho. subst sent. exact Hin.
Qed.

(** C2, as stated, fails: bob's [buyHouse] on the plot alice owns leaves
    the state as it is in both servers, outbox included: no failure
    payload reaches the requesting connection. *)
Lemma refused_purchase_sends_nothing :
  (exists h, Obj.get (FileServer.persistentHouses (db Demo.file_sold)) "plot_1"
             = Some h /\ House.owner h = Some "alice") /\
  (exists s', exec (FileServer.handle "s2" (Req.buyHouse "plot_1"))
                   Demo.file_sold = Some s' /\
              ~ payload_surfaced "s2" Demo.file_sold s') /\
  (exists h, find (MongoServer.by_id "plot_1")
                  (MongoTask.housesCol (MongoTask.fresh Demo.mongo_sold))
             = Some h /\ House.owner h = Some "alice") /\
  (exists s', exec (MongoTask.uninterrupted
                      (MongoTask.handle "s2" (Req.buyHouse "plot_1")))
                   (MongoTask.fresh Demo.mongo_sold) = Some s' /\
              ~ payload_surfaced "s2" (MongoTask.fresh Demo.mongo_sold) s').
Proof.
  split; [|split; [|split]].
  - eexists. split; reflexivity.
  - exists Demo.file_sold. split; [reflexivity|].
    apply nothing_surfaced_in_same_state.
  - eexists. split; reflexivity.
  - exists (MongoTask.fresh Demo.mongo_sold). split; [reflexivity|].
    apply nothing_surfaced_in_same_state.
Qed.

(** C2 (amended): for a [buyHouse] of a logged-in session on an existing
    plot, in both servers, the handler of the MongoDB server running from
    its event to its end with no other handler in between: when the plot
    has an owner (a non-empty username) or the balance is below the
    price, the request is a silent no-op (nothing is sent, the state is
    unchanged); otherwise the balance is debited by exactly the price, the
    plot's owner becomes the buyer, both are saved (the plot and the
    buyer's account hold the new owner and the new balance), the updated
    plot goes to every connected socket, the new balance to the buyer and
    a system chat line to the housing district, and every later
    [buyHouse] on that plot is a no-op. *)
Theorem buyHouse_sale_or_silent_noop
    (sid plotId : string) (pf pm : Player.t) (hf hm : House.t)
    (accf accm : User.t)
    (sf : state FileServer.store) (sm : state MongoTask.store) :
  Obj.get (players sf) sid = Some pf ->
  Obj.get (FileServer.persistentHouses (db sf)) plotId = Some hf ->
  Obj.get (FileServer.persistentUsers (db sf)) (Player.username pf)
    = Some accf ->
  Obj.get (players sm) sid = Some pm ->
  find (MongoServer.by_id plotId) (MongoTask.housesCol sm) = Some hm ->
  find (MongoServer.by_username (Player.username pm)) (MongoTask.usersCol sm)
    = Some accm ->
  file_buyHouse_outcome sid plotId pf hf sf /\
  mongo_buyHouse_outcome sid plotId pm hm sm.
Proof.
  intros Hpf Hhf Haccf Hpm Hhm Haccm. split.
  - exact (file_buyHouse sid plotId pf hf accf sf Hpf Hhf Haccf).
  - exact (mongo_buyHouse sid plotId pm hm accm sm Hpm Hhm Haccm).
Qed.

Lemma buyHouse_witness :
  file_buyHouse_outcome "s1" "plot_1" (Demo.alice "s1" 1000)
    (House.mk "plot_1" 350 200 500 None []) Demo.file_state /\
  mongo_buyHouse_outcome "s1" "plot_1" (Demo.alice "s1" 1000)
    (House.mk "plot_1" 350 200 500 None [])
    (MongoTask.fresh Demo.mongo_state).
Proof.
  exact (buyHouse_sale_or_silent_noop "s1" "plot_1"
           (Demo.alice "s1" 1000) (Demo.alice "s1" 1000)
           (House.mk "plot_1" 350 200 500 None [])
           (House.mk "plot_1" 350 200 500 None [])
           (User.mk "pw1" "alice" (JS.Number (JS.Num 400))
                    (JS.Number (JS.Num 300)) "plaza" "hsl(1, 70%, 50%)"
                    1000 None)
           (User.mk "pw1" "alice" (JS.Number (JS.Num 400))
                    (JS.Number (JS.Num 300)) "plaza" "hsl(1, 70%, 50%)"
                    1000 None)
           Demo.file_state (MongoTask.fresh Demo.mongo_state)
           eq_refl eq_refl eq_refl eq_refl eq_refl eq_refl).
Defined.

(** X18: on the MongoDB server two purchases of one plot that overlap
    both go through.  alice and bob, 1000 coins each, send [buyHouse] for
    [plot_1] (500 coins) at the same time: both handlers pass the test of
    l.174, made on the plot as their [findOne] returned it, before either
    has written the owner.  When both have ended alice and bob have both
    been debited 500 coins, and the plot is bob's. *)
Theorem mongo_overlapping_purchases_both_debit :
  exists w,
    MongoLoop.run Overlap.two_purchases
      (MongoLoop.boot [] [] [] Demo.plots Demo.catalog) = Some w /\
    MongoLoop.waiting w = [] /\
    option_map Player.money (Obj.get (players (MongoLoop.mem w)) "s1")
      = Some 500 /\
    option_map Player.money (Obj.get (players (MongoLoop.mem w)) "s2")
      = Some 500 /\
    option_map House.owner
      (find (MongoServer.by_id "plot_1")
            (MongoTask.housesCol (MongoLoop.mem w)))
      = Some (Some "bob").
Proof.
  eexists. split; [vm_compute; reflexivity|]. repeat split.
Qed.

(* ------------------------------------------------------------------ *)
(** * Combat *)

Lemma in_broadcast (to : list string) (e : Ev.t) (d : string * Ev.t) :
  In d (map (fun r => (r, e)) to) -> snd d = e.
Proof.
  intros H. apply in_map_iff in H. destruct H as [r [<- _]]. reflexivity.
Qed.

Ltac split_in H :=
  lazymatch type of H with
  | In _ (_ ++ _) => apply in_app_or in H; destruct H as [H|H]; split_in H
  | In _ (map _ _) => apply in_broadcast in H
  | In _ [] => destruct H
  | In _ (_ :: _) =>
      destruct H as [H|H];
      [ apply (f_equal snd) in H; cbn [snd] in H; symmetry in H | split_in H ]
  | _ => idtac
  end.

Lemma sent_since {Store} (s s' : state Store) (l : list (string * Ev.t)) d :
  outbox s' = outbox s ++ l -> delivered_since s s' d -> In d l.
Proof.
  intros Ho [sent [Ho' Hin]]. rewrite Ho in Ho'.
  apply app_inv_head in Ho'. now subst.
Qed.

Lemma file_attack_health_not_negative sid targetId
    (s s' : state FileServer.store) :
  exec (FileServer.handle sid (Req.playerAttack targetId)) s = Some s' ->
  forall d hp,
    delivered_since s s' d -> health_of (snd d) = Some hp -> 0 <= hp.
Proof.
  cbn [FileServer.handle]. unfold FileServer.playerAttack. run.
  intros Hx d hp Hd Hh.
  assert (Hnil : outbox s' = outbox s ++ [] -> 0 <= hp).
  { intros Ho. destruct (sent_since _ _ _ _ Ho Hd). }
  destruct (Obj.get (players s) sid) as [attacker|];
    [|injection Hx as <-; apply Hnil; now rewrite app_nil_r].
  destruct (FileServer.find_target (players s) targetId) as [[tkey target]|];
    [|injection Hx as <-; apply Hnil; now rewrite app_nil_r].
  destruct (negb _ || negb _);
    [injection Hx as <-; apply Hnil; now rewrite app_nil_r|].
  destruct (JS.strict_eq _ _ && JS.strict_eq _ _);
    [injection Hx as <-; apply Hnil; now rewrite app_nil_r|].
  set (damage := match find_weapon _ _ with Some w => Item.damage w | None => 10 end) in *.
  set (hp' := Z.max 0 (Player.hp target - damage)) in *.
  assert (H0 : 0 <= hp') by (unfold hp'; lia).
  clearbody hp'. clear damage.
  repeat (break_match_hyp Hx; simpl_state; rewrite ?get_set_eq in *;
          repeat match goal with
                 | H : Some _ = Some _ |- _ => injection H as H; try subst
                 | H : Some _ = None |- _ => discriminate H
                 | H : None = Some _ |- _ => discriminate H
                 end).
  all: repeat (break_match_hyp Hd; simpl_state).
  all: destruct Hd as [sent [Ho Hin]]; cbn [outbox] in Ho;
    rewrite <- ?app_assoc in Ho;
    first [ apply app_inv_head in Ho
          | rewrite <- (app_nil_r (outbox s)) in Ho at 1;
            apply app_inv_head in Ho ];
    subst sent; split_in Hin;
    try (rewrite Hin in Hh; cbn in Hh;
         first [discriminate Hh | injection Hh as <-; lia]).
Qed.

(** C3: the MongoDB server broadcasts a negative health.  After the trace
    [Demo.duel] bob is at 30; alice's third hit with the blaster (damage
    35) is broadcast by the MongoDB server as [playerHit] with health -5,
    where the file-backed server, which clamps with [Math.max(0, ...)],
    broadcasts 0. *)
Theorem mongo_playerHit_carries_negative_health :
  (exists s s',
     MongoBoot.run Demo.duel (MongoBoot.boot [] [] [] Demo.plots Demo.catalog)
       = Some s /\
     option_map Player.hp (Obj.get (players s) "s2") = Some 30 /\
     exec (MongoServer.handle "s1" (Req.playerAttack "s2")) s = Some s' /\
     delivered_since s s' ("s2", Ev.playerHit "s2" (-5) "s1")) /\
  (exists s s',
     FileBoot.run Demo.duel (FileBoot.boot [] [] Demo.catalog) = Some s /\
     option_map Player.hp (Obj.get (players s) "s2") = Some 30 /\
     exec (FileServer.handle "s1" (Req.playerAttack "s2")) s = Some s' /\
     delivered_since s s' ("s2", Ev.playerHit "s2" 0 "s1")).
Proof.
  split.
  - eexists. eexists. split; [vm_compute; reflexivity|].
    split; [reflexivity|]. split; [vm_compute; reflexivity|].
    eexists. split; [vm_compute; reflexivity|]. right. left. reflexivity.
  - eexists. eexists. split; [vm_compute; reflexivity|].
    split; [reflexivity|]. split; [vm_compute; reflexivity|].
    eexists. split; [vm_compute; reflexivity|].
    right. right. right. left. reflexivity.
Qed.

(** The friendly-fire guard of the file-backed server: in team mode an
    attack on a member of one's own team changes nothing at all. *)
Lemma file_friendly_fire_rejected (sid targetId tkey team : string)
    (attacker target : Player.t) (s : state FileServer.store) :
  Obj.get (players s) sid = Some attacker ->
  FileServer.find_target (players s) targetId = Some (tkey, target) ->
  Player.mode attacker = JS.Str "team" ->
  Player.team attacker = JS.Str team ->
  Player.team target = JS.Str team ->
  exec (FileServer.handle sid (Req.playerAttack targetId)) s = Some s.
Proof.
  intros Ha Ht Hm Hta Htt. cbn [FileServer.handle].
  unfold FileServer.playerAttack. run. rewrite Ha, Ht, Hm, Hta, Htt.
  destruct (negb _ || negb _); [reflexivity|].
  cbn. now rewrite String.eqb_refl.
Qed.

(** C5: the MongoDB server has no friendly-fire guard.  alice and bob are
    both in team mode and in team red; alice's attack on bob takes 5
    health from him and is broadcast, where the file-backed server rejects
    it as a no-op. *)
Theorem mongo_applies_friendly_fire :
  (exists s s',
     MongoBoot.run Demo.team_match
       (MongoBoot.boot [] [] [] Demo.plots Demo.catalog) = Some s /\
     option_map (fun p => (Player.mode p, Player.team p, Player.hp p))
                (Obj.get (players s) "s1")
       = Some (JS.Str "team", JS.Str "red", 100) /\
     option_map (fun p => (Player.mode p, Player.team p, Player.hp p))
                (Obj.get (players s) "s2")
       = Some (JS.Str "team", JS.Str "red", 100) /\
     exec (MongoServer.handle "s1" (Req.playerAttack "s2")) s = Some s' /\
     option_map Player.hp (Obj.get (players s') "s2") = Some 95 /\
     delivered_since s s' ("s2", Ev.playerHit "s2" 95 "s1")) /\
  (exists s,
     FileBoot.run Demo.team_match (FileBoot.boot [] [] Demo.catalog) = Some s /\
     exec (FileServer.handle "s1" (Req.playerAttack "s2")) s = Some s).
Proof.
  split.
  - eexists. eexists. split; [vm_compute; reflexivity|].
    split; [reflexivity|]. split; [reflexivity|].
    split; [vm_compute; reflexivity|]. split; [reflexivity|].
    eexists. split; [vm_compute; reflexivity|]. right. left. reflexivity.
  - eexists. split; [vm_compute; reflexivity|]. vm_compute. reflexivity.
Qed.

(* ------------------------------------------------------------------ *)
(** * Balances stay non-negative *)











(* ------------------------------------------------------------------ *)
(** * Movement on the server *)



(* ------------------------------------------------------------------ *)
(** * Collision and sliding on the client *)

Lemma square_le_of_abs_le (a b : Z) : Z.abs a <= Z.abs b -> a * a <= b * b.
Proof.
  intros H. rewrite <- (Z.abs_square a), <- (Z.abs_square b).
  apply Z.mul_le_mono_nonneg; lia.
Qed.

Lemma collides_with_spec (x y r : Z) (o : Client.rect) :
  0 <= Client.width o -> 0 <= Client.height o ->
  Client.collides_with x y r o = true <-> circle_meets_rect x y r o.
Proof.
  intros Hw Hh. unfold Client.collides_with, circle_meets_rect.
  rewrite Z.ltb_lt.
  set (cx := Z.max (Client.rx o) (Z.min x (Client.rx o + Client.width o))).
  set (cy := Z.max (Client.ry o) (Z.min y (Client.ry o + Client.height o))).
  split.
  - intros Hd. exists cx, cy. unfold cx, cy. repeat split; try lia.
  - intros [px [py [Hx [Hy Hd]]]].
    assert (Hcx : (x - cx) * (x - cx) <= (x - px) * (x - px))
      by (apply square_le_of_abs_le; unfold cx; lia).
    assert (Hcy : (y - cy) * (y - cy) <= (y - py) * (y - py))
      by (apply square_le_of_abs_le; unfold cy; lia).
    lia.
Qed.

Lemma checkCollision_spec (x y : Z) :
  Client.checkCollision "arena_battle" x y Client.PLAYER_RADIUS = true
  <-> blocked x y.
Proof.
  unfold Client.checkCollision, blocked. cbn [String.eqb Ascii.eqb Bool.eqb].
  rewrite existsb_exists. split.
  - intros [o [Hin Hc]]. exists o. split; [assumption|].
    apply collides_with_spec in Hc; [assumption|..];
      cbn in Hin; intuition (subst; cbn; lia).
  - intros [o [Hin Hc]]. exists o. split; [assumption|].
    apply collides_with_spec; [..|assumption];
      cbn in Hin; intuition (subst; cbn; lia).
Qed.

Lemma not_blocked_iff (x y : Z) :
  Client.checkCollision "arena_battle" x y Client.PLAYER_RADIUS = false
  <-> ~ blocked x y.
Proof.
  rewrite <- checkCollision_spec. now destruct (Client.checkCollision _ _ _ _).
Qed.

(** What [move] returns in the arena, case by case. *)
Lemma move_in_arena (k : Client.keys) (p : Client.player) :
  let cand := Client.candidate k p in
  let pos := fst (Client.move "arena_battle" k p) in
  (~ blocked (fst cand) (snd cand) -> pos = cand) /\
  (blocked (fst cand) (snd cand) -> ~ blocked (fst cand) (Client.y p) ->
   Client.move "arena_battle" k p = ((fst cand, Client.y p), true)) /\
  (blocked (fst cand) (snd cand) -> blocked (fst cand) (Client.y p) ->
   ~ blocked (Client.x p) (snd cand) ->
   Client.move "arena_battle" k p = ((Client.x p, snd cand), true)) /\
  (blocked (fst cand) (snd cand) -> blocked (fst cand) (Client.y p) ->
   blocked (Client.x p) (snd cand) ->
   Client.move "arena_battle" k p = (position p, false)).
Proof.
  cbv zeta. unfold Client.move.
  destruct (Client.candidate k p) as [nx ny] eqn:Ec. cbn [fst snd].
  repeat split.
  - intros H. apply not_blocked_iff in H. rewrite H. cbn [negb].
    destruct (negb (nx =? Client.x p) || negb (ny =? Client.y p)) eqn:E;
      [reflexivity|].
    apply orb_false_elim in E. destruct E as [Ex Ey].
    apply negb_false_iff, Z.eqb_eq in Ex, Ey. cbn. congruence.
  - intros H1 H2. apply checkCollision_spec in H1.
    apply not_blocked_iff in H2. now rewrite H1, H2.
  - intros H1 H2 H3. apply checkCollision_spec in H1, H2.
    apply not_blocked_iff in H3. now rewrite H1, H2, H3.
  - intros H1 H2 H3. apply checkCollision_spec in H1, H2, H3.
    now rewrite H1, H2, H3.
Qed.

(** In the arena no side has a neighbour: the boundary check keeps a
    position that is inside the district. *)
Lemma arena_boundaries_keep (c : Client.t) (p : Client.player) :
  Client.me c = Some p -> Client.currentDistrict c = "arena_battle" ->
  in_bounds (position p) ->
  option_map position (Client.me (Client.checkDistrictBoundaries c))
  = Some (position p).
Proof.
  intros Hme Hd [[Hx0 Hx1] [Hy0 Hy1]]. cbn [position fst snd] in *.
  unfold Client.checkDistrictBoundaries. rewrite Hme, Hd.
  destruct (Client.isTransitioning c); [now rewrite Hme|].
  unfold Client.W, Client.H.
  assert (E1 : (Client.x p <? 0) = false) by lia.
  assert (E2 : (800 <? Client.x p) = false) by lia.
  assert (E3 : (Client.y p <? 0) = false) by lia.
  assert (E4 : (600 <? Client.y p) = false) by lia.
  rewrite E1, E2, E3, E4. reflexivity.
Qed.

(** The position a tick of [update] leaves, from what [move] returns. *)
Lemma update_position (now : Z) (c : Client.t) (p : Client.player) :
  Client.me c = Some p -> Client.quizOpen c = false ->
  Client.currentDistrict c = "arena_battle" ->
  let r := Client.move "arena_battle" (Client.pressed c) p in
  (snd r = false \/ in_bounds (fst r)) ->
  option_map position (Client.me (Client.update now c)) = Some (fst r).
Proof.
  intros Hme Hq Hd r Hr. unfold Client.update. rewrite Hme, Hq, Hd.
  fold r. destruct r as [[nx ny] moved]. cbn [fst snd] in *.
  destruct moved.
  - destruct Hr as [Hr|Hr]; [discriminate|]. cbn [orb].
    match goal with
    | |- context [if ?b then _ else _] => destruct b
    end;
      match goal with
      | |- context [Client.checkDistrictBoundaries
                      (Client.mk (Some ?q) ?d ?k ?t ?l ?z ?o)] =>
          exact (arena_boundaries_keep (Client.mk (Some q) d k t l z o) q
                   eq_refl eq_refl Hr)
      end.
  - cbn [orb].
    repeat match goal with
           | |- context [if ?b then _ else _] => destruct b
           end; reflexivity.
Qed.

Lemma asked_position_candidate (k : Client.keys) (p : Client.player) :
  asked_position k p = Client.candidate k p.
Proof.
  unfold asked_position, asked_step, Client.candidate, Client.SPEED.
  cbn [fst snd].
  destruct (Client.w k || Client.ArrowUp k),
           (Client.s k || Client.ArrowDown k),
           (Client.a k || Client.ArrowLeft k),
           (Client.d k || Client.ArrowRight k); f_equal; lia.
Qed.

Lemma touches_obstacle_blocked (xy : Z * Z) :
  touches_obstacle xy <-> blocked (fst xy) (snd xy).
Proof.
  unfold touches_obstacle, blocked, circle_meets_rect. split.
  - intros [l [t [w [h [px [py [Hin [Hx [Hy Hd]]]]]]]]].
    exists (Client.mkRect l t w h). split.
    + cbn in Hin. cbn.
      repeat (destruct Hin as [Hin|Hin];
              [injection Hin as <- <- <- <-; tauto|]).
      destruct Hin.
    + exists px, py. cbn. auto.
  - intros [o [Hin [px [py [Hx [Hy Hd]]]]]].
    exists (Client.rx o), (Client.ry o), (Client.width o), (Client.height o),
           px, py.
    split; [|auto].
    cbn in Hin. cbn.
    repeat (destruct Hin as [<-|Hin]; [cbn; tauto|]).
    destruct Hin.
Qed.

Lemma resolved_by_move (k : Client.keys) (p : Client.player) :
  resolved k p (fst (Client.move "arena_battle" k p))
               (snd (Client.move "arena_battle" k p)).
Proof.
  pose proof (move_in_arena k p) as H. cbv zeta in H.
  destruct H as [H1 [H2 [H3 H4]]].
  rewrite <- (asked_position_candidate k p) in H1, H2, H3, H4.
  assert (D : forall xy, touches_obstacle xy \/ ~ touches_obstacle xy).
  { intros xy. rewrite touches_obstacle_blocked, <- checkCollision_spec.
    destruct (Client.checkCollision _ _ _ _); [now left | now right]. }
  remember (asked_position k p) as cand eqn:Ecand.
  assert (B : forall x y, touches_obstacle (x, y) <-> blocked x y)
    by (intros x y; apply (touches_obstacle_blocked (x, y))).
  assert (Bc : touches_obstacle cand <-> blocked (fst cand) (snd cand))
    by apply touches_obstacle_blocked.
  destruct (D cand) as [T|T].
  - destruct (D (fst cand, Client.y p)) as [Tx|Tx].
    + destruct (D (Client.x p, snd cand)) as [Ty|Ty].
      * rewrite H4 by (first [now apply Bc | now apply B]).
        subst cand. now apply resolved_stuck.
      * rewrite H3 by (first [now apply Bc | now apply B | now rewrite <- B]).
        subst cand. now apply resolved_slide_y.
    + rewrite H2 by (first [now apply Bc | now rewrite <- B]).
      subst cand. now apply resolved_slide_x.
  - assert (Hn : ~ blocked (fst cand) (snd cand)) by (now rewrite <- Bc).
    clear H1 H2 H3 H4. unfold Client.move.
    rewrite <- asked_position_candidate, <- Ecand.
    destruct cand as [nx ny]. cbn [fst snd] in *.
    apply not_blocked_iff in Hn. rewrite Hn. cbn [negb].
    destruct (negb (nx =? Client.x p) || negb (ny =? Client.y p)) eqn:E;
      cbn [fst snd].
    + rewrite Ecand. apply resolved_free; rewrite <- Ecand; [exact T|].
      unfold position. intros Heq. injection Heq as -> ->.
      rewrite !Z.eqb_refl in E. discriminate E.
    + apply orb_false_elim in E. destruct E as [Ex Ey].
      apply negb_false_iff, Z.eqb_eq in Ex, Ey.
      apply resolved_idle; rewrite <- Ecand; [exact T|].
      unfold position. congruence.
Qed.

(** C7: a movement tick in the combat zone tests the candidate position
    the pressed keys ask for (5 along each axis) against the six obstacle
    rectangles, the player being a circle of radius 15; on collision the
    move is retried with only X changed, then with only Y changed, and
    when both retries collide the position is left unchanged. *)
Theorem arena_tick_tests_circle_then_slides
    (now : Z) (c : Client.t) (p : Client.player) :
  Client.me c = Some p ->
  Client.quizOpen c = false ->
  Client.currentDistrict c = "arena_battle" ->
  arena_tick_spec now c p.
Proof.
  intros Hme Hq Hd. unfold arena_tick_spec.
  exists (fst (Client.move "arena_battle" (Client.pressed c) p)),
         (snd (Client.move "arena_battle" (Client.pressed c) p)).
  split; [apply resolved_by_move|].
  intros Hr. now apply update_position.
Qed.

Lemma arena_tick_witness :
  arena_tick_spec 0 ClientDemo.under_obstacle
                  (Client.mkPlayer 240 245 "idle" None).
Proof.
  exact (arena_tick_tests_circle_then_slides 0 ClientDemo.under_obstacle
           (Client.mkPlayer 240 245 "idle" None) eq_refl eq_refl eq_refl).
Defined.

(** The witness state slides: the candidate (245, 240) touches the
    top-left obstacle, the X-only retry (245, 245) does not. *)
Lemma arena_tick_slides_under_obstacle :
  asked_position (Client.pressed ClientDemo.under_obstacle)
                 (Client.mkPlayer 240 245 "idle" None) = (245, 240) /\
  touches_obstacle (245, 240) /\
  ~ touches_obstacle (245, 245) /\
  option_map position (Client.me (Client.update 0 ClientDemo.under_obstacle))
  = Some (245, 245).
Proof.
  split; [reflexivity|]. split; [|split; [|reflexivity]].
  - apply touches_obstacle_blocked. now apply checkCollision_spec.
  - intros T. apply touches_obstacle_blocked, checkCollision_spec in T.
    discriminate T.
Qed.

(* ------------------------------------------------------------------ *)
(** * District boundaries on the client *)

Lemma boundary_one_side (c : Client.t) (p : Client.player) (sd : Client.side) :
  Client.me c = Some p ->
  Client.isTransitioning c = false ->
  exits p sd ->
  (forall sd', exits p sd' -> sd' = sd) ->
  crossing_spec c p sd.
Proof.
  intros Hme Ht Hex Honly.
  assert (Hl : sd <> Client.left -> (Client.x p <? 0) = false).
  { intros Hn. apply Z.ltb_ge. destruct (Z.lt_ge_cases (Client.x p) 0) as [H|H];
      [|lia]. exfalso. apply Hn. symmetry. now apply (Honly Client.left). }
  assert (Hr : sd <> Client.right -> (800 <? Client.x p) = false).
  { intros Hn. apply Z.ltb_ge. destruct (Z.lt_ge_cases 800 (Client.x p)) as [H|H];
      [|lia]. exfalso. apply Hn. symmetry. now apply (Honly Client.right). }
  assert (Hu : sd <> Client.top -> (Client.y p <? 0) = false).
  { intros Hn. apply Z.ltb_ge. destruct (Z.lt_ge_cases (Client.y p) 0) as [H|H];
      [|lia]. exfalso. apply Hn. symmetry. now apply (Honly Client.top). }
  assert (Hb : sd <> Client.bottom -> (600 <? Client.y p) = false).
  { intros Hn. apply Z.ltb_ge. destruct (Z.lt_ge_cases 600 (Client.y p)) as [H|H];
      [|lia]. exfalso. apply Hn. symmetry. now apply (Honly Client.bottom). }
  unfold crossing_spec, Client.checkDistrictBoundaries.
  rewrite Hme, Ht. unfold Client.W, Client.H, Client.OFFSET.
  destruct sd; cbn [exits] in Hex.
  - apply Z.ltb_lt in Hex. rewrite Hex.
    rewrite (Hu ltac:(discriminate)), (Hb ltac:(discriminate)).
    destruct (Client.DISTRICT_MAP _ _); [reflexivity|].
    unfold held_at, clamped. cbn [fst snd]. rewrite Ht.
    apply Z.ltb_lt in Hex. apply Z.ltb_ge in Hu, Hb; try discriminate.
    repeat f_equal; cbn; lia.
  - rewrite (Hl ltac:(discriminate)).
    apply Z.ltb_lt in Hex. rewrite Hex.
    rewrite (Hu ltac:(discriminate)), (Hb ltac:(discriminate)).
    destruct (Client.DISTRICT_MAP _ _); [reflexivity|].
    unfold held_at, clamped. cbn [fst snd]. rewrite Ht.
    apply Z.ltb_ge in Hu, Hb; try discriminate.
    repeat f_equal; lia.
  - rewrite (Hl ltac:(discriminate)), (Hr ltac:(discriminate)).
    apply Z.ltb_lt in Hex. rewrite Hex.
    destruct (Client.DISTRICT_MAP _ _); [reflexivity|].
    unfold held_at, clamped. cbn [fst snd]. rewrite Ht.
    apply Z.ltb_lt in Hex. apply Z.ltb_ge in Hl, Hr; try discriminate.
    repeat f_equal; cbn; lia.
  - rewrite (Hl ltac:(discriminate)), (Hr ltac:(discriminate)).
    rewrite (Hu ltac:(discriminate)).
    apply Z.ltb_lt in Hex. rewrite Hex.
    destruct (Client.DISTRICT_MAP _ _); [reflexivity|].
    unfold held_at, clamped. cbn [fst snd]. rewrite Ht.
    apply Z.ltb_ge in Hl, Hr, Hu; try discriminate.
    repeat f_equal; lia.
Qed.

(** C8, as stated, fails at a corner: in the school, whose bottom
    neighbour is the plaza, the position (-5, 605) is beyond the bottom
    edge, but the boundary check looks at the left edge first, finds no
    neighbour there and clamps to (0, 600): no transfer is invoked.  The
    position is reached by one tick from the corner (0, 600) with the down
    and left keys pressed. *)
Lemma corner_exit_towards_neighbour_is_clamped :
  exits (Client.mkPlayer (-5) 605 "walking" None) Client.bottom /\
  Client.DISTRICT_MAP (Client.currentDistrict ClientDemo.past_corner)
                      Client.bottom = Some "plaza" /\
  Client.isTransitioning ClientDemo.past_corner = false /\
  Client.checkDistrictBoundaries ClientDemo.past_corner
  = held_at ClientDemo.past_corner (Client.mkPlayer (-5) 605 "walking" None)
            (0, 600) /\
  Client.candidate (Client.pressed ClientDemo.in_corner)
                   (Client.mkPlayer 0 600 "walking" (Some 1000)) = (-5, 605) /\
  Client.sent (Client.update 2000 ClientDemo.in_corner)
  = [Client.playerMovement (-5) 605 "walking"] /\
  Client.currentDistrict (Client.update 2000 ClientDemo.in_corner) = "school" /\
  option_map position (Client.me (Client.update 2000 ClientDemo.in_corner))
  = Some (0, 600).
Proof. cbn [exits Client.y]. repeat split; try reflexivity; lia. Qed.

(** C8 (amended): for a post-move position that is beyond exactly one side
    of the 800x600 district, outside the cooldown: when that side has a
    neighbour in the district map the player is put 75 units inside the
    neighbour's facing edge, [joinDistrict] is sent for that neighbour and
    the cooldown starts; when it has none the position is clamped to the
    boundary and nothing is sent.  During the cooldown the boundary check
    does nothing. *)
Theorem boundary_crossing_on_the_one_exited_side
    (c : Client.t) (p : Client.player) :
  Client.me c = Some p ->
  (Client.isTransitioning c = true -> Client.checkDistrictBoundaries c = c) /\
  (Client.isTransitioning c = false ->
   forall sd, exits p sd -> (forall sd', exits p sd' -> sd' = sd) ->
              crossing_spec c p sd).
Proof.
  intros Hme. split.
  - intros Ht. unfold Client.checkDistrictBoundaries. now rewrite Hme, Ht.
  - intros Ht sd Hex Honly. now apply boundary_one_side.
Qed.

Lemma boundary_crossing_witness :
  (Client.isTransitioning ClientDemo.past_left_edge = true ->
   Client.checkDistrictBoundaries ClientDemo.past_left_edge
   = ClientDemo.past_left_edge) /\
  (Client.isTransitioning ClientDemo.past_left_edge = false ->
   forall sd,
     exits (Client.mkPlayer (-5) 300 "walking" None) sd ->
     (forall sd', exits (Client.mkPlayer (-5) 300 "walking" None) sd' ->
                  sd' = sd) ->
     crossing_spec ClientDemo.past_left_edge
                   (Client.mkPlayer (-5) 300 "walking" None) sd).
Proof.
  exact (boundary_crossing_on_the_one_exited_side ClientDemo.past_left_edge
           (Client.mkPlayer (-5) 300 "walking" None) eq_refl).
Defined.

(** The witness state does cross: from the plaza, beyond the left edge
    only, into housing at (725, 300). *)
Lemma plaza_left_edge_leads_to_housing :
  exits (Client.mkPlayer (-5) 300 "walking" None) Client.left /\
  (forall sd', exits (Client.mkPlayer (-5) 300 "walking" None) sd' ->
               sd' = Client.left) /\
  Client.checkDistrictBoundaries ClientDemo.past_left_edge
  = crossed ClientDemo.past_left_edge (Client.mkPlayer (-5) 300 "walking" None)
            "housing" (725, 300).
Proof.
  split; [cbn; lia|]. split; [|reflexivity].
  intros sd'. destruct sd'; cbn; intros H; try reflexivity; lia.
Qed.
(* ------------------------------------------------------------------ *)
(** * One session per account *)

Section Registry.

Variable registered : string -> Prop.

Lemma registry_set_player ps um sid p p' :
  registry_inv registered ps um ->
  Obj.get ps sid = Some p ->
  Player.username p' = Player.username p ->
  registry_inv registered (Obj.set ps sid p') um.
Proof.
  intros [HA [HB HC]] Hp Hu. repeat split; try assumption.
  intros sid0 p0. destruct (String.eqb_spec sid sid0) as [<-|Hne].
  - rewrite get_set_eq. intros [= <-]. rewrite Hu. now apply HC.
  - rewrite get_set_ne by assumption. apply HC.
Qed.

Lemma registry_login ps um sid u p :
  registry_inv registered ps um ->
  registered u ->
  (forall sid0, Obj.get um sid0 <> Some u) ->
  Player.username p = u ->
  registry_inv registered (Obj.set ps sid p) (Obj.set um sid u).
Proof.
  intros [HA [HB HC]] Hr Hno Hu.
  repeat split.
  - intros sid0 u0. destruct (String.eqb_spec sid sid0) as [<-|Hne].
    + rewrite get_set_eq. now intros [= <-].
    + rewrite get_set_ne by assumption. apply HA.
  - intros sid1 sid2 u0.
    destruct (String.eqb_spec sid sid1) as [<-|H1];
      destruct (String.eqb_spec sid sid2) as [<-|H2];
      rewrite ?get_set_eq, ?get_set_ne by assumption; try reflexivity.
    + intros [= <-] H. now apply Hno in H.
    + intros H [= <-]. now apply Hno in H.
    + apply HB.
  - intros sid0 p0. destruct (String.eqb_spec sid sid0) as [<-|Hne].
    + rewrite !get_set_eq. intros [= <-]. now rewrite Hu.
    + rewrite !get_set_ne by assumption. apply HC.
Qed.

Lemma registry_logout ps um sid :
  registry_inv registered ps um ->
  registry_inv registered (Obj.delete ps sid) (Obj.delete um sid).
Proof.
  intros [HA [HB HC]]. repeat split.
  - intros sid0 u0. destruct (String.eqb_spec sid sid0) as [<-|Hne].
    + now rewrite get_delete_eq.
    + rewrite get_delete_ne by assumption. apply HA.
  - intros sid1 sid2 u0.
    destruct (String.eqb_spec sid sid1) as [<-|H1];
      [now rewrite get_delete_eq|].
    destruct (String.eqb_spec sid sid2) as [<-|H2];
      [now rewrite (get_delete_eq um sid)|].
    rewrite !get_delete_ne by assumption. apply HB.
  - intros sid0 p0. destruct (String.eqb_spec sid sid0) as [<-|Hne].
    + now rewrite get_delete_eq.
    + rewrite !get_delete_ne by assumption. apply HC.
Qed.

Lemma registry_single ps um :
  registry_inv registered ps um ->
  forall sid1 sid2 p1 p2,
    Obj.get ps sid1 = Some p1 -> Obj.get ps sid2 = Some p2 ->
    Player.username p1 = Player.username p2 -> sid1 = sid2.
Proof.
  intros [HA [HB HC]] sid1 sid2 p1 p2 H1 H2 Hu.
  apply HC in H1, H2. rewrite Hu in H1. exact (HB _ _ _ H1 H2).
Qed.

End Registry.

Lemma not_included_no_socket (um : Obj.t string) (u : string) :
  includes (Obj.values um) u = false ->
  forall sid0, Obj.get um sid0 <> Some u.
Proof.
  intros Hf sid0 H. apply get_in_values in H.
  apply includes_spec in H. congruence.
Qed.

Lemma registry_weaken (R R' : string -> Prop) ps um :
  (forall u, R u -> R' u) ->
  registry_inv R ps um -> registry_inv R' ps um.
Proof.
  intros HR [HA [HB HC]]. repeat split; try assumption.
  intros sid u H. apply HR. exact (HA sid u H).
Qed.

(** ** The file-backed server keeps the invariant and never throws *)

Lemma fcore_set_player users ps um sid p p' :
  fcore users ps um ->
  Obj.get ps sid = Some p ->
  Player.username p' = Player.username p ->
  fcore users (Obj.set ps sid p') um.
Proof.
  intros [Hk Hr] Hp Hu. split; [assumption|].
  eapply registry_set_player; eassumption.
Qed.

Lemma fcore_set_user users ps um k v :
  fcore users ps um ->
  User.username v = k ->
  fcore (Obj.set users k v) ps um.
Proof.
  intros [Hk Hr] Hv. split.
  - intros k0 acc. destruct (String.eqb_spec k k0) as [<-|Hne].
    + rewrite get_set_eq. now intros [= <-].
    + rewrite get_set_ne by assumption. apply Hk.
  - eapply registry_weaken; [|exact Hr]. cbn. intros u [acc Ha].
    destruct (String.eqb_spec k u) as [<-|Hne].
    + rewrite get_set_eq. eauto.
    + rewrite get_set_ne by assumption. eauto.
Qed.

Lemma fcore_update_user users ps um k u v :
  fcore users ps um ->
  Obj.get users k = Some u ->
  User.username v = User.username u ->
  fcore (Obj.set users k v) ps um.
Proof.
  intros H Hu Hv. apply fcore_set_user; [assumption|].
  rewrite Hv. destruct H as [Hk _]. now apply Hk.
Qed.

Lemma fcore_login users ps um sid u acc :
  fcore users ps um ->
  Obj.get users u = Some acc ->
  (forall sid0, Obj.get um sid0 <> Some u) ->
  fcore users (Obj.set ps sid (Player.of_user acc sid)) (Obj.set um sid u).
Proof.
  intros [Hk Hr] Ha Hno. split; [assumption|].
  apply registry_login; try assumption; [eauto|]. cbn. now apply Hk.
Qed.

Lemma fcore_logout users ps um sid :
  fcore users ps um -> fcore users (Obj.delete ps sid) (Obj.delete um sid).
Proof.
  intros [Hk Hr]. split; [assumption|]. now apply registry_logout.
Qed.

Lemma fcore_account users ps um sid p :
  fcore users ps um -> Obj.get ps sid = Some p ->
  exists acc, Obj.get users (Player.username p) = Some acc.
Proof.
  intros [_ [HA [_ HC]]] Hp. apply HC in Hp. exact (HA _ _ Hp).
Qed.

Lemma fcore_socket_account users ps um sid u :
  fcore users ps um -> Obj.get um sid = Some u ->
  exists acc, Obj.get users u = Some acc.
Proof. intros [_ [HA _]] Hu. exact (HA _ _ Hu). Qed.

Ltac player_fields :=
  cbn [Player.username Player.set_money Player.set_pos Player.set_hp
       Player.set_district Player.set_equipment Player.set_battle
       Player.of_user Player.district
       User.username FileServer.user_set_money FileServer.user_set_district
       MongoServer.user_set_money] in *.

Ltac fcore_solve :=
  repeat first
    [ assumption
    | eapply fcore_set_player;
      [ | first [eassumption | apply get_set_eq] | reflexivity ]
    | eapply fcore_update_user; [ | eassumption | reflexivity ] ].

Ltac file_leaf :=
  eexists; split; [reflexivity|]; unfold file_inv; simpl_state;
  player_fields; fcore_solve.


Ltac file_auto :=
  run; repeat (break_match_goal; simpl_state); file_leaf.

Lemma file_keeps_exec (m : FileServer.H unit) s :
  file_keeps m -> file_inv s ->
  exists s', exec m s = Some s' /\ file_inv s'.
Proof.
  intros Hm Hi. destruct (Hm s Hi) as [s' [E Hi']].
  exists s'. unfold exec. now rewrite E.
Qed.

Lemma file_playerMovement_keeps sid mx my :
  file_keeps (FileServer.playerMovement sid mx my).
Proof.
  intros s Hi. unfold file_inv in Hi. unfold FileServer.playerMovement.
  file_auto.
Qed.

Lemma file_loginUser_keeps sid u acc (s : state FileServer.store) :
  file_inv s ->
  Obj.get (FileServer.persistentUsers (db s)) u = Some acc ->
  (forall sid0, Obj.get (socketUserMap s) sid0 <> Some u) ->
  exists s', FileServer.loginUser sid u s = Some (tt, s') /\ file_inv s'.
Proof.
  intros Hi Ha Hno. unfold file_inv in Hi. unfold FileServer.loginUser. run.
  rewrite Ha. simpl_state.
  repeat (break_match_goal; simpl_state);
    (eexists; split; [reflexivity|]; unfold file_inv; simpl_state;
     now apply fcore_login).
Qed.

Lemma file_register_keeps sid u pw color :
  file_keeps (FileServer.register sid u pw color).
Proof.
  intros s Hi. unfold FileServer.register.
  unfold bind at 1, gets at 1.
  destruct (Obj.get (FileServer.persistentUsers (db s)) u) as [acc|] eqn:Ea.
  - unfold file_inv in Hi. file_auto.
  - unfold bind at 1. unfold FileServer.set_users at 1, modify at 1.
    unfold bind at 1. unfold FileServer.saveData_users at 1, modify at 1.
    simpl_state.
    match goal with
    | |- context [FileServer.loginUser sid u ?s1] =>
        destruct (file_loginUser_keeps sid u
                    (User.mk pw u (JS.Number (JS.Num 400))
                       (JS.Number (JS.Num 300)) "plaza" color 1000 None) s1)
          as [s' [E Hi']]
    end.
    + unfold file_inv in *. simpl_state. now apply fcore_set_user.
    + simpl_state. apply get_set_eq.
    + simpl_state. intros sid0 H.
      eapply fcore_socket_account in H; [|exact Hi].
      destruct H as [acc H]. congruence.
    + eauto.
Qed.

Lemma file_login_keeps sid u pw : file_keeps (FileServer.login sid u pw).
Proof.
  intros s Hi. unfold FileServer.login.
  unfold bind at 1, gets at 1.
  destruct (Obj.get (FileServer.persistentUsers (db s)) u) as [acc|] eqn:Ea;
    [|unfold file_inv in Hi; file_auto].
  destruct (negb (User.password acc =? pw)%string);
    [unfold file_inv in Hi; file_auto|].
  unfold bind at 1, gets at 1.
  destruct (includes (Obj.values (socketUserMap s)) u) eqn:Ei;
    [unfold file_inv in Hi; file_auto|].
  apply (file_loginUser_keeps sid u acc s Hi Ea).
  now apply not_included_no_socket.
Qed.

Lemma file_disconnect_keeps sid : file_keeps (FileServer.disconnect sid).
Proof.
  intros s Hi. unfold file_inv in Hi. unfold FileServer.disconnect. run.
  destruct (Obj.get (socketUserMap s) sid) as [u|] eqn:Eu; [|file_leaf].
  destruct (Obj.get (players s) sid) as [p|] eqn:Ep; [|file_leaf].
  destruct (u =? "")%string; [file_leaf|].
  destruct (fcore_socket_account _ _ _ _ _ Hi Eu) as [acc Ea].
  simpl_state. rewrite Ea. simpl_state.
  assert (Hi' : fcore
            (Obj.set (FileServer.persistentUsers (db s)) u
               (User.mk (User.password acc) (User.username acc) (Player.x p)
                  (Player.y p) (Player.district p) (User.color acc)
                  (Player.money p) (equipment_or_null (Player.equipment p))))
            (Obj.delete (players s) sid) (Obj.delete (socketUserMap s) sid)).
  { apply fcore_logout. eapply fcore_update_user; [exact Hi|exact Ea|reflexivity]. }
  destruct (Player.district p =? "")%string;
    (eexists; split; [reflexivity|]; exact Hi').
Qed.

Ltac settle := simpl_state; rewrite ?get_set_eq; simpl_state.

Lemma file_handleDistrictChange_keeps sid newRoom spawnPos :
  file_keeps (FileServer.handleDistrictChange sid newRoom spawnPos).
Proof.
  intros s Hi. unfold file_inv in Hi.
  unfold FileServer.handleDistrictChange, FileServer.persist_district.
  run.
  destruct (Obj.get (players s) sid) as [p|] eqn:Ep; [|file_leaf].
  rewrite Ep. settle.
  assert (Hacc : forall u, Obj.get (socketUserMap s) sid = Some u ->
                 exists acc,
                   Obj.get (FileServer.persistentUsers (db s)) u = Some acc)
    by (intros u Hu; exact (fcore_socket_account _ _ _ _ _ Hi Hu)).
  destruct spawnPos as [[sx sy]|];
    [|destruct (negb (Player.district p =? newRoom)%string)];
    settle;
    (destruct (includes DISTRICTS newRoom); settle;
     [ destruct (Obj.get (socketUserMap s) sid) as [u|] eqn:Eu; settle;
       [ destruct (u =? "")%string; settle;
         [ | destruct (Hacc u eq_refl) as [acc Ea]; rewrite Ea; settle ]
       | ]
     | ]);
    repeat (break_match_goal; settle); file_leaf.
Qed.

Lemma file_joinDistrict_keeps sid d sp :
  file_keeps (FileServer.joinDistrict sid d sp).
Proof.
  intros s Hi. unfold FileServer.joinDistrict.
  destruct (negb (includes DISTRICTS d)).
  - exists s. split; [reflexivity|assumption].
  - now apply file_handleDistrictChange_keeps.
Qed.

Lemma file_buyHouse_keeps sid plotId :
  file_keeps (FileServer.buyHouse sid plotId).
Proof.
  intros s Hi. unfold file_inv in Hi. unfold FileServer.buyHouse. run.
  destruct (Obj.get (FileServer.persistentHouses (db s)) plotId) as [h|];
    [|file_leaf].
  destruct (Obj.get (players s) sid) as [p|] eqn:Ep; [|file_leaf].
  destruct (House.unowned h && _); [|file_leaf].
  rewrite Ep. simpl_state.
  destruct (fcore_account _ _ _ _ _ Hi Ep) as [acc Ea]. rewrite Ea.
  simpl_state. file_leaf.
Qed.

Lemma file_placeFurniture_keeps sid houseId item :
  file_keeps (FileServer.placeFurniture sid houseId item).
Proof.
  intros s Hi. unfold file_inv in Hi. unfold FileServer.placeFurniture.
  file_auto.
Qed.

Lemma file_submitQuizAnswer_keeps sid q n1 n2 a e :
  file_keeps (FileServer.submitQuizAnswer sid q n1 n2 a e).
Proof.
  intros s Hi. unfold file_inv in Hi. unfold FileServer.submitQuizAnswer.
  file_auto.
Qed.

Lemma file_buyItem_keeps sid itemId :
  file_keeps (FileServer.buyItem sid itemId).
Proof.
  intros s Hi. unfold file_inv in Hi. unfold FileServer.buyItem.
  file_auto.
Qed.

Lemma file_chatMessage_keeps sid msg :
  file_keeps (FileServer.chatMessage sid msg).
Proof.
  intros s Hi. unfold file_inv in Hi. unfold FileServer.chatMessage.
  file_auto.
Qed.

Lemma file_playerAttack_keeps sid targetId :
  file_keeps (FileServer.playerAttack sid targetId).
Proof.
  intros s Hi. unfold file_inv in Hi. unfold FileServer.playerAttack.
  file_auto.
Qed.

Lemma file_joinBattle_keeps sid mode team :
  file_keeps (FileServer.joinBattle sid mode team).
Proof.
  intros s Hi. unfold FileServer.joinBattle.
  unfold bind at 1, player_of at 1, gets at 1.
  destruct (Obj.get (players s) sid) as [p|] eqn:Ep;
    [|exists s; split; [reflexivity|assumption]].
  unfold bind at 1, update_player at 1, modify at 1. rewrite Ep.
  unfold bind at 1.
  match goal with
  | |- context [FileServer.handleDistrictChange sid ?r ?sp ?s1] =>
      destruct (file_handleDistrictChange_keeps sid r sp s1) as [s2 [E2 Hi2]]
  end.
  { unfold file_inv in *. simpl_state. player_fields. fcore_solve. }
  rewrite E2. unfold file_inv in Hi2. file_auto.
Qed.

Lemma file_handle_keeps sid r : file_keeps (FileServer.handle sid r).
Proof.
  destruct r; cbn [FileServer.handle].
  - apply file_register_keeps.
  - apply file_login_keeps.
  - apply file_disconnect_keeps.
  - apply file_playerMovement_keeps.
  - apply file_joinDistrict_keeps.
  - apply file_buyHouse_keeps.
  - apply file_handleDistrictChange_keeps.
  - apply file_handleDistrictChange_keeps.
  - apply file_placeFurniture_keeps.
  - apply file_submitQuizAnswer_keeps.
  - apply file_buyItem_keeps.
  - apply file_joinBattle_keeps.
  - apply file_playerAttack_keeps.
  - apply file_chatMessage_keeps.
Qed.

(** ** The MongoDB server keeps the invariant *)

Lemma find_kept_by_updateOne {A} (P Q : A -> bool) (f : A -> A) (col : list A) :
  (forall a, P (f a) = P a) ->
  (exists a, find P col = Some a) ->
  exists a, find P (updateOne Q f col) = Some a.
Proof.
  intros Hf. induction col as [|a col IH]; cbn; [trivial|].
  intros H. destruct (Q a); cbn.
  - rewrite Hf. destruct (P a); eauto.
  - destruct (P a); eauto.
Qed.

Lemma find_kept_by_append {A} (P : A -> bool) (col : list A) (x : A) :
  (exists a, find P col = Some a) -> exists a, find P (col ++ [x]) = Some a.
Proof.
  induction col as [|a col IH]; cbn; [intros [a [=]]|].
  destruct (P a); eauto.
Qed.

Lemma mcore_set_player users ps um sid p p' :
  mcore users ps um ->
  Obj.get ps sid = Some p ->
  Player.username p' = Player.username p ->
  mcore users (Obj.set ps sid p') um.
Proof. intros. eapply registry_set_player; eassumption. Qed.

Lemma mcore_updateOne users ps um (Q : User.t -> bool) (f : User.t -> User.t) :
  mcore users ps um ->
  (forall a, User.username (f a) = User.username a) ->
  mcore (updateOne Q f users) ps um.
Proof.
  intros H Hf. eapply registry_weaken; [|exact H]. cbn. intros u Hu.
  apply find_kept_by_updateOne; [|assumption].
  intros a. unfold MongoServer.by_username. now rewrite Hf.
Qed.

Lemma mcore_append users ps um x :
  mcore users ps um -> mcore (users ++ [x]) ps um.
Proof.
  intros H. eapply registry_weaken; [|exact H]. cbn. intros u Hu.
  now apply find_kept_by_append.
Qed.

Lemma mcore_login users ps um sid u acc :
  mcore users ps um ->
  find (MongoServer.by_username u) users = Some acc ->
  (forall sid0, Obj.get um sid0 <> Some u) ->
  mcore users (Obj.set ps sid (Player.of_user acc sid)) (Obj.set um sid u).
Proof.
  intros H Ha Hno. apply registry_login; try assumption; [eauto|].
  cbn. apply find_some in Ha. destruct Ha as [_ Ha].
  now apply String.eqb_eq in Ha.
Qed.

Lemma mcore_logout users ps um sid :
  mcore users ps um -> mcore users (Obj.delete ps sid) (Obj.delete um sid).
Proof. apply registry_logout. Qed.

Ltac mcore_solve :=
  repeat first
    [ assumption
    | eapply mcore_set_player;
      [ | first [eassumption | apply get_set_eq] | reflexivity ]
    | apply mcore_updateOne; [ | intros; reflexivity ] ].

Ltac mongo_leaf :=
  eexists; split; [reflexivity|]; unfold mongo_inv; simpl_state;
  player_fields; mcore_solve.

Ltac mongo_auto :=
  run; repeat (break_match_goal; settle); mongo_leaf.

Lemma mongo_keeps_exec (m : MongoServer.H unit) s :
  mongo_keeps m -> mongo_inv s ->
  exists s', exec m s = Some s' /\ mongo_inv s'.
Proof.
  intros Hm Hi. destruct (Hm s Hi) as [s' [E Hi']].
  exists s'. unfold exec. now rewrite E.
Qed.

Lemma mongo_playerMovement_keeps sid mx my :
  mongo_keeps (MongoServer.playerMovement sid mx my).
Proof.
  intros s Hi. unfold mongo_inv in Hi. unfold MongoServer.playerMovement.
  mongo_auto.
Qed.

Lemma mongo_loginUser_keeps sid u acc (s : state MongoServer.store) :
  mongo_inv s ->
  find (MongoServer.by_username u) (MongoServer.usersCol (db s)) = Some acc ->
  (forall sid0, Obj.get (socketUserMap s) sid0 <> Some u) ->
  exists s', MongoServer.loginUser sid u s = Some (tt, s') /\ mongo_inv s'.
Proof.
  intros Hi Ha Hno. unfold mongo_inv in Hi. unfold MongoServer.loginUser. run.
  rewrite Ha. simpl_state.
  repeat (break_match_goal; simpl_state);
    (eexists; split; [reflexivity|]; unfold mongo_inv; simpl_state;
     now apply mcore_login).
Qed.

Lemma find_append_new {A} (P : A -> bool) (col : list A) (x : A) :
  find P col = None -> P x = true -> find P (col ++ [x]) = Some x.
Proof.
  induction col as [|a col IH]; cbn; intros H Hx.
  - now rewrite Hx.
  - destruct (P a); [discriminate|auto].
Qed.

Lemma mongo_register_keeps sid u pw color :
  mongo_keeps (MongoServer.register sid u pw color).
Proof.
  intros s Hi. unfold MongoServer.register.
  unfold bind at 1, gets at 1.
  destruct (find (MongoServer.by_username u) (MongoServer.usersCol (db s)))
    as [acc|] eqn:Ea.
  - unfold mongo_inv in Hi. mongo_auto.
  - unfold bind at 1. unfold MongoServer.set_users at 1, modify at 1.
    simpl_state.
    match goal with
    | |- context [MongoServer.loginUser sid u ?s1] =>
        destruct (mongo_loginUser_keeps sid u
                    (User.mk pw u (JS.Number (JS.Num 400))
                       (JS.Number (JS.Num 300)) "plaza" color 1000 None) s1)
          as [s' [E Hi']]
    end.
    + unfold mongo_inv in *. simpl_state. now apply mcore_append.
    + simpl_state. apply find_append_new; [assumption|].
      unfold MongoServer.by_username. cbn. apply String.eqb_refl.
    + simpl_state. intros sid0 H.
      destruct Hi as [HA _]. destruct (HA _ _ H) as [acc Hacc]. congruence.
    + eauto.
Qed.

Lemma mongo_login_keeps sid u pw : mongo_keeps (MongoServer.login sid u pw).
Proof.
  intros s Hi. unfold MongoServer.login.
  unfold bind at 1, gets at 1.
  destruct (find (MongoServer.by_username u) (MongoServer.usersCol (db s)))
    as [acc|] eqn:Ea;
    [|unfold mongo_inv in Hi; mongo_auto].
  destruct (negb (User.password acc =? pw)%string);
    [unfold mongo_inv in Hi; mongo_auto|].
  unfold bind at 1, gets at 1.
  destruct (includes (Obj.values (socketUserMap s)) u) eqn:Ei;
    [unfold mongo_inv in Hi; mongo_auto|].
  apply (mongo_loginUser_keeps sid u acc s Hi Ea).
  now apply not_included_no_socket.
Qed.

Lemma mongo_disconnect_keeps sid : mongo_keeps (MongoServer.disconnect sid).
Proof.
  intros s Hi. unfold mongo_inv in Hi. unfold MongoServer.disconnect. run.
  destruct (Obj.get (socketUserMap s) sid) as [u|] eqn:Eu; [|mongo_leaf].
  destruct (Obj.get (players s) sid) as [p|] eqn:Ep; [|mongo_leaf].
  destruct (u =? "")%string; [mongo_leaf|]. settle.
  destruct (Player.district p =? "")%string;
    (eexists; split; [reflexivity|]; unfold mongo_inv; simpl_state;
     apply mcore_logout; apply mcore_updateOne;
     [assumption | intros; reflexivity]).
Qed.

Lemma mongo_begin_keeps sid newRoom spawnPos (s : state MongoServer.store) :
  mongo_inv s ->
  exists go s',
    MongoServer.handleDistrictChange_begin sid newRoom spawnPos s
    = Some (go, s') /\ mongo_inv s'.
Proof.
  intros Hi. unfold mongo_inv in Hi.
  unfold MongoServer.handleDistrictChange_begin, MongoServer.persist_position.
  run.
  destruct (Obj.get (players s) sid) as [p|] eqn:Ep;
    [|eexists; mongo_leaf].
  rewrite Ep. settle.
  destruct spawnPos as [[sx sy]|];
    [|destruct (negb (Player.district p =? newRoom)%string)];
    settle; (destruct (includes DISTRICTS newRoom); settle);
    eexists; mongo_leaf.
Qed.

Lemma mongo_resume_keeps sid newRoom :
  mongo_keeps (MongoServer.handleDistrictChange_resume sid newRoom).
Proof.
  intros s Hi. unfold mongo_inv in Hi.
  unfold MongoServer.handleDistrictChange_resume. mongo_auto.
Qed.

Lemma mongo_handleDistrictChange_keeps sid newRoom spawnPos :
  mongo_keeps (MongoServer.handleDistrictChange sid newRoom spawnPos).
Proof.
  intros s Hi. unfold MongoServer.handleDistrictChange. unfold bind at 1.
  destruct (mongo_begin_keeps sid newRoom spawnPos s Hi) as [go [s1 [E Hi1]]].
  rewrite E. destruct go.
  - now apply mongo_resume_keeps.
  - exists s1. split; [reflexivity|assumption].
Qed.

Lemma mongo_joinDistrict_keeps sid d sp :
  mongo_keeps (MongoServer.joinDistrict sid d sp).
Proof.
  intros s Hi. unfold MongoServer.joinDistrict.
  destruct (negb (includes DISTRICTS d) && negb (MongoServer.is_house_room d)).
  - exists s. split; [reflexivity|assumption].
  - now apply mongo_handleDistrictChange_keeps.
Qed.

Lemma mongo_buyHouse_keeps sid plotId :
  mongo_keeps (MongoServer.buyHouse sid plotId).
Proof.
  intros s Hi. unfold mongo_inv in Hi. unfold MongoServer.buyHouse.
  mongo_auto.
Qed.

Lemma mongo_placeFurniture_keeps sid houseId item :
  mongo_keeps (MongoServer.placeFurniture sid houseId item).
Proof.
  intros s Hi. unfold mongo_inv in Hi. unfold MongoServer.placeFurniture.
  mongo_auto.
Qed.

Lemma mongo_submitQuizAnswer_keeps sid n1 n2 a e :
  mongo_keeps (MongoServer.submitQuizAnswer sid n1 n2 a e).
Proof.
  intros s Hi. unfold mongo_inv in Hi. unfold MongoServer.submitQuizAnswer.
  mongo_auto.
Qed.

Lemma mongo_buyItem_keeps sid itemId :
  mongo_keeps (MongoServer.buyItem sid itemId).
Proof.
  intros s Hi. unfold mongo_inv in Hi. unfold MongoServer.buyItem.
  mongo_auto.
Qed.

Lemma mongo_chatMessage_keeps sid msg :
  mongo_keeps (MongoServer.chatMessage sid msg).
Proof.
  intros s Hi. unfold mongo_inv in Hi. unfold MongoServer.chatMessage.
  mongo_auto.
Qed.

Lemma mongo_playerAttack_keeps sid targetId :
  mongo_keeps (MongoServer.playerAttack sid targetId).
Proof.
  intros s Hi. unfold mongo_inv in Hi. unfold MongoServer.playerAttack.
  mongo_auto.
Qed.

Lemma mongo_joinBattle_keeps sid mode team :
  mongo_keeps (MongoServer.joinBattle sid mode team).
Proof.
  intros s Hi. unfold MongoServer.joinBattle.
  unfold bind at 1, player_of at 1, gets at 1.
  destruct (Obj.get (players s) sid) as [p|] eqn:Ep;
    [|exists s; split; [reflexivity|assumption]].
  unfold bind at 1, update_player at 1, modify at 1. rewrite Ep.
  unfold bind at 1.
  match goal with
  | |- context [MongoServer.handleDistrictChange_begin sid ?r ?sp ?s1] =>
      destruct (mongo_begin_keeps sid r sp s1) as [go [s2 [E2 Hi2]]]
  end.
  { unfold mongo_inv in *. simpl_state. player_fields. mcore_solve. }
  rewrite E2.
  unfold bind at 1, player_of at 1, gets at 1.
  unfold mongo_inv in Hi2.
  destruct (Obj.get (players s2) sid) as [player|];
    unfold bind at 1; run; destruct go;
    first [ apply mongo_resume_keeps; unfold mongo_inv; simpl_state;
            assumption
          | mongo_leaf ].
Qed.

Lemma mongo_handle_keeps sid r : mongo_keeps (MongoServer.handle sid r).
Proof.
  destruct r; cbn [MongoServer.handle].
  - apply mongo_register_keeps.
  - apply mongo_login_keeps.
  - apply mongo_disconnect_keeps.
  - apply mongo_playerMovement_keeps.
  - apply mongo_joinDistrict_keeps.
  - apply mongo_buyHouse_keeps.
  - apply mongo_handleDistrictChange_keeps.
  - apply mongo_handleDistrictChange_keeps.
  - apply mongo_placeFurniture_keeps.
  - apply mongo_submitQuizAnswer_keeps.
  - apply mongo_buyItem_keeps.
  - apply mongo_joinBattle_keeps.
  - apply mongo_playerAttack_keeps.
  - apply mongo_chatMessage_keeps.
Qed.

(** ** Traces *)

Lemma file_run_keeps (trace : list input) (s : state FileServer.store) :
  file_inv s -> exists s', FileBoot.run trace s = Some s' /\ file_inv s'.
Proof.
  revert s. induction trace as [|i trace IH]; intros s Hi; cbn.
  - eauto.
  - assert (Hs : exists s1, exec (FileBoot.step i) s = Some s1 /\ file_inv s1).
    { destruct i as [sid|sid r]; cbn [FileBoot.step].
      - eexists. split; [reflexivity|]. exact Hi.
      - now apply file_keeps_exec; [apply file_handle_keeps|]. }
    destruct Hs as [s1 [E Hi1]]. rewrite E. now apply IH.
Qed.

Lemma mongo_run_keeps (trace : list input) (s : state MongoServer.store) :
  mongo_inv s -> exists s', MongoBoot.run trace s = Some s' /\ mongo_inv s'.
Proof.
  revert s. induction trace as [|i trace IH]; intros s Hi; cbn.
  - eauto.
  - assert (Hs : exists s1, exec (MongoBoot.step i) s = Some s1 /\ mongo_inv s1).
    { destruct i as [sid|sid r]; cbn [MongoBoot.step].
      - eexists. split; [reflexivity|]. exact Hi.
      - now apply mongo_keeps_exec; [apply mongo_handle_keeps|]. }
    destruct Hs as [s1 [E Hi1]]. rewrite E. now apply IH.
Qed.

Lemma registry_empty (R : string -> Prop) : registry_inv R [] [].
Proof. repeat split; cbn; intros; discriminate. Qed.

Lemma file_boot_inv users houses its :
  users_keyed users -> file_inv (FileBoot.boot users houses its).
Proof.
  intros Hk. unfold FileBoot.boot.
  destruct houses; (split; [exact Hk | apply registry_empty]).
Qed.


Lemma file_inv_single s : file_inv s -> single_session s.
Proof. intros [_ Hr]. exact (registry_single _ _ _ Hr). Qed.


Lemma logged_in_included {Store} (s : state Store) (u : string) :
  logged_in s u -> includes (Obj.values (socketUserMap s)) u = true.
Proof.
  intros [sid0 H]. apply includes_spec. eapply get_in_values. exact H.
Qed.

Lemma file_login_turned_down sid u pw (s : state FileServer.store) :
  logged_in s u ->
  exists msg,
    exec (FileServer.handle sid (Req.login u pw)) s
    = Some (set_outbox s (outbox s ++ [(sid, Ev.authError msg)])) /\
    (file_credentials u pw s -> msg = "User already logged in").
Proof.
  intros Hl. apply logged_in_included in Hl.
  cbn [FileServer.handle]. unfold FileServer.login. run.
  destruct (Obj.get (FileServer.persistentUsers (db s)) u) as [acc|] eqn:Ea.
  - destruct (String.eqb_spec (User.password acc) pw) as [Hpw|Hpw]; cbn [negb].
    + rewrite Hl. eexists. split; reflexivity.
    + eexists. split; [reflexivity|]. intros [acc' [Ha' Hp']]. congruence.
  - eexists. split; [reflexivity|]. intros [acc' [Ha' _]]. congruence.
Qed.

Lemma mongo_login_turned_down sid u pw (s : state MongoServer.store) :
  logged_in s u ->
  exists msg,
    exec (MongoServer.handle sid (Req.login u pw)) s
    = Some (set_outbox s (outbox s ++ [(sid, Ev.authError msg)])) /\
    (mongo_credentials u pw s -> msg = "User already logged in").
Proof.
  intros Hl. apply logged_in_included in Hl.
  cbn [MongoServer.handle]. unfold MongoServer.login. run.
  destruct (find (MongoServer.by_username u) (MongoServer.usersCol (db s)))
    as [acc|] eqn:Ea.
  - destruct (String.eqb_spec (User.password acc) pw) as [Hpw|Hpw]; cbn [negb].
    + rewrite Hl. eexists. split; reflexivity.
    + eexists. split; [reflexivity|]. intros [acc' [Ha' Hp']]. congruence.
  - eexists. split; [reflexivity|]. intros [acc' [Ha' _]]. congruence.
Qed.

Lemma users_keyed_empty : users_keyed [].
Proof. intros k acc H. discriminate H. Qed.

(** In the witness trace alice is logged in on [s1], and her second login
    from [s3] is answered with "User already logged in". *)
Lemma second_login_of_alice_rejected :
  exists s,
    FileBoot.run (Demo.two_players ++ [connect "s3"])
                 (FileBoot.boot [] [] Demo.catalog) = Some s /\
    logged_in s "alice" /\
    file_credentials "alice" "pw1" s /\
    exec (FileServer.handle "s3" (Req.login "alice" "pw1")) s
    = Some (set_outbox s
              (outbox s ++ [("s3", Ev.authError "User already logged in")])).
Proof.
  eexists. split; [vm_compute; reflexivity|]. split; [|split].
  - exists "s1". reflexivity.
  - eexists. split; reflexivity.
  - reflexivity.
Qed.

(** C9: on the MongoDB server two logins that overlap both go through.
    alice has registered and her socket has closed; two clients then log
    in as alice with her password, the second [login] arriving while the
    first waits for its [findOne].  Both pass the test of l.97, made
    before either has written [socketUserMap] (l.106): when the two
    handlers have ended, the sockets [s2] and [s3] both hold a live
    session of alice, and no [authError] has been sent. *)
Theorem mongo_overlapping_logins_open_two_sessions :
  exists w,
    MongoLoop.run Overlap.two_logins
      (MongoLoop.boot [] [] [] Demo.plots Demo.catalog) = Some w /\
    MongoLoop.waiting w = [] /\
    option_map Player.username (Obj.get (players (MongoLoop.mem w)) "s2")
      = Some "alice" /\
    option_map Player.username (Obj.get (players (MongoLoop.mem w)) "s3")
      = Some "alice" /\
    ~ single_session (MongoLoop.mem w) /\
    forall to msg, ~ In (to, Ev.authError msg) (outbox (MongoLoop.mem w)).
Proof.
  eexists. split; [vm_compute; reflexivity|].
  split; [reflexivity|]. split; [reflexivity|]. split; [reflexivity|]. split.
  - intros H.
    specialize (H "s2" "s3" _ _ eq_refl eq_refl eq_refl). discriminate H.
  - intros to msg H. cbn in H.
    repeat (destruct H as [H|H]; [discriminate H|]). exact H.
Qed.


(* ------------------------------------------------------------------ *)
(** * District transfer *)


Lemma pair_test_false (sid room sid2 room2 : string) :
  sid2 <> sid \/ room2 <> room ->
  ((sid =? sid2)%string && (room =? room2)%string) = false.
Proof.
  intros [H|H].
  - destruct (String.eqb_spec sid sid2); [congruence|reflexivity].
  - destruct (String.eqb_spec room room2); [congruence|].
    apply andb_false_r.
Qed.


Lemma joined_leave_other rs sid room sid2 room2 :
  sid2 <> sid \/ room2 <> room ->
  joined (leave_room rs sid room) sid2 room2 = joined rs sid2 room2.
Proof.
  intros Hne. unfold joined, leave_room.
  induction rs as [|[a b] rs IH]; cbn; [reflexivity|].
  destruct ((a =? sid)%string && (b =? room)%string) eqn:E; cbn.
  - apply andb_prop in E. destruct E as [Ea Eb].
    apply String.eqb_eq in Ea, Eb. subst a b.
    now rewrite (pair_test_false _ _ _ _ Hne).
  - now rewrite IH.
Qed.

Lemma joined_app rs rs' sid room :
  joined (rs ++ rs') sid room = joined rs sid room || joined rs' sid room.
Proof. apply existsb_app. Qed.

Lemma joined_join_same rs sid room :
  joined (join_room rs sid room) sid room = true.
Proof.
  unfold join_room. destruct (joined rs sid room) eqn:E; [exact E|].
  rewrite joined_app, E. cbn. now rewrite !String.eqb_refl.
Qed.

Lemma joined_join_other rs sid room sid2 room2 :
  sid2 <> sid \/ room2 <> room ->
  joined (join_room rs sid room) sid2 room2 = joined rs sid2 room2.
Proof.
  intros Hne. unfold join_room. destruct (joined rs sid room); [reflexivity|].
  rewrite joined_app. cbn. rewrite (pair_test_false _ _ _ _ Hne).
  now rewrite !orb_false_r.
Qed.












(** ** The client's peer view *)

Section PeerViewFacts.
Variable spread : Player.t -> Player.t -> Player.t.
Variable view : Obj.t Player.t.




End PeerViewFacts.


(** In the witness states alice, on [s1], and bob, on [s2], are both in
    the plaza; when alice asks for the housing district, bob is told she
    has left and she is sent the list of the sessions there, herself at
    the default spawn. *)
Lemma alice_leaves_plaza_for_housing :
  option_map
    (fun s' => firstn 3 (skipn (List.length (outbox Demo.file_state))
                               (outbox s')))
    (exec (FileServer.handle "s1" (Req.joinDistrict "housing" None))
          Demo.file_state)
  = Some [ ("s2", Ev.playerDisconnected "s1");
           ("s1", Ev.playerChangedDistrict
                    [Player.set_district (Demo.alice "s1" 1000) "housing"]);
           ("s1", Ev.setDistrict "housing") ].
Proof. vm_compute. reflexivity. Qed.

(** C6: on the MongoDB server a transfer is not atomic.  alice, in the
    plaza on socket [s1], asks for the housing district and, while the
    account update of that transfer (l.332) is under way, enters the house
    on [plot_1].  The second transfer runs to its end at once; when the
    first goes on it joins the socket to the room of the housing district
    and sends the list of that district, which alice is no longer in.
    When both handlers have ended the session is in the house and its
    socket is in the room of the house and in the room of the housing
    district: the transfer to the housing district has not done what the
    claim says. *)
Theorem mongo_overlapping_transfers_leave_the_socket_behind :
  exists w0 p w,
    MongoLoop.run Overlap.alice_registers
      (MongoLoop.boot [] [] [] Demo.plots Demo.catalog) = Some w0 /\
    Obj.get (players (MongoLoop.mem w0)) "s1" = Some p /\
    Player.district p = "plaza" /\
    MongoLoop.run Overlap.two_transfers
      (MongoLoop.boot [] [] [] Demo.plots Demo.catalog) = Some w /\
    MongoLoop.waiting w = [] /\
    option_map Player.district (Obj.get (players (MongoLoop.mem w)) "s1")
      = Some "house_plot_1" /\
    in_room (MongoLoop.mem w) "s1" "house_plot_1" = true /\
    in_room (MongoLoop.mem w) "s1" "housing" = true /\
    delivered_since (MongoLoop.mem w0) (MongoLoop.mem w)
      ("s1", Ev.playerChangedDistrict []) /\
    ~ transfer_outcome "s1" "housing" None p
        (MongoLoop.mem w0) (MongoLoop.mem w).
Proof.
  eexists. eexists. eexists.
  split; [vm_compute; reflexivity|].
  split; [reflexivity|]. split; [reflexivity|].
  split; [vm_compute; reflexivity|].
  split; [reflexivity|]. split; [reflexivity|].
  split; [reflexivity|]. split; [reflexivity|]. split.
  - eexists. split; [reflexivity|]. cbn. tauto.
  - intros [p' [Hp' [Hd _]]]. cbn in Hp'. injection Hp' as <-.
    discriminate Hd.
Qed.
(* ------------------------------------------------------------------ *)
(** * What every run keeps *)

Lemma account_kept_refl acc : account_kept acc acc.
Proof. repeat split. Qed.

Lemma account_kept_trans a b c :
  account_kept a b -> account_kept b c -> account_kept a c.
Proof. intros [A1 [A2 A3]] [B1 [B2 B3]]. repeat split; congruence. Qed.

Lemma plot_kept_refl h : plot_kept h h.
Proof.
  repeat split; try (intros; assumption). exists []. now rewrite app_nil_r.
Qed.

Lemma plot_kept_trans a b c : plot_kept a b -> plot_kept b c -> plot_kept a c.
Proof.
  intros [A1 [A2 [A3 [A4 [A5 [ma A6]]]]]] [B1 [B2 [B3 [B4 [B5 [mb B6]]]]]].
  split; [congruence|]. split; [congruence|]. split; [congruence|].
  split; [congruence|]. split.
  - intros o Ho Hne. apply B5; [|exact Hne]. now apply A5.
  - exists (ma ++ mb). now rewrite B6, A6, app_assoc.
Qed.

Lemma accounts_kept_refl account : accounts_kept account account.
Proof. intros u acc H. exists acc. split; [exact H | apply account_kept_refl]. Qed.

Lemma accounts_kept_trans a b c :
  accounts_kept a b -> accounts_kept b c -> accounts_kept a c.
Proof.
  intros A B u acc H. destruct (A _ _ H) as [acc1 [H1 K1]].
  destruct (B _ _ H1) as [acc2 [H2 K2]]. exists acc2.
  split; [exact H2 | eapply account_kept_trans; eassumption].
Qed.

Lemma plots_kept_refl plot : plots_kept plot plot.
Proof.
  split; [|auto].
  intros id h H. exists h. split; [exact H | apply plot_kept_refl].
Qed.

Lemma plots_kept_trans a b c : plots_kept a b -> plots_kept b c -> plots_kept a c.
Proof.
  intros [A1 A2] [B1 B2]. split; [|auto].
  intros id h H. destruct (A1 _ _ H) as [h1 [H1 K1]].
  destruct (B1 _ _ H1) as [h2 [H2 K2]]. exists h2.
  split; [exact H2 | eapply plot_kept_trans; eassumption].
Qed.

Lemma file_evolves_refl s : file_evolves s s.
Proof.
  split; [apply accounts_kept_refl|]. split; [apply plots_kept_refl|].
  reflexivity.
Qed.

Lemma file_evolves_trans s1 s2 s3 :
  file_evolves s1 s2 -> file_evolves s2 s3 -> file_evolves s1 s3.
Proof.
  intros [A1 [A2 A3]] [B1 [B2 B3]].
  split; [eapply accounts_kept_trans; eassumption|].
  split; [eapply plots_kept_trans; eassumption|]. congruence.
Qed.

(** ** Keys of a dictionary *)

Lemma in_keys_get {V} (o : Obj.t V) k :
  In k (Obj.keys o) <-> exists v, Obj.get o k = Some v.
Proof.
  induction o as [|[k0 v0] o IH]; cbn.
  - split; [intros [] | intros [v H]; discriminate].
  - destruct (String.eqb_spec k0 k) as [->|Hne].
    + split; [eauto | now left].
    + rewrite <- IH. split; [intros [H|H]; [congruence|exact H] | now right].
Qed.

Lemma keys_set_new {V} (o : Obj.t V) k v :
  Obj.get o k = None -> Obj.keys (Obj.set o k v) = Obj.keys o ++ [k].
Proof.
  induction o as [|[k0 v0] o IH]; cbn; [reflexivity|].
  destruct (String.eqb_spec k0 k) as [->|Hne]; [discriminate|].
  intros H. cbn. f_equal. exact (IH H).
Qed.

Lemma keys_set_old {V} (o : Obj.t V) k v v0 :
  Obj.get o k = Some v0 -> Obj.keys (Obj.set o k v) = Obj.keys o.
Proof.
  induction o as [|[k1 v1] o IH]; cbn; [discriminate|].
  destruct (String.eqb_spec k1 k) as [->|Hne]; [reflexivity|].
  intros H. cbn. f_equal. exact (IH H).
Qed.

Lemma nodup_keys_set {V} (o : Obj.t V) k v :
  NoDup (Obj.keys o) -> NoDup (Obj.keys (Obj.set o k v)).
Proof.
  intros Hn. destruct (Obj.get o k) as [v0|] eqn:E.
  - now rewrite (keys_set_old _ _ _ _ E).
  - rewrite (keys_set_new _ _ _ E).
    apply NoDup_app; [exact Hn | repeat constructor; intros [] |].
    intros x Hx [<-|[]]. apply in_keys_get in Hx. destruct Hx. congruence.
Qed.

Lemma nodup_keys_delete {V} (o : Obj.t V) k :
  NoDup (Obj.keys o) -> NoDup (Obj.keys (Obj.delete o k)).
Proof.
  unfold Obj.keys, Obj.delete. induction o as [|[k0 v0] o IH]; cbn;
    [trivial|].
  intros Hn. inversion Hn as [|? ? Hni Hn']. subst.
  destruct (k0 =? k)%string; cbn; [now apply IH|].
  constructor; [|now apply IH].
  intros Hin. apply Hni. apply in_map_iff in Hin.
  destruct Hin as [[k1 v1] [<- Hin]]. apply filter_In in Hin.
  apply in_map_iff. exists (k1, v1). split; [reflexivity | apply Hin].
Qed.

(** With one entry per key, [get] finds every entry. *)
Lemma get_of_in {V} (o : Obj.t V) k v :
  NoDup (Obj.keys o) -> In (k, v) o -> Obj.get o k = Some v.
Proof.
  induction o as [|[k0 v0] o IH]; cbn; [intros _ []|].
  intros Hn [H|H].
  - injection H as -> ->. now rewrite String.eqb_refl.
  - inversion Hn as [|? ? Hni Hn']. subst.
    destruct (String.eqb_spec k0 k) as [->|Hne]; [|now apply IH].
    exfalso. apply Hni. apply in_map_iff. now exists (k, v).
Qed.

Lemma in_of_get {V} (o : Obj.t V) k v :
  Obj.get o k = Some v -> In (k, v) o.
Proof.
  induction o as [|[k0 v0] o IH]; cbn; [discriminate|].
  destruct (String.eqb_spec k0 k) as [->|Hne].
  - intros [= ->]. now left.
  - intros H. right. now apply IH.
Qed.

(** ** Rooms of a closed socket *)

Lemma joined_closed_other rs sid sid2 room :
  sid2 <> sid ->
  joined (filter (fun sr => negb (fst sr =? sid)%string) rs) sid2 room
  = joined rs sid2 room.
Proof.
  intros Hne. unfold joined. induction rs as [|[a b] rs IH]; cbn;
    [reflexivity|].
  destruct (String.eqb_spec a sid) as [->|Ha]; cbn.
  - rewrite IH. destruct (String.eqb_spec sid sid2); [congruence|reflexivity].
  - now rewrite IH.
Qed.
Lemma get_set_eq' {V} (o : Obj.t V) k k' v :
  k = k' -> Obj.get (Obj.set o k v) k' = Some v.
Proof. intros <-. apply get_set_eq. Qed.

Lemma get_delete_eq' {V} (o : Obj.t V) k k' :
  k = k' -> Obj.get (Obj.delete o k) k' = None.
Proof. intros <-. apply get_delete_eq. Qed.

(** ** Symbolic execution of a handler in a hypothesis *)

Ltac run_in E :=
  cbv beta iota delta [exec bind ret gets modify throw player_of update_player
     deliver socket_emit io_emit io_to socket_to socket_join socket_leave
     socket_closed connection
     FileServer.set_users FileServer.set_houses FileServer.saveData_users
     FileServer.saveData_houses FileServer.assign_user
     MongoServer.set_users MongoServer.set_houses] in E;
  simpl_state.

Ltac sym_step E :=
  first
  [ progress (rewrite ?get_set_eq in E)
  | match type of E with
    | context [match ?x with _ => _ end] =>
        match goal with
        | E' : x = _ |- _ => rewrite E' in E
        end
    end
  | break_match_hyp E ];
  simpl_state.

Ltac sym_in E := run_in E; repeat (sym_step E); try discriminate E.

(** Case analysis on the key of a lookup after updates. *)
Ltac get_cases_in H :=
  repeat match type of H with
  | context [Obj.get (Obj.set ?o ?k ?v) ?k'] =>
      first
      [ rewrite (get_set_eq' o k k' v) in H by congruence
      | rewrite (get_set_ne o k k' v) in H by congruence
      | let e := fresh "e" in
        destruct (String.eqb_spec k k') as [e|e];
        [ rewrite (get_set_eq' o k k' v e) in H
        | rewrite (get_set_ne o k k' v e) in H ] ]
  | context [Obj.get (Obj.delete ?o ?k) ?k'] =>
      first
      [ rewrite (get_delete_eq' o k k') in H by congruence
      | rewrite (get_delete_ne o k k') in H by congruence
      | let e := fresh "e" in
        destruct (String.eqb_spec k k') as [e|e];
        [ rewrite (get_delete_eq' o k k' e) in H
        | rewrite (get_delete_ne o k k' e) in H ] ]
  end.

(** Rewriting a lookup after updates in the goal, by the facts at hand
    first and by cases on the key otherwise. *)
Ltac get_cases :=
  repeat match goal with
  | |- context [Obj.get (Obj.set ?o ?k ?v) ?k'] =>
      first
      [ rewrite (get_set_eq' o k k' v) by congruence
      | rewrite (get_set_ne o k k' v) by congruence
      | let e := fresh "e" in
        destruct (String.eqb_spec k k') as [e|e];
        [ rewrite (get_set_eq' o k k' v e)
        | rewrite (get_set_ne o k k' v e) ] ]
  | |- context [Obj.get (Obj.delete ?o ?k) ?k'] =>
      first
      [ rewrite (get_delete_eq' o k k') by congruence
      | rewrite (get_delete_ne o k k') by congruence
      | let e := fresh "e" in
        destruct (String.eqb_spec k k') as [e|e];
        [ rewrite (get_delete_eq' o k k' e)
        | rewrite (get_delete_ne o k k' e) ] ]
  end.

Lemma damage_nonneg its e :
  harmless its ->
  0 <= match find_weapon its e with
       | Some weapon => Item.damage weapon
       | None => 10
       end.
Proof.
  intros Hh. destruct (find_weapon its e) as [w|] eqn:E; [|lia].
  unfold find_weapon in E. destruct e as [e|]; [|discriminate].
  apply find_some in E. destruct E as [Hin _].
  unfold harmless in Hh. rewrite Forall_forall in Hh. now apply Hh.
Qed.

Lemma same_account (s : state FileServer.store) sid1 sid2 p1 p2 :
  file_inv s ->
  Obj.get (players s) sid1 = Some p1 ->
  Obj.get (players s) sid2 = Some p2 ->
  Player.username p1 = Player.username p2 -> sid1 = sid2.
Proof. intros Hi. apply (file_inv_single s Hi). Qed.

Ltac fields :=
  cbn [Player.username Player.password Player.x Player.y Player.district
       Player.color Player.money Player.equipment Player.playerId Player.hp
       Player.maxHp Player.mode Player.team
       Player.set_money Player.set_pos Player.set_hp
       Player.set_district Player.set_equipment Player.set_battle
       Player.of_user
       User.username User.password User.color User.money User.equipment
       User.x User.y User.district
       FileServer.user_set_money FileServer.user_set_district
       MongoServer.user_set_money
       House.id House.x House.y House.price House.owner House.furniture
       House.set_owner House.push_furniture] in *.

(** The facts [file_wf] gives about the sessions looked up. *)
Ltac session_facts Hs :=
  repeat match goal with
  | E : Obj.get (players ?s) ?k = Some ?p |- _ =>
      lazymatch goal with
      | _ : Player.playerId p = k |- _ => fail
      | _ =>
          let F1 := fresh "Fid" in
          let F2 := fresh "Fmax" in
          let F3 := fresh "Fhp" in
          let F4 := fresh "Facc" in
          let F5 := fresh "Froom" in
          let acc := fresh "acc" in
          let Fa := fresh "Fa" in
          let Fm := fresh "Fm" in
          let Fe := fresh "Fe" in
          let Fp := fresh "Fp" in
          destruct (Hs k p E) as [F1 [F2 [F3 [[acc [Fa [Fm [Fe Fp]]]] F5]]]]
      end
  end.

Ltac two_sessions_clash Hi :=
  match goal with
  | e : Player.username ?p1 = Player.username ?p2,
    H1 : Obj.get (players ?s) ?k1 = Some ?p1,
    H2 : Obj.get (players ?s) ?k2 = Some ?p2 |- _ =>
      assert (k1 = k2) by exact (same_account s k1 k2 p1 p2 Hi H1 H2 e);
      congruence
  end.

Ltac subst_keys :=
  repeat match goal with
  | e : _ = ?k |- _ => is_var k; subst k
  | e : ?k = _ |- _ => is_var k; subst k
  end.

Ltac wf_disk := simpl_state; first [assumption | reflexivity].

Ltac wf_mapped Hm :=
  let k := fresh "k" in
  let u := fresh "u" in
  let Hu := fresh "Hu" in
  intros k u Hu; simpl_state; get_cases_in Hu; try discriminate Hu;
  get_cases;
  first [ eexists; reflexivity | eapply Hm; eassumption ].

Ltac wf_nodup :=
  simpl_state;
  repeat first [apply nodup_keys_set | apply nodup_keys_delete];
  assumption.

Ltac use_harmless Hharm :=
  repeat match goal with
  | F : harmless _ -> _ |- _ => specialize (F Hharm)
  end.

(** An account is stored under its own username. *)
Ltac account_facts Hi :=
  repeat match goal with
  | E : Obj.get (FileServer.persistentUsers (db ?s)) ?u = Some ?a |- _ =>
      lazymatch goal with
      | _ : User.username a = u |- _ => fail
      | _ => pose proof (proj1 Hi u a E)
      end
  end.

Ltac own_username :=
  repeat match goal with
  | Hk : User.username ?a = _ |- context [User.username ?a] => rewrite Hk
  end.

(** A session is mapped to the username it carries. *)
Ltac registry_facts Hi :=
  repeat match goal with
  | E : Obj.get (players ?s) ?k = Some ?p |- _ =>
      lazymatch goal with
      | _ : Obj.get (socketUserMap s) k = Some (Player.username p) |- _ => fail
      | _ => pose proof (proj2 (proj2 (proj2 Hi)) k p E)
      end
  end.

(** Two sockets mapped to one username are the same socket. *)
Ltac registry_clash Hi :=
  registry_facts Hi;
  repeat match goal with
  | E : (_ =? _)%string = true |- _ => apply String.eqb_eq in E
  end;
  match goal with
  | H1 : Obj.get (socketUserMap ?s) ?k1 = Some ?u1,
    H2 : Obj.get (socketUserMap ?s) ?k2 = Some ?u2 |- _ =>
      assert (k1 = k2)
        by (apply (proj1 (proj2 (proj2 Hi)) k1 k2 u1); [exact H1 | congruence]);
      congruence
  end.

Ltac wf_account Hi :=
  fields; account_facts Hi; own_username; get_cases;
  first
  [ congruence
  | two_sessions_clash Hi
  | registry_clash Hi
  | eexists; split; [first [reflexivity | eassumption]|];
    fields; repeat split; congruence ].

Ltac wf_room Hi :=
  let Hne := fresh "Hne" in
  intros Hne; fields; simpl_state;
  lazymatch goal with
  | |- joined (filter _ _) ?k _ = true =>
      registry_facts Hi;
      repeat match goal with
      | E : (_ =? _)%string = true |- _ => apply String.eqb_eq in E
      end;
      rewrite joined_closed_other by congruence; solve [auto]
  | _ =>
      subst_keys;
      rewrite ?joined_join_other, ?joined_leave_other by (left; congruence);
      first [ apply joined_join_same | solve [auto] | congruence ]
  end.

Ltac wf_sessions Hi Hs :=
  let k := fresh "k" in
  let q := fresh "q" in
  let Hq := fresh "Hq" in
  let Hharm := fresh "Hharm" in
  intros k q Hq; simpl_state; get_cases_in Hq; try discriminate Hq;
  try (injection Hq as <-); session_facts Hs;
  (split; [ fields; congruence
          | split; [ fields; congruence
                   | split; [ intros Hharm; use_harmless Hharm; fields; lia
                            | split; [ wf_account Hi | wf_room Hi ]]]]).

Ltac ev_users :=
  let u := fresh "u" in
  let a := fresh "a" in
  let Ha := fresh "Ha" in
  intros u a Ha; simpl_state; get_cases;
  first
  [ congruence
  | eexists; split; [first [reflexivity | eassumption]|];
    unfold account_kept; fields; repeat split; congruence ].

Lemma plot_kept_sold h o' :
  House.unowned h = true -> plot_kept h (House.set_owner h o').
Proof.
  intros Hu. repeat split.
  - intros o Ho Hne. unfold House.unowned in Hu. rewrite Ho in Hu.
    apply String.eqb_eq in Hu. contradiction.
  - exists []. cbn. now rewrite app_nil_r.
Qed.

Lemma plot_kept_furnished h f : plot_kept h (House.push_furniture h f).
Proof.
  repeat split; try (intros; assumption). now exists [f].
Qed.

Ltac same_value :=
  repeat match goal with
  | H1 : ?x = Some ?a, H2 : ?y = Some ?b |- _ =>
      is_var a; is_var b;
      lazymatch a with b => fail | _ => idtac end;
      assert (a = b) by congruence; subst a
  end.

Ltac ev_plots :=
  let id := fresh "id" in
  let h := fresh "h" in
  let Hh := fresh "Hh" in
  intros id h Hh; simpl_state; get_cases;
  first
  [ congruence
  | eexists; split; [eassumption|]; apply plot_kept_refl
  | eexists; split; [reflexivity|]; same_value;
    first [ apply plot_kept_refl
          | apply plot_kept_furnished
          | apply plot_kept_sold;
            match goal with
            | E : House.unowned _ && _ = true |- _ =>
                apply andb_prop in E; apply E
            end ] ].

Ltac ev_noplot :=
  let id := fresh "id" in
  let Hh := fresh "Hh" in
  intros id Hh; simpl_state; get_cases; congruence.

(** The lookups made on the way, brought back to lookups in the state the
    handler started from. *)
Ltac normalise_lookups :=
  fields;
  repeat match goal with
  | E : Obj.get (Obj.set _ _ _) _ = _ |- _ =>
      get_cases_in E; try discriminate E;
      try (injection E as E; subst); fields
  | E : Obj.get (Obj.delete _ _) _ = _ |- _ =>
      get_cases_in E; try discriminate E; fields
  end;
  same_value;
  rewrite ?Z.leb_le, ?Z.leb_gt in *;
  try congruence.

Ltac sound_leaf Hi Hm Hs Hi' :=
  normalise_lookups;
  session_facts Hs;
  (split;
   [ split; [exact Hi'|];
     split; [wf_disk|]; split; [wf_disk|];
     split; [split; [wf_mapped Hm | split; wf_nodup]|];
     wf_sessions Hi Hs
   | split; [ev_users|]; split; [split; [ev_plots | ev_noplot]|];
     simpl_state; reflexivity ]).

Lemma file_playerMovement_sound sid mx my :
  file_sound (FileServer.playerMovement sid mx my).
Proof.
  intros s Hw. destruct Hw as [Hi [Hd [Hh [[Hm [Hn Hn']] Hs]]]].
  destruct (file_playerMovement_keeps sid mx my s Hi) as [s' [E Hi']].
  exists s'. split; [exact E|].
  unfold FileServer.playerMovement in E. sym_in E.
  all: injection E as <-.
  all: sound_leaf Hi Hm Hs Hi'.
Qed.

Lemma file_chatMessage_sound sid msg :
  file_sound (FileServer.chatMessage sid msg).
Proof.
  intros s Hw. destruct Hw as [Hi [Hd [Hh [[Hm [Hn Hn']] Hs]]]].
  destruct (file_chatMessage_keeps sid msg s Hi) as [s' [E Hi']].
  exists s'. split; [exact E|].
  unfold FileServer.chatMessage in E. sym_in E.
  all: injection E as <-.
  all: sound_leaf Hi Hm Hs Hi'.
Qed.

Lemma file_submitQuizAnswer_sound sid q n1 n2 a e :
  file_sound (FileServer.submitQuizAnswer sid q n1 n2 a e).
Proof.
  intros s Hw. destruct Hw as [Hi [Hd [Hh [[Hm [Hn Hn']] Hs]]]].
  destruct (file_submitQuizAnswer_keeps sid q n1 n2 a e s Hi) as [s' [E Hi']].
  exists s'. split; [exact E|].
  unfold FileServer.submitQuizAnswer in E. sym_in E.
  all: injection E as <-.
  all: sound_leaf Hi Hm Hs Hi'.
Qed.

Lemma file_buyItem_sound sid itemId :
  file_sound (FileServer.buyItem sid itemId).
Proof.
  intros s Hw. destruct Hw as [Hi [Hd [Hh [[Hm [Hn Hn']] Hs]]]].
  destruct (file_buyItem_keeps sid itemId s Hi) as [s' [E Hi']].
  exists s'. split; [exact E|].
  unfold FileServer.buyItem in E. sym_in E.
  all: injection E as <-.
  all: sound_leaf Hi Hm Hs Hi'.
Qed.

Lemma file_buyHouse_sound sid plotId :
  file_sound (FileServer.buyHouse sid plotId).
Proof.
  intros s Hw. destruct Hw as [Hi [Hd [Hh [[Hm [Hn Hn']] Hs]]]].
  destruct (file_buyHouse_keeps sid plotId s Hi) as [s' [E Hi']].
  exists s'. split; [exact E|].
  unfold FileServer.buyHouse in E. sym_in E.
  all: injection E as <-.
  all: sound_leaf Hi Hm Hs Hi'.
Qed.

Lemma file_placeFurniture_sound sid houseId item :
  file_sound (FileServer.placeFurniture sid houseId item).
Proof.
  intros s Hw. destruct Hw as [Hi [Hd [Hh [[Hm [Hn Hn']] Hs]]]].
  destruct (file_placeFurniture_keeps sid houseId item s Hi) as [s' [E Hi']].
  exists s'. split; [exact E|].
  unfold FileServer.placeFurniture in E. sym_in E.
  all: injection E as <-.
  all: sound_leaf Hi Hm Hs Hi'.
Qed.

Lemma find_target_get (ps : Obj.t Player.t) targetId k p :
  NoDup (Obj.keys ps) ->
  FileServer.find_target ps targetId = Some (k, p) ->
  Obj.get ps k = Some p.
Proof.
  intros Hn H. unfold FileServer.find_target in H. apply find_some in H.
  apply get_of_in; [exact Hn | apply H].
Qed.

Lemma file_playerAttack_sound sid targetId :
  file_sound (FileServer.playerAttack sid targetId).
Proof.
  intros s Hw. destruct Hw as [Hi [Hd [Hh [[Hm [Hn Hn']] Hs]]]].
  destruct (file_playerAttack_keeps sid targetId s Hi) as [s' [E Hi']].
  exists s'. split; [exact E|].
  unfold FileServer.playerAttack in E. sym_in E.
  all: injection E as <-.
  all: match goal with
       | E : FileServer.find_target _ _ = Some _ |- _ =>
           pose proof (find_target_get _ _ _ _ Hn E)
       | _ => idtac
       end.
  all: match goal with
       | E : find_weapon ?its ?e = Some _ |- _ =>
           let D := fresh "D" in
           pose proof (damage_nonneg its e) as D; rewrite E in D
       | E : find_weapon ?its ?e = None |- _ =>
           let D := fresh "D" in
           pose proof (damage_nonneg its e) as D; rewrite E in D
       | _ => idtac
       end.
  all: try solve [sound_leaf Hi Hm Hs Hi'].
  all: sound_leaf Hi Hm Hs Hi'.
Qed.

Lemma file_handleDistrictChange_sound sid newRoom spawnPos :
  file_sound (FileServer.handleDistrictChange sid newRoom spawnPos).
Proof.
  intros s Hw. destruct Hw as [Hi [Hd [Hh [[Hm [Hn Hn']] Hs]]]].
  destruct (file_handleDistrictChange_keeps sid newRoom spawnPos s Hi)
    as [s' [E Hi']].
  exists s'. split; [exact E|].
  unfold FileServer.handleDistrictChange, FileServer.persist_district in E.
  sym_in E.
  all: injection E as <-.
  all: sound_leaf Hi Hm Hs Hi'.
Qed.

Lemma file_joinBattle_sound sid mode team :
  file_sound (FileServer.joinBattle sid mode team).
Proof.
  intros s Hw. destruct Hw as [Hi [Hd [Hh [[Hm [Hn Hn']] Hs]]]].
  destruct (file_joinBattle_keeps sid mode team s Hi) as [s' [E Hi']].
  exists s'. split; [exact E|].
  unfold FileServer.joinBattle, FileServer.handleDistrictChange,
    FileServer.persist_district in E.
  sym_in E.
  all: injection E as <-.
  all: sound_leaf Hi Hm Hs Hi'.
Qed.
Lemma file_login_sound sid u pw : file_sound (FileServer.login sid u pw).
Proof.
  intros s Hw. destruct Hw as [Hi [Hd [Hh [[Hm [Hn Hn']] Hs]]]].
  destruct (file_login_keeps sid u pw s Hi) as [s' [E Hi']].
  exists s'. split; [exact E|].
  unfold FileServer.login, FileServer.loginUser in E.
  sym_in E.
  all: injection E as <-.
  all: sound_leaf Hi Hm Hs Hi'.
Qed.

Lemma file_register_sound sid u pw color :
  file_sound (FileServer.register sid u pw color).
Proof.
  intros s Hw. destruct Hw as [Hi [Hd [Hh [[Hm [Hn Hn']] Hs]]]].
  destruct (file_register_keeps sid u pw color s Hi) as [s' [E Hi']].
  exists s'. split; [exact E|].
  unfold FileServer.register, FileServer.loginUser in E.
  sym_in E.
  all: injection E as <-.
  all: sound_leaf Hi Hm Hs Hi'.
Qed.

Lemma file_disconnect_sound sid : file_sound (FileServer.disconnect sid).
Proof.
  intros s Hw. destruct Hw as [Hi [Hd [Hh [[Hm [Hn Hn']] Hs]]]].
  destruct (file_disconnect_keeps sid s Hi) as [s' [E Hi']].
  exists s'. split; [exact E|].
  unfold FileServer.disconnect in E.
  sym_in E.
  all: injection E as <-.
  all: sound_leaf Hi Hm Hs Hi'.
Qed.

Lemma file_joinDistrict_sound sid d sp :
  file_sound (FileServer.joinDistrict sid d sp).
Proof.
  intros s Hw. unfold FileServer.joinDistrict.
  destruct (negb (includes DISTRICTS d)).
  - exists s. split; [reflexivity|]. split; [exact Hw | apply file_evolves_refl].
  - now apply file_handleDistrictChange_sound.
Qed.

Lemma file_handle_sound sid r : file_sound (FileServer.handle sid r).
Proof.
  destruct r; cbn [FileServer.handle].
  - apply file_register_sound.
  - apply file_login_sound.
  - apply file_disconnect_sound.
  - apply file_playerMovement_sound.
  - apply file_joinDistrict_sound.
  - apply file_buyHouse_sound.
  - apply file_handleDistrictChange_sound.
  - apply file_handleDistrictChange_sound.
  - apply file_placeFurniture_sound.
  - apply file_submitQuizAnswer_sound.
  - apply file_buyItem_sound.
  - apply file_joinBattle_sound.
  - apply file_playerAttack_sound.
  - apply file_chatMessage_sound.
Qed.

Lemma file_step_sound i (s : state FileServer.store) :
  file_wf s ->
  exists s', exec (FileBoot.step i) s = Some s' /\ file_wf s' /\
             file_evolves s s'.
Proof.
  intros Hw. destruct i as [sid|sid r]; cbn [FileBoot.step].
  - eexists. split; [reflexivity|]. split; [exact Hw|].
    exact (file_evolves_refl s).
  - destruct (file_handle_sound sid r s Hw) as [s' [E H]].
    exists s'. unfold exec. rewrite E. now split.
Qed.

Lemma file_run_sound (trace : list input) (s : state FileServer.store) :
  file_wf s ->
  exists s', FileBoot.run trace s = Some s' /\ file_wf s' /\ file_evolves s s'.
Proof.
  revert s. induction trace as [|i trace IH]; intros s Hw; cbn.
  - exists s. split; [reflexivity|]. split; [exact Hw | apply file_evolves_refl].
  - destruct (file_step_sound i s Hw) as [s1 [E [Hw1 He1]]]. rewrite E.
    destruct (IH s1 Hw1) as [s2 [E2 [Hw2 He2]]]. exists s2.
    split; [exact E2|]. split; [exact Hw2|].
    eapply file_evolves_trans; eassumption.
Qed.

Lemma file_boot_wf users houses its :
  users_keyed users -> file_wf (FileBoot.boot users houses its).
Proof.
  intros Hk. split; [now apply file_boot_inv|].
  unfold FileBoot.boot. destruct houses; cbn.
  all: split; [reflexivity|]; split; [reflexivity|]; split;
    [split; [intros sid u H; discriminate H | split; apply NoDup_nil]
    | intros sid q H; discriminate H].
Qed.
(** ** The MongoDB server *)



(** [findOne] after [updateOne] and [insertOne]. *)
Lemma find_user_updated col u u' f :
  (forall a, User.username (f a) = User.username a) -> u = u' ->
  find (MongoServer.by_username u')
       (updateOne (MongoServer.by_username u) f col)
  = option_map f (find (MongoServer.by_username u') col).
Proof.
  intros Hf <-. apply find_updateOne. intros a.
  unfold MongoServer.by_username. now rewrite Hf.
Qed.

Lemma find_user_kept col u u' f :
  (forall a, User.username (f a) = User.username a) -> u <> u' ->
  find (MongoServer.by_username u')
       (updateOne (MongoServer.by_username u) f col)
  = find (MongoServer.by_username u') col.
Proof.
  intros Hf Hne. unfold MongoServer.by_username.
  induction col as [|a col IH]; cbn; [reflexivity|].
  destruct (String.eqb_spec (User.username a) u) as [Ha|Ha]; cbn.
  - rewrite Hf.
    destruct (String.eqb_spec (User.username a) u'); [congruence|reflexivity].
  - now rewrite IH.
Qed.

Lemma find_plot_updated col k k' f :
  (forall a, House.id (f a) = House.id a) -> k = k' ->
  find (MongoServer.by_id k') (updateOne (MongoServer.by_id k) f col)
  = option_map f (find (MongoServer.by_id k') col).
Proof.
  intros Hf <-. apply find_updateOne. intros a.
  unfold MongoServer.by_id. now rewrite Hf.
Qed.

Lemma find_plot_kept col k k' f :
  (forall a, House.id (f a) = House.id a) -> k <> k' ->
  find (MongoServer.by_id k') (updateOne (MongoServer.by_id k) f col)
  = find (MongoServer.by_id k') col.
Proof.
  intros Hf Hne. unfold MongoServer.by_id.
  induction col as [|a col IH]; cbn; [reflexivity|].
  destruct (String.eqb_spec (House.id a) k) as [Ha|Ha]; cbn.
  - rewrite Hf.
    destruct (String.eqb_spec (House.id a) k'); [congruence|reflexivity].
  - now rewrite IH.
Qed.




Ltac find_cases_in H :=
  repeat match type of H with
  | context [find (MongoServer.by_username ?u')
                  (updateOne (MongoServer.by_username ?u) ?f ?col)] =>
      first
      [ rewrite (find_user_updated col u u' f) in H
          by (intros; first [reflexivity | congruence])
      | rewrite (find_user_kept col u u' f) in H
          by (intros; first [reflexivity | congruence])
      | let e := fresh "e" in
        destruct (String.eqb_spec u u') as [e|e];
        [ rewrite (find_user_updated col u u' f (fun _ => eq_refl) e) in H
        | rewrite (find_user_kept col u u' f (fun _ => eq_refl) e) in H ] ]
  | context [find (MongoServer.by_id ?u')
                  (updateOne (MongoServer.by_id ?u) ?f ?col)] =>
      first
      [ rewrite (find_plot_updated col u u' f) in H
          by (intros; first [reflexivity | congruence])
      | rewrite (find_plot_kept col u u' f) in H
          by (intros; first [reflexivity | congruence])
      | let e := fresh "e" in
        destruct (String.eqb_spec u u') as [e|e];
        [ rewrite (find_plot_updated col u u' f (fun _ => eq_refl) e) in H
        | rewrite (find_plot_kept col u u' f (fun _ => eq_refl) e) in H ] ]
  end.

































(* ------------------------------------------------------------------ *)
(** * Properties of every run *)

(** X1: on the file-backed server, after any sequence of connections and
    events from start-up, what was last written to [users.json] and
    [houses.json] is what [persistentUsers] and [persistentHouses] hold:
    no handler leaves a change of the stores unsaved. *)
Theorem stores_saved_after_every_event
    (users : Obj.t User.t) (houses : Obj.t House.t) (items : list Item.t)
    (trace : list input) :
  users_keyed users ->
  exists s,
    FileBoot.run trace (FileBoot.boot users houses items) = Some s /\
    FileServer.DATA_FILE (db s) = FileServer.persistentUsers (db s) /\
    FileServer.HOUSES_FILE (db s) = FileServer.persistentHouses (db s).
Proof.
  intros Hk.
  destruct (file_run_sound trace _ (file_boot_wf users houses items Hk))
    as [s [E [[_ [Hd [Hh _]]] _]]].
  exists s. auto.
Qed.

Lemma stores_saved_witness :
  exists s,
    FileBoot.run Demo.duel (FileBoot.boot [] [] Demo.catalog) = Some s /\
    FileServer.DATA_FILE (db s) = FileServer.persistentUsers (db s) /\
    FileServer.HOUSES_FILE (db s) = FileServer.persistentHouses (db s).
Proof.
  exact (stores_saved_after_every_event [] [] Demo.catalog Demo.duel
           users_keyed_empty).
Defined.

Lemma file_boot_items users houses its :
  FileServer.items (db (FileBoot.boot users houses its)) = its.
Proof. unfold FileBoot.boot. now destruct houses. Qed.

(** X2: on the file-backed server stored health stays between 1 and
    100.  With a catalog whose damages are not negative, after any
    sequence of events every session has more than 0 and at most 100
    health points, and a maximum of 100: [playerAttack] floors the health
    at 0 and puts a session at 0 back to 100 before it returns, and
    nothing runs in between. *)
Theorem stored_health_between_1_and_100
    (users : Obj.t User.t) (houses : Obj.t House.t) (items : list Item.t)
    (trace : list input) :
  users_keyed users ->
  harmless items ->
  exists s,
    FileBoot.run trace (FileBoot.boot users houses items) = Some s /\
    healthy s.
Proof.
  intros Hk Hf.
  destruct (file_run_sound trace _ (file_boot_wf users houses items Hk))
    as [s [E [[_ [_ [_ [_ Hs]]]] [_ [_ Hit]]]]].
  exists s. split; [exact E|]. intros sid p Hp.
  destruct (Hs sid p Hp) as [_ [Hmax [Hhp _]]]. split; [|exact Hmax].
  apply Hhp. rewrite Hit, file_boot_items. exact Hf.
Qed.

Lemma demo_catalog_harmless : harmless Demo.catalog.
Proof. repeat constructor; cbn; lia. Qed.

Lemma stored_health_witness :
  exists s,
    FileBoot.run Demo.duel (FileBoot.boot [] [] Demo.catalog) = Some s /\
    healthy s.
Proof.
  exact (stored_health_between_1_and_100 [] [] Demo.catalog Demo.duel
           users_keyed_empty demo_catalog_harmless).
Defined.

Lemma find_target_direct (ps : Obj.t Player.t) targetId :
  NoDup (Obj.keys ps) ->
  (forall sid p, Obj.get ps sid = Some p -> Player.playerId p = sid) ->
  FileServer.find_target ps targetId = direct_target ps targetId.
Proof.
  intros Hn Hid. unfold direct_target.
  destruct (FileServer.find_target ps targetId) as [[k q]|] eqn:E.
  - pose proof (find_target_get _ _ _ _ Hn E) as Hq.
    unfold FileServer.find_target in E. apply find_some in E.
    destruct E as [_ E]. cbn in E. apply String.eqb_eq in E.
    rewrite (Hid _ _ Hq) in E. subst k. now rewrite Hq.
  - destruct (Obj.get ps targetId) as [p|] eqn:Hp; [|reflexivity].
    exfalso. unfold FileServer.find_target in E.
    pose proof (find_none _ _ E (targetId, p) (in_of_get _ _ _ Hp)) as Hf.
    cbn in Hf. rewrite (Hid _ _ Hp), String.eqb_refl in Hf. discriminate Hf.
Qed.

(** X6: on the file-backed server, after any sequence of events, the
    search of [playerAttack] for the target,
    [Object.values(players).find(p => p.playerId === targetId)], finds
    exactly the session stored under [targetId] (and nothing when there
    is none): the lookup [players[targetId]] of the MongoDB server. *)
Theorem target_search_is_direct_lookup
    (users : Obj.t User.t) (houses : Obj.t House.t) (items : list Item.t)
    (trace : list input) (targetId : string) :
  users_keyed users ->
  exists s,
    FileBoot.run trace (FileBoot.boot users houses items) = Some s /\
    FileServer.find_target (players s) targetId
    = direct_target (players s) targetId.
Proof.
  intros Hk.
  destruct (file_run_sound trace _ (file_boot_wf users houses items Hk))
    as [s [E [[_ [_ [_ [[_ [Hn _]] Hs]]]] _]]].
  exists s. split; [exact E|]. apply find_target_direct; [exact Hn|].
  intros sid p Hp. apply (Hs sid p Hp).
Qed.

Lemma target_search_witness :
  exists s,
    FileBoot.run Demo.duel (FileBoot.boot [] [] Demo.catalog) = Some s /\
    FileServer.find_target (players s) "s2" = direct_target (players s) "s2".
Proof.
  exact (target_search_is_direct_lookup [] [] Demo.catalog Demo.duel "s2"
           users_keyed_empty).
Defined.





(* ------------------------------------------------------------------ *)
(** * Requests of a socket that has not logged in *)

(** X9: on the file-backed server a socket without a session can change
    nothing.  Every event other than [register], [login] and
    [disconnect], carrying a payload of the shape its handler takes
    apart, that comes from a socket for which [players] has no session
    leaves the whole state as it is and sends nothing, to anyone: each
    handler looks [players[socket.id]] up before it does anything
    else. *)
Theorem requests_without_session_are_ignored
    (s : state FileServer.store) (sid : string) (r : Req.t) :
  needs_session r = true ->
  Obj.get (players s) sid = None ->
  exec (FileServer.handle sid r) s = Some s.
Proof.
  intros Hr Hf.
  destruct r; try discriminate Hr; cbn [FileServer.handle];
    unfold FileServer.playerMovement, FileServer.joinDistrict,
      FileServer.buyHouse, FileServer.enterHouse, FileServer.leaveHouse,
      FileServer.placeFurniture, FileServer.submitQuizAnswer,
      FileServer.buyItem, FileServer.joinBattle, FileServer.playerAttack,
      FileServer.chatMessage, FileServer.handleDistrictChange;
    run;
    repeat (first [rewrite Hf | break_match_goal]; simpl_state);
    reflexivity.
Qed.

Lemma requests_without_session_witness :
  exec (FileServer.handle "s9" (Req.buyHouse "plot_1")) Demo.file_state
  = Some Demo.file_state.
Proof.
  apply (requests_without_session_are_ignored Demo.file_state
           "s9" (Req.buyHouse "plot_1"));
    reflexivity.
Defined.
(* ------------------------------------------------------------------ *)
(** * The client in the battle zone *)

Lemma candidate_near (k : Client.keys) (p : Client.player) :
  Z.abs (fst (Client.candidate k p) - Client.x p) <= 5 /\
  Z.abs (snd (Client.candidate k p) - Client.y p) <= 5.
Proof.
  unfold Client.candidate, Client.SPEED. cbn [fst snd].
  destruct (Client.w k || Client.ArrowUp k),
           (Client.s k || Client.ArrowDown k),
           (Client.a k || Client.ArrowLeft k),
           (Client.d k || Client.ArrowRight k); lia.
Qed.

(** What [move] returns is next to the player, and free when the player
    stands free. *)
Lemma move_clear (k : Client.keys) (p : Client.player) :
  ~ blocked (Client.x p) (Client.y p) ->
  let r := Client.move "arena_battle" k p in
  ~ blocked (fst (fst r)) (snd (fst r)) /\
  Z.abs (fst (fst r) - Client.x p) <= 5 /\
  Z.abs (snd (fst r) - Client.y p) <= 5.
Proof.
  intros Hfree. cbv zeta. unfold Client.move.
  pose proof (candidate_near k p) as [Hx Hy].
  destruct (Client.candidate k p) as [nx ny]. cbn [fst snd] in Hx, Hy.
  destruct (Client.checkCollision "arena_battle" nx ny Client.PLAYER_RADIUS)
    eqn:E1; cbn [negb].
  - destruct (Client.checkCollision "arena_battle" nx (Client.y p)
                Client.PLAYER_RADIUS) eqn:E2; cbn [negb].
    + destruct (Client.checkCollision "arena_battle" (Client.x p) ny
                  Client.PLAYER_RADIUS) eqn:E3; cbn [negb fst snd].
      * split; [exact Hfree|lia].
      * apply not_blocked_iff in E3. split; [exact E3|lia].
    + cbn [fst snd]. apply not_blocked_iff in E2. split; [exact E2|lia].
  - apply not_blocked_iff in E1.
    destruct (negb (nx =? Client.x p) || negb (ny =? Client.y p));
      cbn [fst snd]; (split; [assumption|lia]).
Qed.

(** The edges of the field are away from every obstacle. *)
Lemma edge_is_clear (x y : Z) :
  x <= 0 \/ 800 <= x \/ y <= 0 \/ 600 <= y -> ~ blocked x y.
Proof.
  intros Hedge [o [Hin [px [py [Hx [Hy Hd]]]]]].
  cbn in Hin.
  assert (Hfar : 15 * 15 <= (x - px) * (x - px) \/
                 15 * 15 <= (y - py) * (y - py)).
  { repeat (destruct Hin as [<-|Hin];
            [cbn in Hx, Hy; destruct Hedge as [H|[H|[H|H]]];
             [left|left|right|right]; nia|]).
    destruct Hin. }
  pose proof (Z.square_nonneg (x - px)).
  pose proof (Z.square_nonneg (y - py)).
  destruct Hfar; lia.
Qed.

(** The boundary check in the battle zone, which has no neighbour: the
    player is held inside the field, at a free place when it was at
    one. *)
Lemma arena_boundaries (c : Client.t) (p : Client.player) :
  Client.me c = Some p ->
  Client.currentDistrict c = "arena_battle" ->
  Client.isTransitioning c = false ->
  ~ blocked (Client.x p) (Client.y p) ->
  exists p',
    Client.checkDistrictBoundaries c
    = Client.mk (Some p') (Client.currentDistrict c) (Client.pressed c)
                false (Client.lastState c) (Client.quizOpen c) (Client.sent c)
    /\ position p' = clamped p
    /\ ~ blocked (Client.x p') (Client.y p').
Proof.
  intros Hme Hd Ht Hfree. unfold Client.checkDistrictBoundaries.
  rewrite Hme, Ht, Hd. unfold Client.W, Client.H, Client.OFFSET.
  change (Client.DISTRICT_MAP "arena_battle") with (fun _ : Client.side => @None string).
  cbv beta.
  assert (Hb : (if Client.x p <? 0 then (@None string, Some (800 - 75, Client.y p))
                else if 800 <? Client.x p then (None, Some (75, Client.y p))
                else if Client.y p <? 0 then (None, Some (Client.x p, 600 - 75))
                else if 600 <? Client.y p then (None, Some (Client.x p, 75))
                else (None, None))
               = (None, if Client.x p <? 0 then Some (800 - 75, Client.y p)
                        else if 800 <? Client.x p then Some (75, Client.y p)
                        else if Client.y p <? 0 then Some (Client.x p, 600 - 75)
                        else if 600 <? Client.y p then Some (Client.x p, 75)
                        else None)).
  { destruct (Client.x p <? 0), (800 <? Client.x p), (Client.y p <? 0),
             (600 <? Client.y p); reflexivity. }
  rewrite Hb. eexists. split; [reflexivity|].
  unfold position, clamped, Client.set_xy. cbn [Client.x Client.y].
  split.
  - f_equal.
    + destruct (Z.ltb_spec (Client.x p) 0).
      * destruct (Z.ltb_spec 800 0); lia.
      * destruct (Z.ltb_spec 800 (Client.x p)); lia.
    + destruct (Z.ltb_spec (Client.y p) 0).
      * destruct (Z.ltb_spec 600 0); lia.
      * destruct (Z.ltb_spec 600 (Client.y p)); lia.
  - destruct (Z.ltb_spec (Client.x p) 0).
    { apply edge_is_clear. left. destruct (Z.ltb_spec 800 0); lia. }
    destruct (Z.ltb_spec 800 (Client.x p)).
    { apply edge_is_clear. right. left. lia. }
    destruct (Z.ltb_spec (Client.y p) 0).
    { apply edge_is_clear. right. right. left.
      destruct (Z.ltb_spec 600 0); lia. }
    destruct (Z.ltb_spec 600 (Client.y p)).
    { apply edge_is_clear. right. right. right. lia. }
    exact Hfree.
Qed.

Lemma move_idle (district : string) (k : Client.keys) (p : Client.player) :
  snd (Client.move district k p) = false ->
  fst (Client.move district k p) = (Client.x p, Client.y p).
Proof.
  unfold Client.move. destruct (Client.candidate k p) as [nx ny].
  repeat match goal with
         | |- context [if ?b then _ else _] => destruct b
         end; cbn; intros H; first [discriminate H | reflexivity].
Qed.

Lemma clamped_in_bounds (p : Client.player) : in_bounds (clamped p).
Proof. unfold in_bounds, clamped. cbn [fst snd]. lia. Qed.

(** One tick in the battle zone. *)
Lemma arena_tick_keeps_free (now : Z) (c : Client.t) :
  free_in_arena c -> free_in_arena (Client.update now c).
Proof.
  intros Hc. pose proof Hc as [Hd [Ht [p [Hme [Hb Hfree]]]]].
  unfold Client.update. rewrite Hme.
  destruct (Client.quizOpen c) eqn:Hq; [exact Hc|].
  rewrite Hd.
  pose proof (move_clear (Client.pressed c) p Hfree) as Hm. cbv zeta in Hm.
  pose proof (move_idle "arena_battle" (Client.pressed c) p) as Hidle.
  destruct (Client.move "arena_battle" (Client.pressed c) p)
    as [[nx ny] moved].
  cbn [fst snd] in Hm, Hidle. destruct Hm as [Hf [Hx Hy]].
  destruct Hb as [[Hx0 Hx1] [Hy0 Hy1]]. cbn [position fst snd] in *.
  destruct moved; cbn [orb].
  - (* moved: the boundary check runs *)
    match goal with
    | |- context [if ?b then _ else _] => destruct b
    end;
      match goal with
      | |- context [Client.checkDistrictBoundaries
                      (Client.mk (Some ?q) ?d ?k ?t ?l ?z ?o)] =>
          destruct (arena_boundaries (Client.mk (Some q) d k t l z o) q
                      eq_refl eq_refl Ht Hf) as [p' [E [Hpos Hfree']]];
          rewrite E
      end;
      unfold position, clamped in Hpos; cbn [Client.x Client.y] in Hpos;
      injection Hpos as Hpx Hpy;
      (split; [reflexivity|]); (split; [reflexivity|]);
      exists p'; (split; [reflexivity|]); (split; [|exact Hfree']);
      unfold in_bounds, position; cbn [fst snd]; lia.
  - (* not moved *)
    specialize (Hidle eq_refl). injection Hidle as -> ->.
    repeat match goal with
           | |- context [if ?b then _ else _] => destruct b
           end;
      (split; [first [reflexivity | exact Hd]|]);
      (split; [first [exact Ht | reflexivity]|]);
      eexists; (split; [reflexivity|]); (split; [|exact Hfree]);
      unfold in_bounds, position; cbn [fst snd Client.x Client.y]; lia.
Qed.

Lemma clear_is_free (c : Client.t) : clear_in_arena c <-> free_in_arena c.
Proof.
  unfold clear_in_arena, free_in_arena.
  split; intros [Hd [Ht [p [Hme [Hb Hfree]]]]];
    (split; [exact Hd|]); (split; [exact Ht|]);
    exists p; (split; [exact Hme|]); (split; [exact Hb|]);
    intros H; apply Hfree;
    apply (touches_obstacle_blocked (position p)); exact H.
Qed.

(** X11: the battle zone holds its players.  A player who stands in the
    battle zone, inside the 800x600 field, at a place where its circle of
    radius 15 touches none of the six obstacles (the squares of side 80
    at (200, 150), (520, 150), (200, 370), (520, 370), (260, 260) and
    (460, 260)), and outside any transition cooldown, is still so after
    any number of ticks of [update], whatever keys are held at each tick
    and whenever the ticks happen: the movement of [update] never walks
    into an obstacle, and the zone has no exit on foot. *)
Theorem battle_zone_holds_its_players
    (ticks : list (Z * Client.keys)) (c : Client.t) :
  clear_in_arena c ->
  clear_in_arena (play ticks c).
Proof.
  intros Hc. apply clear_is_free. apply clear_is_free in Hc.
  revert c Hc. induction ticks as [|[now k] ticks IH]; intros c Hc;
    cbn [play]; [exact Hc|].
  apply IH. apply arena_tick_keeps_free. exact Hc.
Qed.

Lemma arena_spawn_is_clear :
  clear_in_arena
    (Client.mk (Some (Client.mkPlayer 400 300 "idle" None)) "arena_battle"
               ClientDemo.no_keys false "idle" false []).
Proof.
  apply clear_is_free.
  split; [reflexivity|]. split; [reflexivity|].
  eexists. split; [reflexivity|]. split.
  - unfold in_bounds, position. cbn. lia.
  - apply not_blocked_iff. reflexivity.
Qed.

Lemma battle_zone_witness :
  let c := Client.mk (Some (Client.mkPlayer 400 300 "idle" None))
                     "arena_battle" ClientDemo.no_keys false "idle" false [] in
  let up_left := Client.mkKeys true true false false false false false false in
  clear_in_arena (play [(0, up_left); (40, up_left); (80, up_left)] c).
Proof.
  exact (battle_zone_holds_its_players
           [(0, Client.mkKeys true true false false false false false false);
            (40, Client.mkKeys true true false false false false false false);
            (80, Client.mkKeys true true false false false false false false)]
           _ arena_spawn_is_clear).
Defined.





(** X13: a crossing settles.  When the boundary check sends the player
    across the one side it has exited, the player lands inside the field
    of the neighbour, 75 from the edge it came through, and once the
    500 ms cooldown is over the boundary check leaves it there: no second
    [joinDistrict] follows from the landing place. *)
Theorem crossing_lands_inside_and_settles
    (c : Client.t) (p : Client.player) (sd : Client.side) (target : string) :
  Client.me c = Some p ->
  Client.isTransitioning c = false ->
  exits p sd ->
  (forall sd', exits p sd' -> sd' = sd) ->
  Client.DISTRICT_MAP (Client.currentDistrict c) sd = Some target ->
  let arrived := Client.transition_timeout (Client.checkDistrictBoundaries c) in
  option_map position (Client.me arrived) = Some (safe_spawn p sd) /\
  in_bounds (safe_spawn p sd) /\
  Client.currentDistrict arrived = target /\
  Client.checkDistrictBoundaries arrived = arrived.
Proof.
  intros Hme Ht Hex Honly Hmap. cbv zeta.
  pose proof (boundary_one_side c p sd Hme Ht Hex Honly) as Hc.
  unfold crossing_spec in Hc. rewrite Hmap in Hc. rewrite Hc.
  assert (Hin : in_bounds (safe_spawn p sd)).
  { assert (Hl : sd <> Client.left -> 0 <= Client.x p).
    { intros Hn. destruct (Z.lt_ge_cases (Client.x p) 0) as [H|H]; [|lia].
      exfalso. apply Hn. symmetry. now apply (Honly Client.left). }
    assert (Hr : sd <> Client.right -> Client.x p <= 800).
    { intros Hn. destruct (Z.lt_ge_cases 800 (Client.x p)) as [H|H]; [|lia].
      exfalso. apply Hn. symmetry. now apply (Honly Client.right). }
    assert (Hu : sd <> Client.top -> 0 <= Client.y p).
    { intros Hn. destruct (Z.lt_ge_cases (Client.y p) 0) as [H|H]; [|lia].
      exfalso. apply Hn. symmetry. now apply (Honly Client.top). }
    assert (Hb : sd <> Client.bottom -> Client.y p <= 600).
    { intros Hn. destruct (Z.lt_ge_cases 600 (Client.y p)) as [H|H]; [|lia].
      exfalso. apply Hn. symmetry. now apply (Honly Client.bottom). }
    unfold in_bounds.
    destruct sd; cbn [safe_spawn fst snd];
      repeat match goal with
             | H : _ <> _ -> _ |- _ =>
                 first [ specialize (H ltac:(discriminate)) | clear H ]
             end; lia. }
  split; [destruct sd; reflexivity|]. split; [exact Hin|].
  split; [reflexivity|].
  unfold Client.transition_timeout, crossed, Client.checkDistrictBoundaries.
  cbn [Client.me Client.isTransitioning Client.currentDistrict Client.pressed
       Client.lastState Client.quizOpen Client.sent Client.set_xy
       Client.x Client.y Client.state Client.lastMoveTime].
  destruct Hin as [[Hx0 Hx1] [Hy0 Hy1]].
  unfold Client.W, Client.H, Client.OFFSET.
  assert (E1 : (fst (safe_spawn p sd) <? 0) = false) by lia.
  assert (E2 : (800 <? fst (safe_spawn p sd)) = false) by lia.
  assert (E3 : (snd (safe_spawn p sd) <? 0) = false) by lia.
  assert (E4 : (600 <? snd (safe_spawn p sd)) = false) by lia.
  rewrite ?E1, ?E2, ?E3, ?E4. cbn [fst snd]. rewrite ?E1, ?E2, ?E3, ?E4.
  reflexivity.
Qed.

Lemma crossing_settles_witness :
  let arrived := Client.transition_timeout
                   (Client.checkDistrictBoundaries ClientDemo.past_left_edge) in
  option_map position (Client.me arrived)
  = Some (safe_spawn (Client.mkPlayer (-5) 300 "walking" None) Client.left) /\
  in_bounds (safe_spawn (Client.mkPlayer (-5) 300 "walking" None) Client.left) /\
  Client.currentDistrict arrived = "housing" /\
  Client.checkDistrictBoundaries arrived = arrived.
Proof.
  apply (crossing_lands_inside_and_settles ClientDemo.past_left_edge
           (Client.mkPlayer (-5) 300 "walking" None) Client.left "housing"
           eq_refl eq_refl).
  - cbn. lia.
  - intros sd'. destruct sd'; cbn; intros H; try reflexivity; lia.
  - reflexivity.
Defined.
(* ------------------------------------------------------------------ *)
(** * What the moving client sees after a transfer *)






(* ------------------------------------------------------------------ *)
(** * An attack that lands *)

Lemma file_attack_lands sid targetId attacker target
    (s : state FileServer.store) :
  file_wf s ->
  Obj.get (players s) sid = Some attacker ->
  Obj.get (players s) targetId = Some target ->
  Player.district attacker = "arena_battle" ->
  Player.district target = "arena_battle" ->
  same_team attacker target = false ->
  exists s',
    exec (FileServer.handle sid (Req.playerAttack targetId)) s = Some s' /\
    attack_lands (fun s => Obj.get (FileServer.persistentUsers (db s)))
      s' sid targetId attacker target
      (attack_damage (FileServer.items (db s)) (Player.equipment attacker) 10).
Proof.
  intros Hw Ha Ht Hda Hdt Hg.
  destruct Hw as [Hi [Hd [Hh [[Hm [Hn Hn']] Hs]]]].
  destruct (file_playerAttack_keeps sid targetId s Hi) as [s' [E Hi']].
  exists s'. split; [unfold exec; cbn [FileServer.handle]; now rewrite E|].
  assert (Hf : FileServer.find_target (players s) targetId
               = Some (targetId, target)).
  { rewrite (find_target_direct _ targetId Hn
               (fun k q Hq => proj1 (Hs k q Hq))).
    unfold direct_target. now rewrite Ht. }
  destruct (Hs _ _ Ha) as [_ [_ [_ [[acc [Hacc _]] _]]]].
  unfold same_team in Hg.
  unfold FileServer.playerAttack in E. run_in E.
  rewrite Ha, Hf, Hda, Hdt in E. cbn [String.eqb Ascii.eqb Bool.eqb negb orb] in E.
  rewrite Hg in E. unfold attack_lands, attack_damage.
  set (dmg := match find_weapon _ _ with Some w => Item.damage w | None => 10 end) in *.
  destruct (String.eqb_spec sid targetId) as [e|e].
  - subst targetId. assert (target = attacker) by congruence. subst target.
    destruct (Z.ltb_spec 0 (Player.hp attacker - dmg)) as [Hp|Hp].
    + rewrite Z.max_r in E by lia.
      destruct (Z.leb_spec (Player.hp attacker - dmg) 0) as [Hq|Hq]; [lia|].
      sym_in E. injection E as <-. cbn. rewrite get_set_eq. split; [reflexivity|congruence].
    + rewrite Z.max_l in E by lia. cbn [Z.leb Z.compare] in E.
      sym_in E.
      all: injection E as <-.
      all: cbn.
      all: try (match goal with
                | H : Obj.get _ (Player.username _) = None |- _ =>
                    cbn in H; congruence
                end).
      all: rewrite ?get_set_eq.
      all: do 3 eexists; repeat split; reflexivity.
  - destruct (Z.ltb_spec 0 (Player.hp target - dmg)) as [Hp|Hp].
    + rewrite Z.max_r in E by lia.
      destruct (Z.leb_spec (Player.hp target - dmg) 0) as [Hq|Hq]; [lia|].
      sym_in E. injection E as <-. cbn. rewrite get_set_eq.
      split; [reflexivity|]. intros _. now rewrite get_set_ne by congruence.
    + rewrite Z.max_l in E by lia. cbn [Z.leb Z.compare] in E.
      repeat (progress (simpl_state;
                        rewrite ?get_set_eq, ?Ha, ?Ht, ?Hacc in E;
                        rewrite ?get_set_ne in E by congruence;
                        cbn [Player.username Player.set_money Player.set_hp
                             Player.money] in E)).
      injection E as <-. cbn.
      rewrite get_set_eq, (get_set_ne _ targetId sid) by congruence.
      rewrite !get_set_eq.
      do 3 eexists; repeat split; reflexivity.
Qed.

(** X15: what an attack that lands leaves behind on the file-backed
    server.  After any sequence of events, when attacker and target both
    have a session in the combat zone and are not team-mates in team
    mode, the damage is that of the first catalog item with the id of
    the attacker's equipment, and 10 without one.  If the target's
    health exceeds the damage, the target loses exactly that much and
    the attacker's session, when it is another one, is unchanged;
    otherwise the target is stored at health 100 at (400, 300), and the
    attacker has 50 coins more in its session and the same balance in
    its saved account.  The same holds when a player attacks itself. *)
Theorem attack_wounds_or_respawns_and_pays
    (users : Obj.t User.t) (houses : Obj.t House.t) (items : list Item.t)
    (trace : list input) (sid targetId : string) :
  users_keyed users ->
  attack_resolved
    (fun s => Obj.get (FileServer.persistentUsers (db s)))
    (fun s => FileServer.items (db s)) 10 same_team
    (FileBoot.run trace (FileBoot.boot users houses items))
    (FileServer.handle sid (Req.playerAttack targetId)) sid targetId.
Proof.
  intros Hk.
  destruct (file_run_sound trace _ (file_boot_wf users houses items Hk))
    as [s [E [Hw _]]].
  exists s. split; [exact E|]. intros attacker target Ha Ht Hda Hdt Hg.
  now apply file_attack_lands.
Qed.

Lemma attack_outcome_witness :
  attack_resolved
    (fun s => Obj.get (FileServer.persistentUsers (db s)))
    (fun s => FileServer.items (db s)) 10 same_team
    (FileBoot.run Demo.duel (FileBoot.boot [] [] Demo.catalog))
    (FileServer.handle "s1" (Req.playerAttack "s2")) "s1" "s2".
Proof.
  exact (attack_wounds_or_respawns_and_pays [] [] Demo.catalog
           Demo.duel "s1" "s2" users_keyed_empty).
Defined.
(* ------------------------------------------------------------------ *)
(** * The plot map sent at login (MongoDB server) *)

Lemma find_snoc {A} (f : A -> bool) (l : list A) (a : A) :
  find f (l ++ [a])
  = match find f l with
    | Some b => Some b
    | None => if f a then Some a else None
    end.
Proof.
  induction l as [|b l IH]; cbn; [reflexivity|].
  destruct (f b); [reflexivity|exact IH].
Qed.

Lemma houses_by_id_from (arr : list House.t) (o : Obj.t House.t) id :
  Obj.get (fold_left (fun o h => Obj.set o (House.id h) h) arr o) id
  = match find (MongoServer.by_id id) (rev arr) with
    | Some h => Some h
    | None => Obj.get o id
    end.
Proof.
  revert o. induction arr as [|a arr IH]; intros o; cbn [fold_left rev].
  - reflexivity.
  - rewrite IH, find_snoc.
    destruct (find (MongoServer.by_id id) (rev arr)); [reflexivity|].
    unfold MongoServer.by_id.
    destruct (String.eqb_spec (House.id a) id) as [e|e].
    + rewrite e. apply get_set_eq.
    + now apply get_set_ne.
Qed.

Lemma find_absent (arr : list House.t) id :
  ~ In id (map House.id arr) -> find (MongoServer.by_id id) arr = None.
Proof.
  intros H. destruct (find _ arr) as [h|] eqn:E; [|reflexivity].
  exfalso. apply find_some in E. destruct E as [Hin E].
  unfold MongoServer.by_id in E. apply String.eqb_eq in E.
  apply H. rewrite <- E. now apply in_map.
Qed.

Lemma find_rev_unique (arr : list House.t) id :
  NoDup (map House.id arr) ->
  find (MongoServer.by_id id) (rev arr) = find (MongoServer.by_id id) arr.
Proof.
  induction arr as [|a arr IH]; intros Hn; [reflexivity|].
  cbn [map] in Hn. apply NoDup_cons_iff in Hn. destruct Hn as [Hnot Hn].
  cbn [rev find]. rewrite find_snoc, (IH Hn).
  destruct (MongoServer.by_id id a) eqn:E.
  - unfold MongoServer.by_id in E. apply String.eqb_eq in E.
    rewrite find_absent; [reflexivity|now rewrite <- E].
  - now destruct (find _ arr).
Qed.

(** X16: the plot map the MongoDB server builds from the [houses]
    collection at login ([houseData]) holds, under each id, the last
    document of the collection with that id, and nothing under any other
    id.  When no two documents share an id, that is the document
    [findOne({id})] returns, the one [buyHouse] and [placeFurniture]
    read. *)
Theorem plot_map_holds_last_document_per_id
    (arr : list House.t) (id : string) :
  Obj.get (MongoServer.houses_by_id arr) id
    = find (MongoServer.by_id id) (rev arr) /\
  (NoDup (map House.id arr) ->
   Obj.get (MongoServer.houses_by_id arr) id
     = find (MongoServer.by_id id) arr).
Proof.
  assert (H : Obj.get (MongoServer.houses_by_id arr) id
              = find (MongoServer.by_id id) (rev arr)).
  { unfold MongoServer.houses_by_id. rewrite houses_by_id_from.
    now destruct (find _ (rev arr)). }
  split; [exact H|]. intros Hn. now rewrite H, find_rev_unique.
Qed.
(* ------------------------------------------------------------------ *)
(** * What a movement tells the district *)



(* ------------------------------------------------------------------ *)
(** * Handlers that overlap (MongoDB server) *)

(** X19: on the MongoDB server two attacks that overlap are both paid
    for one kill.  bob is at 30 health and alice, with the blaster
    (damage 35) and 750 coins, sends [playerAttack] twice at once.  The
    first brings bob to -5 and waits for the account update of its
    reward (l.285); the second, which passed the zone test before, then
    hits the fallen bob, brings him to -40 and is rewarded too.  When
    both handlers have ended bob is back at 100 and alice has 850 coins,
    in her session and in her account; the two [playerHit] broadcasts
    carried -5 and -40. *)
Theorem mongo_overlapping_attacks_are_both_rewarded :
  exists w0 w,
    MongoLoop.run Overlap.duel_begins
      (MongoLoop.boot [] [] [] Demo.plots Demo.catalog) = Some w0 /\
    MongoLoop.waiting w0 = [] /\
    option_map Player.hp (Obj.get (players (MongoLoop.mem w0)) "s2")
      = Some 30 /\
    option_map Player.money (Obj.get (players (MongoLoop.mem w0)) "s1")
      = Some 750 /\
    MongoLoop.run Overlap.two_attacks
      (MongoLoop.boot [] [] [] Demo.plots Demo.catalog) = Some w /\
    MongoLoop.waiting w = [] /\
    option_map Player.hp (Obj.get (players (MongoLoop.mem w)) "s2")
      = Some 100 /\
    option_map Player.money (Obj.get (players (MongoLoop.mem w)) "s1")
      = Some 850 /\
    mongo_balance_saved "alice" 850 (MongoLoop.mem w) /\
    delivered_since (MongoLoop.mem w0) (MongoLoop.mem w)
      ("s1", Ev.playerHit "s2" (-5) "s1") /\
    delivered_since (MongoLoop.mem w0) (MongoLoop.mem w)
      ("s1", Ev.playerHit "s2" (-40) "s1").
Proof.
  eexists. eexists.
  split; [vm_compute; reflexivity|].
  split; [reflexivity|]. split; [reflexivity|]. split; [reflexivity|].
  split; [vm_compute; reflexivity|].
  split; [reflexivity|]. split; [reflexivity|]. split; [reflexivity|].
  split; [eexists; split; reflexivity|].
  split; (eexists; split; [reflexivity|]; cbn; tauto).
Qed.

(** X20: on the MongoDB server a session is stored and sent with negative
    health while the reward of its fall is being saved.  bob is at 30
    health; alice's third hit with the blaster brings him to -5 and the
    handler waits for the account update (l.285) before it puts him back
    to 100.  bob moves meanwhile: [players] has him at -5 health, and the
    [playerMoved] his movement sends to alice carries the session with
    -5 health. *)
Theorem mongo_fallen_session_is_sent_with_negative_health :
  exists w q,
    MongoLoop.run Overlap.wounded_moves
      (MongoLoop.boot [] [] [] Demo.plots Demo.catalog) = Some w /\
    List.length (MongoLoop.waiting w) = 1%nat /\
    Obj.get (players (MongoLoop.mem w)) "s2" = Some q /\
    Player.hp q = -5 /\
    In ("s1", Ev.playerMoved q) (outbox (MongoLoop.mem w)).
Proof.
  eexists. eexists.
  split; [vm_compute; reflexivity|].
  split; [reflexivity|]. split; [reflexivity|]. split; [reflexivity|].
  cbn. tauto.
Qed.

